(** * Diet Plan Dashboard: recipe lookup service and meal aggregation views

    A shallow embedding of the reviewed core of the application:
    - [ai_service.py]: [get_default_model], [get_cached_recipe],
      [cache_recipe], [build_prompt], [query_ai];
    - [main.py]: the day view ([dashboard]), the week view ([history]), the
      handlers that mark, open, add, copy, edit and delete meals and that
      administer the models, [log_activity] and [parse_user_agent];
    - [database.py]: the constraints of the schema and the model seeding.

    Conventions of the embedding.
    - A Python [str] is the Rocq [string] of its UTF-8 bytes.  [len] and
      slicing count characters ([char_length], [slice_to]).  [lower] and
      [isspace] are those of Python on ASCII text: [A..Z] goes to [a..z],
      and U+0009..U+000D, U+001C..U+001F and U+0020 are blank; bytes of
      other characters are left alone, so the statements about letter case
      and trimming are statements about ASCII text.
    - The SQLite store is a record of tables.  A table is the list of its
      rows in scan order; the recipe cache, whose rows are identified by the
      [UNIQUE(dish_name, model_id)] key, is a finite map on that key.  An
      integer parameter must fit in 64 bits ([int64]), or binding it raises
      [OverflowError]; a [REAL] column holds a float, with NaN standing for
      [NULL] (SQLite stores a NaN parameter as [NULL]).
    - A calendar date, as a Python [date] and as its ISO text in the
      [plan_date] column alike, is its proleptic Gregorian ordinal
      ([date.toordinal()]); the upload path validates every [plan_date] with
      [date.fromisoformat] and the admin forms post a date input.
    - A raised Python exception is the [Raised] case of [py_result];
      the outbound HTTP call and the cache writes are recorded in a trace of
      [event]s.
    - The recipe lookup is embedded twice.  [AiService.query_ai] is the
      lookup on the runs in which the store calls succeed and the upstream
      content is text or [null]; [Lookup.query_ai] is the whole function,
      with store calls that may raise and any JSON value as content;
      [query_ai_refines] relates the two.  Likewise [Main.dashboard] and
      [Main.history] build the view, and [Views.dashboard] and
      [Views.history] are the whole handlers, with the activity log and the
      navigation dates. *)

From Stdlib Require Import ZArith Lia List Ascii String Sorting.Permutation.
From Stdlib Require Import Floats.PrimFloat.
From stdpp Require Import base gmap strings list pretty.

Local Open Scope string_scope.
Local Open Scope Z_scope.

(** ** Python strings *)

Module PyStr.

(** The double quote character, [chr(34)]. *)
Definition dquote : string := String (ascii_of_nat 34) EmptyString.

(** [str.isspace] on one ASCII character; the bytes of other characters
    are not blank here. *)
Definition isspace (c : ascii) : bool :=
  let n := N_of_ascii c in
  (((9 <=? n) && (n <=? 13)) || ((28 <=? n) && (n <=? 32)))%N.

Definition isupper (c : ascii) : bool :=
  let n := N_of_ascii c in ((65 <=? n) && (n <=? 90))%N.

Definition islower (c : ascii) : bool :=
  let n := N_of_ascii c in ((97 <=? n) && (n <=? 122))%N.

Definition lower_char (c : ascii) : ascii :=
  if isupper c then ascii_of_N (N_of_ascii c + 32) else c.

(** [s.lower()] on ASCII text; the bytes of other characters are kept. *)
Fixpoint lower (s : string) : string :=
  match s with
  | EmptyString => EmptyString
  | String c s' => String (lower_char c) (lower s')
  end.

(** [s.lstrip()] *)
Fixpoint lstrip (s : string) : string :=
  match s with
  | EmptyString => EmptyString
  | String c s' => if isspace c then lstrip s' else s
  end.

(** [s.rstrip()] *)
Fixpoint rstrip (s : string) : string :=
  match s with
  | EmptyString => EmptyString
  | String c s' =>
      match rstrip s' with
      | EmptyString => if isspace c then EmptyString else String c EmptyString
      | r => String c r
      end
  end.

(** [s.strip()] *)
Definition strip (s : string) : string := rstrip (lstrip s).

(** A byte that continues a character of the UTF-8 text ([10xxxxxx]);
    every other byte starts one. *)
Definition is_continuation (c : ascii) : bool :=
  let n := N_of_ascii c in ((128 <=? n) && (n <? 192))%N.

(** [len(s)]: the number of characters. *)
Fixpoint char_length (s : string) : nat :=
  match s with
  | EmptyString => O
  | String c s' =>
      if is_continuation c then char_length s' else S (char_length s')
  end.

(** [s[:n]]: the first [n] characters, each with all its bytes. *)
Fixpoint slice_to (n : nat) (s : string) : string :=
  match s with
  | EmptyString => EmptyString
  | String c s' =>
      if is_continuation c then String c (slice_to n s')
      else
        match n with
        | O => EmptyString
        | S n' => String c (slice_to n' s')
        end
  end.



(** Truth value of a [str]: the empty string is false. *)
Definition truthy (s : string) : bool :=
  match s with EmptyString => false | _ => true end.

(** Truth value of [x] where [x] is [None] or a [str]. *)
Definition truthy_opt (o : option string) : bool :=
  match o with None => false | Some s => truthy s end.

(** [x or ""] where [x] is [None] or a [str]. *)
Definition or_empty (o : option string) : string :=
  match o with
  | Some s => if truthy s then s else ""
  | None => ""
  end.

End PyStr.

(** ** Results of Python calls *)

Inductive py_result (A : Type) : Type :=
| Raised (exc : string)
| Returned (a : A).
Arguments Raised {A} exc.
Arguments Returned {A} a.

#[global] Instance py_result_ret : MRet py_result := fun A a => Returned a.
#[global] Instance py_result_bind : MBind py_result :=
  fun A B f m => match m with Raised e => Raised e | Returned a => f a end.

(** ** The store *)

Record ai_model := {
  am_id : Z;
  provider : string;
  model_id : string;
  display_name : string;
  api_key : option string;     (* TEXT DEFAULT '', nullable *)
  is_default : Z;
}.

Record profile := {
  pr_id : Z;
  pr_name : string;
}.

(** A row of [meal_plans].  The four [REAL] columns are nullable: NaN
    stands for [NULL]. *)
Record meal := {
  id : Z;
  plan_date : Z;
  meal_type : string;
  dish_name : string;
  description : string;
  calories : Z;
  protein_g : float;
  carbs_g : float;
  fat_g : float;
  fiber_g : float;
  profile_id : option Z;       (* NULL: shared with every profile *)
  created_at : string;
}.

Record meal_check := {
  mc_id : Z;
  mc_profile_id : Z;
  mc_meal_plan_id : Z;
  is_prepared : Z;
}.

Record Db := {
  profiles : list profile;
  meal_plans : list meal;
  meal_checks : list meal_check;
  ai_models : list ai_model;
  ai_recipe_cache : gmap (string * string) string;
}.

Definition with_cache (db : Db) (c : gmap (string * string) string) : Db :=
  {| profiles := profiles db; meal_plans := meal_plans db;
     meal_checks := meal_checks db; ai_models := ai_models db;
     ai_recipe_cache := c |}.

Definition with_meal_plans (db : Db) (l : list meal) : Db :=
  {| profiles := profiles db; meal_plans := l;
     meal_checks := meal_checks db; ai_models := ai_models db;
     ai_recipe_cache := ai_recipe_cache db |}.

(** ** The recipe lookup service ([ai_service.py]) *)

Module AiService.
Import PyStr.

Definition GROQ_API_URL : string :=
  "https://api.groq.com/openai/v1/chat/completions".
Definition OPENROUTER_API_URL : string :=
  "https://openrouter.ai/api/v1/chat/completions".

(** [SELECT * FROM ai_models WHERE is_default = 1 LIMIT 1], and when that
    gives no row [SELECT * FROM ai_models LIMIT 1]. *)
Definition get_default_model (db : Db) : option ai_model :=
  match find (fun m => (is_default m =? 1)%Z) (ai_models db) with
  | Some model => Some model
  | None => head (ai_models db)
  end.

(** [SELECT recipe_html FROM ai_recipe_cache WHERE dish_name = ? AND
    model_id = ?] with [(dish_name.lower().strip(), model_id)]. *)
Definition get_cached_recipe (db : Db) (dish_name model_id : string)
  : option string :=
  ai_recipe_cache db !! (strip (lower dish_name), model_id).

(** [INSERT OR REPLACE INTO ai_recipe_cache (dish_name, model_id,
    recipe_html)] with [(dish_name.lower().strip(), model_id, recipe_html)].
    The column [recipe_html] is [NOT NULL]: storing [None] raises
    [sqlite3.IntegrityError]. *)
Definition cache_recipe (db : Db) (dish_name model_id : string)
    (recipe_html : option string) : py_result Db :=
  match recipe_html with
  | None =>
      Raised "NOT NULL constraint failed: ai_recipe_cache.recipe_html"
  | Some html =>
      Returned (with_cache db
        (<[ (strip (lower dish_name), model_id) := html ]>
           (ai_recipe_cache db)))
  end.

Definition build_prompt (dish_name : string) : string :=
  "You are a nutrition expert and chef. Provide detailed information about the dish: "
  +:+ dquote +:+ dish_name +:+ dquote +:+ "

Please provide the following in clean HTML format (no markdown, use HTML tags):

<h3>📋 Recipe: " +:+ dish_name +:+ "</h3>

<h4>🥗 Nutritional Information (per serving)</h4>
<ul>
<li>Calories: estimated kcal</li>
<li>Protein: g</li>
<li>Carbohydrates: g</li>
<li>Fat: g</li>
<li>Fiber: g</li>
<li>Sugar: g</li>
</ul>

<h4>🛒 Ingredients</h4>
<ul>List all ingredients with quantities</ul>

<h4>👨‍🍳 Preparation Steps</h4>
<ol>Step by step cooking instructions</ol>

<h4>⏱️ Cooking Time</h4>
<p>Prep time, cook time, total time</p>

<h4>💡 Health Benefits</h4>
<ul>Key health benefits of this dish</ul>

<h4>⚠️ Dietary Notes</h4>
<p>Any allergens, dietary restrictions info (vegan, gluten-free, etc.)</p>

Keep the response concise but informative. Use clean, well-formatted HTML only.".

(** The POST issued through [httpx.AsyncClient(timeout=30.0)]. *)
Record http_request := {
  req_url : string;
  req_headers : list (string * string);
  req_model : string;
  req_messages : list (string * string);   (* (role, content) *)
  req_max_tokens : Z;
  req_temperature : float;
}.

(** What [data["choices"][0]["message"]["content"]] evaluates to on the
    body of a response, for a content that is text or [null]; a content that
    is another JSON value is covered by [Lookup.json_content]. *)
Inductive completion :=
| NoContent (err : string)   (* [response.json()] or the indexing raises; [err] is [str(e)] *)
| NullContent                (* the content is JSON [null] *)
| Content (html : string).

Record http_response := {
  status_code : Z;
  text : string;
  body : completion;
}.

(** What [client.post] does. *)
Inductive post_outcome :=
| PostTimeout                       (* raises [httpx.TimeoutException] *)
| PostFailure (err : string)        (* raises another exception; [err] is [str(e)] *)
| PostResponse (r : http_response).

(** The exceptions the handlers of [query_ai] tell apart. *)
Inductive exn :=
| TimeoutException
| HTTPStatusError (status : Z) (response_text : string)
| Exception (msg : string).

(** Observable effects of one call. *)
Inductive event :=
| EvHttpPost (req : http_request)
| EvCacheWrite (key : string * string) (html : string).

(** [response.raise_for_status()]: anything but 2xx raises. *)
Definition is_success (r : http_response) : bool :=
  ((200 <=? status_code r) && (status_code r <=? 299))%Z.

Definition environ_get (environ : gmap string string) (k dflt : string)
  : string :=
  match environ !! k with Some v => v | None => dflt end.

(** The body of the [try] block: the effects performed, the store they
    leave, and the value returned or the exception raised. *)
Definition post_and_cache (db : Db) (net : http_request -> post_outcome)
    (req : http_request) (dish_name model_id : string)
  : list event * Db * (exn + string) :=
  match net req with
  | PostTimeout => ([EvHttpPost req], db, inl TimeoutException)
  | PostFailure err => ([EvHttpPost req], db, inl (Exception err))
  | PostResponse response =>
      if is_success response then
        match body response with
        | NoContent err => ([EvHttpPost req], db, inl (Exception err))
        | NullContent =>
            match cache_recipe db dish_name model_id None with
            | Raised err => ([EvHttpPost req], db, inl (Exception err))
            | Returned db' =>      (* not reached: the store rejects [None] *)
                ([EvHttpPost req], db', inl (Exception "None"))
            end
        | Content content =>
            match cache_recipe db dish_name model_id (Some content) with
            | Raised err => ([EvHttpPost req], db, inl (Exception err))
            | Returned db' =>
                ([EvHttpPost req;
                  EvCacheWrite (strip (lower dish_name), model_id) content],
                 db', inr content)
            end
        end
      else
        ([EvHttpPost req], db,
         inl (HTTPStatusError (status_code response) (text response)))
  end.

(** [query_ai] on the runs in which the store calls raise nothing and the
    content is text or [null]: the string returned, the store left and the
    effects performed.  [Lookup.query_ai] below is the function with the
    exceptions of the store calls and with any content. *)
Definition query_ai (db : Db) (environ : gmap string string)
    (net : http_request -> post_outcome) (dish_name : string)
  : string * Db * list event :=
  match get_default_model db with
  | None =>
      ("<p class='error'>No AI model configured. Ask admin to add one.</p>",
       db, [])
  | Some model =>
      let cached := get_cached_recipe db dish_name (model_id model) in
      if truthy_opt cached then
        (or_empty cached, db, [])      (* [cached] is a non-empty [str] here *)
      else
        let provider := provider model in
        let model_id := model_id model in
        let api_key := or_empty (api_key model) in
        let endpoint :=
          if String.eqb provider "groq" then
            Some (GROQ_API_URL,
                  if truthy api_key then api_key
                  else environ_get environ "GROQ_API_KEY" "")
          else if String.eqb provider "openrouter" then
            Some (OPENROUTER_API_URL,
                  if truthy api_key then api_key
                  else environ_get environ "OPENROUTER_API_KEY" "")
          else None in
        match endpoint with
        | None => ("<p class='error'>Unknown AI provider configured.</p>", db, [])
        | Some (api_url, api_key) =>
            if negb (truthy api_key) then
              ("<p class='error'>API key not configured for " +:+ provider
               +:+ ". Set the API key in admin settings or environment variable.</p>",
               db, [])
            else
              let headers :=
                ([("Authorization", "Bearer " +:+ api_key);
                  ("Content-Type", "application/json")]
                 ++ (if String.eqb provider "openrouter" then
                       [("HTTP-Referer",
                         environ_get environ "APP_URL" "http://localhost:8000");
                        ("X-Title", "Diet Plan Dashboard")]
                     else []))%list in
              let payload :=
                {| req_url := api_url;
                   req_headers := headers;
                   req_model := model_id;
                   req_messages :=
                     [("system", "You are a nutrition expert and professional chef. Respond only in clean HTML format.");
                      ("user", build_prompt dish_name)];
                   req_max_tokens := 2000;
                   req_temperature := 0x1.6666666666666p-1%float (* 0.7 *) |} in
              match post_and_cache db net payload dish_name model_id with
              | (evs, db', inr content) => (content, db', evs)
              | (evs, db', inl TimeoutException) =>
                  ("<p class='error'>AI service timed out. Please try again.</p>",
                   db', evs)
              | (evs, db', inl (HTTPStatusError status response_text)) =>
                  ("<p class='error'>AI service error: " +:+ pretty status
                   +:+ " — " +:+ slice_to 200 response_text +:+ "</p>",
                   db', evs)
              | (evs, db', inl (Exception e)) =>
                  ("<p class='error'>Error querying AI: " +:+ e +:+ "</p>",
                   db', evs)
              end
        end
  end.

Definition is_http_post (e : event) : bool :=
  match e with EvHttpPost _ => true | _ => false end.
Definition is_cache_write (e : event) : bool :=
  match e with EvCacheWrite _ _ => true | _ => false end.

(** Number of outbound requests and of cache writes in a trace. *)
Definition http_calls (evs : list event) : nat :=
  length (filter is_http_post evs).
Definition cache_writes (evs : list event) : nat :=
  length (filter is_cache_write evs).

End AiService.

(** ** The recipe lookup with its failures ([ai_service.py]) *)

Module Lookup.
Import PyStr AiService.

(** Whether the store calls of the service fail.  Each of
    [get_default_model], [get_cached_recipe] and [cache_recipe] opens a
    connection with [get_db] and runs one statement; when the store is
    unavailable (the file cannot be opened, the database is locked, a table
    is missing) the call raises, and the field holds the text of the
    exception. *)
Record faults := {
  get_default_model_raises : option string;
  get_cached_recipe_raises : option string;
  cache_recipe_raises : option string;
}.

Definition no_faults : faults :=
  {| get_default_model_raises := None;
     get_cached_recipe_raises := None;
     cache_recipe_raises := None |}.

(** The JSON value found at [data["choices"][0]["message"]["content"]]: a
    string, [null], or another value (a number, a boolean, an array, an
    object).  For another value, [shown] is its [str()] text, which an
    f-string shows, and [stored] is what binding it as the [recipe_html]
    parameter gives: the text that the [TEXT] column stores, or the exception
    that the bind raises. *)
Inductive json_content :=
| JsonString (s : string)
| JsonNull
| JsonOther (shown : string) (stored : py_result string).

(** What [data["choices"][0]["message"]["content"]] evaluates to on the
    body of a response. *)
Inductive completion :=
| NoContent (err : string)   (* [response.json()] or the indexing raises; [err] is [str(e)] *)
| Content (content : json_content).

Record http_response := {
  status_code : Z;
  text : string;
  body : completion;
}.

(** What [client.post] does. *)
Inductive post_outcome :=
| PostTimeout                       (* raises [httpx.TimeoutException] *)
| PostFailure (err : string)        (* raises another exception; [err] is [str(e)] *)
| PostResponse (r : http_response).

(** [response.raise_for_status()]: anything but 2xx raises. *)
Definition is_success (r : http_response) : bool :=
  ((200 <=? status_code r) && (status_code r <=? 299))%Z.

(** A value that [query_ai] returns: a [str], or a value that is no [str],
    given by its [str()] text. *)
Inductive py_value :=
| Str (s : string)
| NotStr (shown : string).

(** [f"{v}"] *)
Definition format (v : py_value) : string :=
  match v with
  | Str s => s
  | NotStr shown => shown
  end.

Definition get_default_model (io : faults) (db : Db)
  : py_result (option ai_model) :=
  match get_default_model_raises io with
  | Some e => Raised e
  | None => Returned (AiService.get_default_model db)
  end.

Definition get_cached_recipe (io : faults) (db : Db)
    (dish_name model_id : string) : py_result (option string) :=
  match get_cached_recipe_raises io with
  | Some e => Raised e
  | None => Returned (AiService.get_cached_recipe db dish_name model_id)
  end.

(** [cache_recipe] on the content as it arrived.  It returns the text it
    stored and the store it leaves. *)
Definition cache_recipe (io : faults) (db : Db) (dish_name model_id : string)
    (content : json_content) : py_result (string * Db) :=
  match cache_recipe_raises io with
  | Some e => Raised e
  | None =>
      match content with
      | JsonString s =>
          db' ← AiService.cache_recipe db dish_name model_id (Some s);
          Returned (s, db')
      | JsonNull =>
          db' ← AiService.cache_recipe db dish_name model_id None;
          Returned ("", db')      (* not reached: the store rejects [None] *)
      | JsonOther _ (Raised e) => Raised e
      | JsonOther _ (Returned s) =>
          db' ← AiService.cache_recipe db dish_name model_id (Some s);
          Returned (s, db')
      end
  end.

(** [return content] *)
Definition value_of (content : json_content) : py_value :=
  match content with
  | JsonString s => Str s
  | JsonNull => NotStr "None"
  | JsonOther shown _ => NotStr shown
  end.

(** The body of the [try] block: the effects performed, the store they
    leave, and the value returned or the exception raised. *)
Definition post_and_cache (io : faults) (db : Db)
    (net : http_request -> post_outcome) (req : http_request)
    (dish_name model_id : string)
  : list event * Db * (exn + py_value) :=
  match net req with
  | PostTimeout => ([EvHttpPost req], db, inl TimeoutException)
  | PostFailure err => ([EvHttpPost req], db, inl (Exception err))
  | PostResponse response =>
      if is_success response then
        match body response with
        | NoContent err => ([EvHttpPost req], db, inl (Exception err))
        | Content content =>
            match cache_recipe io db dish_name model_id content with
            | Raised err => ([EvHttpPost req], db, inl (Exception err))
            | Returned (html, db') =>
                ([EvHttpPost req;
                  EvCacheWrite (strip (lower dish_name), model_id) html],
                 db', inr (value_of content))
            end
        end
      else
        ([EvHttpPost req], db,
         inl (HTTPStatusError (status_code response) (text response)))
  end.

(** [query_ai]: the value returned with the store it leaves and the effects
    performed, or the exception that reaches the caller.  The two store
    reads come before the [try] block, so what they raise is raised by
    [query_ai]; what the block raises is turned into a fragment. *)
Definition query_ai (io : faults) (db : Db) (environ : gmap string string)
    (net : http_request -> post_outcome) (dish_name : string)
  : py_result (py_value * Db * list event) :=
  model ← get_default_model io db;
  match model with
  | None =>
      Returned
        (Str "<p class='error'>No AI model configured. Ask admin to add one.</p>",
         db, [])
  | Some model =>
      cached ← get_cached_recipe io db dish_name (model_id model);
      if truthy_opt cached then
        Returned (Str (or_empty cached), db, [])   (* [cached] is a non-empty [str] here *)
      else
        let provider := provider model in
        let model_id := model_id model in
        let api_key := or_empty (api_key model) in
        let endpoint :=
          if String.eqb provider "groq" then
            Some (GROQ_API_URL,
                  if truthy api_key then api_key
                  else environ_get environ "GROQ_API_KEY" "")
          else if String.eqb provider "openrouter" then
            Some (OPENROUTER_API_URL,
                  if truthy api_key then api_key
                  else environ_get environ "OPENROUTER_API_KEY" "")
          else None in
        match endpoint with
        | None =>
            Returned
              (Str "<p class='error'>Unknown AI provider configured.</p>", db, [])
        | Some (api_url, api_key) =>
            if negb (truthy api_key) then
              Returned
                (Str ("<p class='error'>API key not configured for " +:+ provider
                      +:+ ". Set the API key in admin settings or environment variable.</p>"),
                 db, [])
            else
              let headers :=
                ([("Authorization", "Bearer " +:+ api_key);
                  ("Content-Type", "application/json")]
                 ++ (if String.eqb provider "openrouter" then
                       [("HTTP-Referer",
                         environ_get environ "APP_URL" "http://localhost:8000");
                        ("X-Title", "Diet Plan Dashboard")]
                     else []))%list in
              let payload :=
                {| req_url := api_url;
                   req_headers := headers;
                   req_model := model_id;
                   req_messages :=
                     [("system", "You are a nutrition expert and professional chef. Respond only in clean HTML format.");
                      ("user", build_prompt dish_name)];
                   req_max_tokens := 2000;
                   req_temperature := 0x1.6666666666666p-1%float (* 0.7 *) |} in
              match post_and_cache io db net payload dish_name model_id with
              | (evs, db', inr content) => Returned (content, db', evs)
              | (evs, db', inl TimeoutException) =>
                  Returned
                    (Str "<p class='error'>AI service timed out. Please try again.</p>",
                     db', evs)
              | (evs, db', inl (HTTPStatusError status response_text)) =>
                  Returned
                    (Str ("<p class='error'>AI service error: " +:+ pretty status
                          +:+ " — " +:+ slice_to 200 response_text +:+ "</p>"),
                     db', evs)
              | (evs, db', inl (Exception e)) =>
                  Returned
                    (Str ("<p class='error'>Error querying AI: " +:+ e +:+ "</p>"),
                     db', evs)
              end
        end
  end.

(** The lookup of [AiService] seen from here: text or [null] as content. *)
Definition of_completion (c : AiService.completion) : completion :=
  match c with
  | AiService.NoContent err => NoContent err
  | AiService.NullContent => Content JsonNull
  | AiService.Content html => Content (JsonString html)
  end.

Definition of_outcome (o : AiService.post_outcome) : post_outcome :=
  match o with
  | AiService.PostTimeout => PostTimeout
  | AiService.PostFailure err => PostFailure err
  | AiService.PostResponse r =>
      PostResponse {| status_code := AiService.status_code r;
                      text := AiService.text r;
                      body := of_completion (AiService.body r) |}
  end.

End Lookup.

(** ** Calendar dates ([datetime.date], [datetime.timedelta]) *)

Module PyDate.

(** [date.min.toordinal()] and [date.max.toordinal()]. *)
Definition MINORDINAL : Z := 1.
Definition MAXORDINAL : Z := 3652059.

Definition valid_date (d : Z) : Prop := MINORDINAL <= d <= MAXORDINAL.

(** [d.weekday()]: Monday is 0 and Sunday is 6. *)
Definition weekday (d : Z) : Z := (d + 6) mod 7.

(** [timedelta(days=n)] (and [timedelta(weeks=w)] at [n = 7 * w]), as a
    number of days. *)
Definition timedelta (days : Z) : py_result Z :=
  if Z.abs days <=? 999999999 then Returned days
  else Raised "OverflowError".

(** [d + delta] where [delta] is a number of days. *)
Definition date_add (d delta : Z) : py_result Z :=
  let r := d + delta in
  if (MINORDINAL <=? r) && (r <=? MAXORDINAL) then Returned r
  else Raised "OverflowError".

(** [d - delta] *)
Definition date_sub (d delta : Z) : py_result Z := date_add d (- delta).

(** [d.strftime("%A")] *)
Definition day_name_of (d : Z) : string :=
  nth (Z.to_nat (weekday d))
    ["Monday"; "Tuesday"; "Wednesday"; "Thursday"; "Friday"; "Saturday";
     "Sunday"] "".

(** The calendar tables of the [datetime] module, which [isoformat] rests
    on. *)
Definition DAYS_IN_MONTH : list Z :=
  [-1; 31; 28; 31; 30; 31; 30; 31; 31; 30; 31; 30; 31].

Definition DAYS_BEFORE_MONTH : list Z :=
  [-1; 0; 31; 59; 90; 120; 151; 181; 212; 243; 273; 304; 334].

Definition DI400Y : Z := 146097.
Definition DI100Y : Z := 36524.
Definition DI4Y : Z := 1461.

(** [_ord2ymd]: year, month and day of an ordinal. *)
Definition ord2ymd (n : Z) : Z * Z * Z :=
  let n := n - 1 in
  let n400 := n / DI400Y in
  let n := n mod DI400Y in
  let year := n400 * 400 + 1 in
  let n100 := n / DI100Y in
  let n := n mod DI100Y in
  let n4 := n / DI4Y in
  let n := n mod DI4Y in
  let n1 := n / 365 in
  let n := n mod 365 in
  let year := year + n100 * 100 + n4 * 4 + n1 in
  if (n1 =? 4) || (n100 =? 4) then (year - 1, 12, 31)
  else
    let leapyear := (n1 =? 3) && (negb (n4 =? 24) || (n100 =? 3)) in
    let month := Z.shiftr (n + 50) 5 in
    let preceding :=
      nth (Z.to_nat month) DAYS_BEFORE_MONTH 0
      + (if (2 <? month) && leapyear then 1 else 0) in
    let '(month, preceding) :=
      if n <? preceding then
        (month - 1,
         preceding
         - (nth (Z.to_nat (month - 1)) DAYS_IN_MONTH 0
            + (if (month - 1 =? 2) && leapyear then 1 else 0)))
      else (month, preceding) in
    (year, month, n - preceding + 1).

(** ["%0*d" % (width, n)] for [0 <= n]. *)
Definition zero_padded (width : nat) (n : Z) : string :=
  let digits := pretty n in
  String.concat "" (repeat "0" (width - String.length digits)) +:+ digits.

(** [d.isoformat()]: [YYYY-MM-DD]. *)
Definition isoformat (d : Z) : string :=
  let '(year, month, day) := ord2ymd d in
  zero_padded 4 year +:+ "-" +:+ zero_padded 2 month +:+ "-"
  +:+ zero_padded 2 day.

End PyDate.

(** ** Query helpers *)

Module Sql.

(** [ORDER BY]: a stable insertion sort for the order [leb]. *)
Fixpoint insert_by {A : Type} (leb : A -> A -> bool) (x : A) (l : list A)
  : list A :=
  match l with
  | [] => [x]
  | y :: l' => if leb x y then x :: l else y :: insert_by leb x l'
  end.

Definition order_by {A : Type} (leb : A -> A -> bool) (l : list A)
  : list A :=
  foldr (insert_by leb) [] l.

(** [profile_id IS NULL OR profile_id = ?] *)
Definition visible_to (pid : Z) (m : meal) : bool :=
  match profile_id m with
  | None => true
  | Some p => p =? pid
  end.

(** [SELECT meal_plan_id FROM meal_checks WHERE profile_id = ? AND
    is_prepared = 1], collected in a Python set. *)
Definition checked_ids_of (db : Db) (pid : Z) : gset Z :=
  list_to_set
    (map mc_meal_plan_id
       (filter (fun c => (mc_profile_id c =? pid) && (is_prepared c =? 1))
          (meal_checks db))).

(** Python's [sum] of integers. *)
Definition py_sum (l : list Z) : Z := fold_left Z.add l 0.

(** Whether SQLite takes a Python [int] as a parameter: it must fit in a
    signed 64-bit integer, or [execute] raises [OverflowError] at the bind,
    before the statement runs. *)
Definition int64 (n : Z) : bool := (- 2 ^ 63 <=? n) && (n <? 2 ^ 63).

(** The same for a parameter that is an [int] or [None]. *)
Definition int64_opt (o : option Z) : bool :=
  match o with
  | None => true
  | Some n => int64 n
  end.

End Sql.

(** ** Python dictionaries in insertion order *)

Module PyDict.
Section Dict.
Context {K V : Type} (eqb : K -> K -> bool).

Fixpoint get (k : K) (d : list (K * V)) : option V :=
  match d with
  | [] => None
  | (k', v) :: d' => if eqb k k' then Some v else get k d'
  end.

(** [d[k] = v] *)
Fixpoint set (k : K) (v : V) (d : list (K * V)) : list (K * V) :=
  match d with
  | [] => [(k, v)]
  | (k', v') :: d' =>
      if eqb k k' then (k', v) :: d' else (k', v') :: set k v d'
  end.

(** [k in d] *)
Definition mem (k : K) (d : list (K * V)) : bool :=
  match get k d with Some _ => true | None => false end.

(** In-place update of the value stored under [k]. *)
Fixpoint update (k : K) (f : V -> V) (d : list (K * V)) : list (K * V) :=
  match d with
  | [] => []
  | (k', v) :: d' =>
      if eqb k k' then (k', f v) :: d' else (k', v) :: update k f d'
  end.

Definition keys (d : list (K * V)) : list K := map fst d.
End Dict.
End PyDict.

(** ** The views and the admin edit ([main.py]) *)

Module Main.
Import PyStr PyDate Sql.

Definition MEAL_TYPE_ORDER : list string :=
  ["breakfast"; "morning_snack"; "lunch"; "afternoon_snack"; "dinner";
   "evening_snack"].

Definition MEAL_TYPE_LABELS : list (string * string) :=
  [("breakfast", "🌅 Breakfast");
   ("morning_snack", "🍎 Morning Snack");
   ("lunch", "☀️ Lunch");
   ("afternoon_snack", "🫐 Afternoon Snack");
   ("dinner", "🌙 Dinner");
   ("evening_snack", "🌜 Evening Snack")].

(** What a handler returns: a redirect or the context handed to a
    template. *)
Inductive response (P : Type) : Type :=
| Redirect (url : string)
| Page (ctx : P).
Arguments Redirect {P} url.
Arguments Page {P} ctx.

(** [SELECT * FROM profiles WHERE id = ?] *)
Definition get_profile (db : Db) (pid : Z) : option profile :=
  find (fun p => pr_id p =? pid) (profiles db).

(** *** Day view *)

(** The [view_date] query parameter, as the handler tells its values
    apart: missing or empty (false as a condition), a non-empty text that
    [date.fromisoformat] rejects ([ValueError]), or the text of a date. *)
Inductive view_date_arg :=
| NoViewDate
| BadViewDate
| ViewDate (d : Z).

Definition view_date_given (v : view_date_arg) : bool :=
  match v with NoViewDate => false | _ => true end.

Record meal_view := {
  mv_id : Z;
  mv_dish_name : string;
  mv_description : string;
  mv_calories : Z;
  mv_protein_g : float;
  mv_carbs_g : float;
  mv_fat_g : float;
  mv_fiber_g : float;
  mv_is_checked : bool;
}.

Record slot := {
  label : string;
  meals : list meal_view;
}.

Record dashboard_page := {
  dp_profile : profile;
  dp_meals : list (string * slot);      (* [organized] *)
  selected_date : Z;
  dp_today : Z;
  total_calories : Z;
  checked_calories : Z;
}.

(** [SELECT COUNT( * ) FROM meal_plans WHERE plan_date = ? AND (profile_id
    IS NULL OR profile_id = ?)] *)
Definition count_meals_on (db : Db) (d pid : Z) : Z :=
  Z.of_nat
    (length (filter (fun m => (plan_date m =? d) && visible_to pid m)
               (meal_plans db))).

(** [SELECT plan_date FROM meal_plans WHERE profile_id IS NULL OR
    profile_id = ? ORDER BY ABS(julianday(plan_date) - julianday(?)) ASC
    LIMIT 1].  Among rows at the same distance SQLite is free to return any
    one (which one depends on the index it scans); the embedding returns the
    first of them in table order, and the statements below rely only on the
    date being one at the least distance. *)
Definition nearest_plan_date (db : Db) (pid today : Z) : option Z :=
  head
    (map plan_date
       (order_by
          (fun a b =>
             Z.abs (plan_date a - today) <=? Z.abs (plan_date b - today))
          (filter (visible_to pid) (meal_plans db)))).

(** [SELECT * FROM meal_plans WHERE plan_date = ? AND (profile_id IS NULL
    OR profile_id = ?) ORDER BY meal_type] *)
Definition meals_on (db : Db) (d pid : Z) : list meal :=
  order_by (fun a b => String.leb (meal_type a) (meal_type b))
    (filter (fun m => (plan_date m =? d) && visible_to pid m)
       (meal_plans db)).

(** [organized[mt] = {"label": MEAL_TYPE_LABELS[mt], "meals": []}] for
    each [mt] of [MEAL_TYPE_ORDER]. *)
Fixpoint init_organized (mts : list string) (organized : list (string * slot))
  : py_result (list (string * slot)) :=
  match mts with
  | [] => Returned organized
  | mt :: mts' =>
      match PyDict.get String.eqb mt MEAL_TYPE_LABELS with
      | None => Raised "KeyError"
      | Some l =>
          init_organized mts'
            (PyDict.set String.eqb mt {| label := l; meals := [] |} organized)
      end
  end.

Definition view_of (checked_ids : gset Z) (m : meal) : meal_view :=
  {| mv_id := id m;
     mv_dish_name := dish_name m;
     mv_description := description m;
     mv_calories := calories m;
     mv_protein_g := protein_g m;
     mv_carbs_g := carbs_g m;
     mv_fat_g := fat_g m;
     mv_fiber_g := fiber_g m;
     mv_is_checked := bool_decide (id m ∈ checked_ids) |}.

(** The loop [for meal in meals: ... organized[mt]["meals"].append(...)]. *)
Definition organize (checked_ids : gset Z) (ms : list meal)
    (organized : list (string * slot)) : list (string * slot) :=
  fold_left
    (fun org m =>
       let mt := meal_type m in
       if PyDict.mem String.eqb mt org then
         PyDict.update String.eqb mt
           (fun s => {| label := label s;
                        meals := (meals s ++ [view_of checked_ids m])%list |})
           org
       else org)
    ms organized.

(** The view-building part of the [dashboard] handler (up to line 278):
    date resolution, the loads, the grouping and the totals.  [cookie] is
    the [profile_id] cookie read as an integer ([None]: missing or empty).
    The activity log and the navigation dates, which follow and may raise,
    are in [Views.dashboard]. *)
Definition dashboard (db : Db) (today : Z) (cookie : option Z)
    (view_date : view_date_arg) : py_result (response dashboard_page) :=
  match cookie with
  | None => Returned (Redirect "/")
  | Some profile_id =>
      let selected_date :=
        match view_date with
        | ViewDate d => d
        | BadViewDate => today
        | NoViewDate => today
        end in
      match get_profile db profile_id with
      | None => Returned (Redirect "/")
      | Some profile =>
          let selected_date :=
            if negb (view_date_given view_date) then
              if count_meals_on db today profile_id =? 0 then
                match nearest_plan_date db profile_id today with
                | Some nearest => nearest
                | None => selected_date
                end
              else selected_date
            else selected_date in
          let meals := meals_on db selected_date profile_id in
          let checked_ids := checked_ids_of db profile_id in
          organized ← init_organized MEAL_TYPE_ORDER [];
          let organized := organize checked_ids meals organized in
          let total_cal := py_sum (map calories meals) in
          let checked_cal :=
            py_sum
              (map calories
                 (filter (fun m => bool_decide (id m ∈ checked_ids)) meals)) in
          Returned
            (Page {| dp_profile := profile;
                     dp_meals := organized;
                     selected_date := selected_date;
                     dp_today := today;
                     total_calories := total_cal;
                     checked_calories := checked_cal |})
      end
  end.

(** *** Week view *)

Record week_meal := {
  wm_dish_name : string;
  wm_meal_type : string;
  wm_calories : Z;
  wm_is_checked : bool;
}.

Record day_bucket := {
  day_date : Z;
  day_name : string;
  day_meals : list week_meal;
  total : Z;
  prepared : Z;
}.

Record history_page := {
  hp_profile : option profile;
  days : list (Z * day_bucket);
  start_of_week : Z;
  end_of_week : Z;
  prev_offset : Z;
  next_offset : Z;
  current_offset : Z;
  hp_today : Z;
}.

(** [SELECT * FROM meal_plans WHERE plan_date BETWEEN ? AND ? AND
    (profile_id IS NULL OR profile_id = ?) ORDER BY plan_date, meal_type].
    The order among rows of one date and one slot is left open by the
    statement; the embedding keeps them in table order, and the statements
    below rely on the rows of each day only up to that order. *)
Definition meals_between (db : Db) (lo hi pid : Z) : list meal :=
  order_by
    (fun a b =>
       (plan_date a <? plan_date b)
       || ((plan_date a =? plan_date b)
           && String.leb (meal_type a) (meal_type b)))
    (filter
       (fun m => (lo <=? plan_date m) && (plan_date m <=? hi)
                 && visible_to pid m)
       (meal_plans db)).

(** The loop [for i in range(7): d = start_of_week + timedelta(days=i);
    days[d.isoformat()] = {...}]. *)
Fixpoint init_days (start : Z) (offsets : list Z)
    (days : list (Z * day_bucket)) : py_result (list (Z * day_bucket)) :=
  match offsets with
  | [] => Returned days
  | i :: offsets' =>
      delta ← timedelta i;
      d ← date_add start delta;
      init_days start offsets'
        (PyDict.set Z.eqb d
           {| day_date := d; day_name := day_name_of d; day_meals := [];
              total := 0; prepared := 0 |}
           days)
  end.

Definition labels_get (mt : string) : string :=
  match PyDict.get String.eqb mt MEAL_TYPE_LABELS with
  | Some l => l
  | None => mt
  end.

(** The loop [for meal in meals: d_key = meal["plan_date"]; if d_key in
    days: ...]. *)
Definition fill_days (checked_ids : gset Z) (ms : list meal)
    (days : list (Z * day_bucket)) : list (Z * day_bucket) :=
  fold_left
    (fun ds m =>
       let d_key := plan_date m in
       if PyDict.mem Z.eqb d_key ds then
         let is_checked := bool_decide (id m ∈ checked_ids) in
         PyDict.update Z.eqb d_key
           (fun b =>
              {| day_date := day_date b;
                 day_name := day_name b;
                 day_meals :=
                   (day_meals b ++
                      [{| wm_dish_name := dish_name m;
                          wm_meal_type := labels_get (meal_type m);
                          wm_calories := calories m;
                          wm_is_checked := is_checked |}])%list;
                 total := total b + 1;
                 prepared := if is_checked then prepared b + 1
                             else prepared b |})
           ds
       else ds)
    ms days.

(** The view-building part of the [history] handler (up to line 433).  The
    activity log, which follows and may raise, is in [Views.history]. *)
Definition history (db : Db) (today : Z) (cookie : option Z)
    (week_offset : Z) : py_result (response history_page) :=
  match cookie with
  | None => Returned (Redirect "/")
  | Some profile_id =>
      back ← timedelta (weekday today);
      monday ← date_sub today back;
      shift ← timedelta (7 * week_offset);
      start_of_week ← date_add monday shift;
      six ← timedelta 6;
      end_of_week ← date_add start_of_week six;
      let profile := get_profile db profile_id in
      let meals := meals_between db start_of_week end_of_week profile_id in
      let checked_ids := checked_ids_of db profile_id in
      days ← init_days start_of_week [0; 1; 2; 3; 4; 5; 6] [];
      let days := fill_days checked_ids meals days in
      Returned
        (Page {| hp_profile := profile;
                 days := days;
                 start_of_week := start_of_week;
                 end_of_week := end_of_week;
                 prev_offset := week_offset - 1;
                 next_offset := week_offset + 1;
                 current_offset := week_offset;
                 hp_today := today |})
  end.

(** *** Admin edit *)

Inductive edit_response :=
| Unauthorized                          (* status 401 *)
| EmptyResponse                         (* no row has that id *)
| RowHtml (m : meal) (assigned_to : option string) (ps : list profile).

(** The [CHECK] on [meal_type] and the foreign key on [profile_id]
    (connections run with [PRAGMA foreign_keys=ON]). *)
Definition row_accepted (db : Db) (m : meal) : bool :=
  existsb (String.eqb (meal_type m)) MEAL_TYPE_ORDER
  && match profile_id m with
     | None => true
     | Some p => existsb (fun q => pr_id q =? p) (profiles db)
     end.

(** [UPDATE meal_plans SET plan_date = ?, meal_type = ?, dish_name = ?,
    calories = ?, protein_g = ?, carbs_g = ?, fat_g = ?, profile_id = ?
    WHERE id = ?] on one row. *)
Definition update_row (meal_id : Z) (new_date : Z) (new_type new_name : string)
    (new_calories : Z) (new_protein new_carbs new_fat : float)
    (pid : option Z) (m : meal) : meal :=
  if id m =? meal_id then
    {| id := id m;
       plan_date := new_date;
       meal_type := new_type;
       dish_name := new_name;
       description := description m;
       calories := new_calories;
       protein_g := new_protein;
       carbs_g := new_carbs;
       fat_g := new_fat;
       fiber_g := fiber_g m;
       profile_id := pid;
       created_at := created_at m |}
  else m.

(** [p.name as assigned_to] of [meal_plans mp LEFT JOIN profiles p ON
    mp.profile_id = p.id]. *)
Definition assigned_to_of (db : Db) (m : meal) : option string :=
  match profile_id m with
  | None => None
  | Some p => option_map pr_name (get_profile db p)
  end.

(** The [edit_meal] handler.  It returns the store it leaves together with
    its answer; when the statement raises nothing was committed and the
    store is the one it was given.  The [UPDATE] binds [calories], [pid] and
    [meal_id]: one of them beyond 64 bits raises [OverflowError] before any
    row is matched. *)
Definition edit_meal (db : Db) (admin_session : option string) (meal_id : Z)
    (plan_date : Z) (meal_type dish_name : string) (calories : Z)
    (protein_g carbs_g fat_g : float) (profile_id : Z)
  : Db * py_result edit_response :=
  if negb (truthy_opt admin_session) then (db, Returned Unauthorized)
  else
    let pid := if 0 <? profile_id then Some profile_id else None in
    if negb (int64 calories && int64_opt pid && int64 meal_id) then
      (db, Raised "OverflowError")
    else
    let rows :=
      map (update_row meal_id plan_date meal_type (strip dish_name) calories
             protein_g carbs_g fat_g pid)
        (meal_plans db) in
    if forallb (fun m => negb (id m =? meal_id) || row_accepted db m) rows
    then
      let db' := with_meal_plans db rows in
      let profiles := Sql.order_by
                        (fun a b => String.leb (pr_name a) (pr_name b))
                        (profiles db') in
      match find (fun m => id m =? meal_id) rows with
      | None => (db', Returned EmptyResponse)
      | Some m =>
          (db', Returned (RowHtml m (assigned_to_of db' m) profiles))
      end
    else (db, Raised "IntegrityError").

End Main.

(** ** Vocabulary of the properties *)

Module Props.
Import PyStr PyDate Sql AiService Main.

(** *** Dish names up to letter case and surrounding whitespace *)

(** Two characters that are equal, or the upper-case and lower-case forms
    of one letter. *)
Definition same_letter (c1 c2 : ascii) : bool :=
  Ascii.eqb c1 c2
  || (isupper c1 && (N_of_ascii c2 =? N_of_ascii c1 + 32)%N)
  || (isupper c2 && (N_of_ascii c1 =? N_of_ascii c2 + 32)%N).

Inductive same_letters : string -> string -> Prop :=
| same_letters_nil : same_letters EmptyString EmptyString
| same_letters_cons c1 c2 s1 s2 :
    same_letter c1 c2 = true -> same_letters s1 s2 ->
    same_letters (String c1 s1) (String c2 s2).






(** *** Error fragments *)

(** [s.startswith(p)] *)
Fixpoint startswith (p s : string) : bool :=
  match p, s with
  | EmptyString, _ => true
  | String a p', String b s' => Ascii.eqb a b && startswith p' s'
  | String _ _, EmptyString => false
  end.

Definition error_fragment (msg : string) : string :=
  "<p class='error'>" +:+ msg +:+ "</p>".

(** The ways the upstream call fails. *)
Inductive failure :=
| TimedOut
| BadStatus (status : Z) (response_text : string)
| OtherFailure (err : string).

(** The failure, if any, that an outcome of the POST amounts to: a
    timeout, a status outside 2xx, or anything else (transport error, a
    body without a first completion, a null content, which the store
    rejects). *)
Definition failure_of (o : post_outcome) : option failure :=
  match o with
  | PostTimeout => Some TimedOut
  | PostFailure err => Some (OtherFailure err)
  | PostResponse r =>
      if (status_code r <? 200) || (299 <? status_code r)
      then Some (BadStatus (status_code r) (text r))
      else
        match body r with
        | NoContent err => Some (OtherFailure err)
        | NullContent =>
            Some (OtherFailure
                    "NOT NULL constraint failed: ai_recipe_cache.recipe_html")
        | Content _ => None
        end
  end.

(** The kind of failure an error fragment announces. *)
Inductive failure_tag := TagTimeout | TagStatus | TagOther.

Definition tag_of (f : failure) : failure_tag :=
  match f with
  | TimedOut => TagTimeout
  | BadStatus _ _ => TagStatus
  | OtherFailure _ => TagOther
  end.

Definition announced_tag (html : string) : option failure_tag :=
  if startswith "<p class='error'>AI service timed out." html
  then Some TagTimeout
  else if startswith "<p class='error'>AI service error: " html
  then Some TagStatus
  else if startswith "<p class='error'>Error querying AI: " html
  then Some TagOther
  else None.

(** The fragment returned for each failure. *)
Definition fragment_for (f : failure) : string :=
  match f with
  | TimedOut => error_fragment "AI service timed out. Please try again."
  | BadStatus status response_text =>
      error_fragment
        ("AI service error: " +:+ pretty status +:+ " — "
         +:+ slice_to 200 response_text)
  | OtherFailure err => error_fragment ("Error querying AI: " +:+ err)
  end.

(** The cache key of a dish for a model. *)
Definition cache_key (dish_name : string) (m : ai_model) : string * string :=
  (strip (lower dish_name), model_id m).

(** The five ways a recipe lookup ends: what it returns, the store it
    leaves and the effects it performed. *)
Inductive lookup_outcome (db : Db) (net : http_request -> post_outcome)
    (dish_name : string) : string * Db * list event -> Prop :=
| NoModel :
    get_default_model db = None ->
    lookup_outcome db net dish_name
      (error_fragment "No AI model configured. Ask admin to add one.", db, [])
| CacheHit m html :
    get_default_model db = Some m ->
    get_cached_recipe db dish_name (model_id m) = Some html ->
    html <> "" ->
    lookup_outcome db net dish_name (html, db, [])
| NotCalled m msg :
    get_default_model db = Some m ->
    truthy_opt (get_cached_recipe db dish_name (model_id m)) = false ->
    lookup_outcome db net dish_name (error_fragment msg, db, [])
| CallFailed m req f :
    get_default_model db = Some m ->
    truthy_opt (get_cached_recipe db dish_name (model_id m)) = false ->
    failure_of (net req) = Some f ->
    lookup_outcome db net dish_name (fragment_for f, db, [EvHttpPost req])
| CallSucceeded m req r content :
    get_default_model db = Some m ->
    truthy_opt (get_cached_recipe db dish_name (model_id m)) = false ->
    net req = PostResponse r ->
    is_success r = true ->
    body r = Content content ->
    lookup_outcome db net dish_name
      (content,
       with_cache db (<[ cache_key dish_name m := content ]> (ai_recipe_cache db)),
       [EvHttpPost req; EvCacheWrite (cache_key dish_name m) content]).

(** *** The lookup with its failures *)

(** The model's provider is one of the two that [query_ai] knows. *)
Definition known_provider (m : ai_model) : bool :=
  String.eqb (provider m) "groq" || String.eqb (provider m) "openrouter".

(** The credential sent for a model: the key stored with it when that is
    non-empty, otherwise the environment variable of its provider. *)
Definition credential_of (m : ai_model) (environ : gmap string string)
  : string :=
  if truthy (or_empty (api_key m)) then or_empty (api_key m)
  else environ_get environ
         (if String.eqb (provider m) "groq" then "GROQ_API_KEY"
          else "OPENROUTER_API_KEY") "".

(** The request sent for a dish with a model of a known provider. *)
Definition request_for (m : ai_model) (environ : gmap string string)
    (dish_name : string) : http_request :=
  {| req_url := if String.eqb (provider m) "groq" then GROQ_API_URL
                else OPENROUTER_API_URL;
     req_headers :=
       ([("Authorization", "Bearer " +:+ credential_of m environ);
         ("Content-Type", "application/json")]
        ++ (if String.eqb (provider m) "openrouter" then
              [("HTTP-Referer",
                environ_get environ "APP_URL" "http://localhost:8000");
               ("X-Title", "Diet Plan Dashboard")]
            else []))%list;
     req_model := model_id m;
     req_messages :=
       [("system", "You are a nutrition expert and professional chef. Respond only in clean HTML format.");
        ("user", build_prompt dish_name)];
     req_max_tokens := 2000;
     req_temperature := 0x1.6666666666666p-1%float |}.

(** What the cache write does with a content: the text it stores, or the
    exception it raises (the store is unavailable, the content is [null],
    the content cannot be bound). *)
Definition written (io : Lookup.faults) (content : Lookup.json_content)
  : py_result string :=
  match Lookup.cache_recipe_raises io with
  | Some e => Raised e
  | None =>
      match content with
      | Lookup.JsonString s => Returned s
      | Lookup.JsonNull =>
          Raised "NOT NULL constraint failed: ai_recipe_cache.recipe_html"
      | Lookup.JsonOther _ stored => stored
      end
  end.

(** The failure, if any, that an outcome of the POST amounts to: a
    timeout, a status outside 2xx, or anything else that the [try] block
    raises (a transport error, a body without a first completion, a content
    whose cache write raises). *)
Definition call_failure (io : Lookup.faults) (o : Lookup.post_outcome)
  : option failure :=
  match o with
  | Lookup.PostTimeout => Some TimedOut
  | Lookup.PostFailure err => Some (OtherFailure err)
  | Lookup.PostResponse r =>
      if (Lookup.status_code r <? 200) || (299 <? Lookup.status_code r)
      then Some (BadStatus (Lookup.status_code r) (Lookup.text r))
      else
        match Lookup.body r with
        | Lookup.NoContent err => Some (OtherFailure err)
        | Lookup.Content content =>
            match written io content with
            | Raised err => Some (OtherFailure err)
            | Returned _ => None
            end
        end
  end.

(** A content for which the lookup returns a [str] if it returns the
    content at all: a string, or a value whose cache write raises. *)
Definition text_or_refused (content : Lookup.json_content) : Prop :=
  match content with
  | Lookup.JsonOther _ (Returned _) => False
  | _ => True
  end.

(** A text that is empty or begins with the first byte of a character. *)
Definition at_char_boundary (s : string) : Prop :=
  match s with
  | EmptyString => True
  | String c _ => is_continuation c = false
  end.

(** The ways a lookup ends: the exception it raises, or what it returns,
    the store it leaves and the effects it performed. *)
Inductive lookup_result (io : Lookup.faults) (db : Db)
    (environ : gmap string string) (net : http_request -> Lookup.post_outcome)
    (dish_name : string)
  : py_result (Lookup.py_value * Db * list event) -> Prop :=
| ModelReadRaises e :
    Lookup.get_default_model_raises io = Some e ->
    lookup_result io db environ net dish_name (Raised e)
| NoModelConfigured :
    Lookup.get_default_model_raises io = None ->
    get_default_model db = None ->
    lookup_result io db environ net dish_name
      (Returned
         (Lookup.Str (error_fragment "No AI model configured. Ask admin to add one."),
          db, []))
| CacheReadRaises m e :
    Lookup.get_default_model_raises io = None ->
    get_default_model db = Some m ->
    Lookup.get_cached_recipe_raises io = Some e ->
    lookup_result io db environ net dish_name (Raised e)
| Hit m html :
    Lookup.get_default_model_raises io = None ->
    get_default_model db = Some m ->
    Lookup.get_cached_recipe_raises io = None ->
    get_cached_recipe db dish_name (model_id m) = Some html ->
    html <> "" ->
    lookup_result io db environ net dish_name
      (Returned (Lookup.Str html, db, []))
| UnknownProvider m :
    Lookup.get_default_model_raises io = None ->
    get_default_model db = Some m ->
    Lookup.get_cached_recipe_raises io = None ->
    truthy_opt (get_cached_recipe db dish_name (model_id m)) = false ->
    known_provider m = false ->
    lookup_result io db environ net dish_name
      (Returned
         (Lookup.Str (error_fragment "Unknown AI provider configured."), db, []))
| NoCredential m :
    Lookup.get_default_model_raises io = None ->
    get_default_model db = Some m ->
    Lookup.get_cached_recipe_raises io = None ->
    truthy_opt (get_cached_recipe db dish_name (model_id m)) = false ->
    known_provider m = true ->
    credential_of m environ = "" ->
    lookup_result io db environ net dish_name
      (Returned
         (Lookup.Str
            (error_fragment
               ("API key not configured for " +:+ provider m
                +:+ ". Set the API key in admin settings or environment variable.")),
          db, []))
| Failed m f :
    Lookup.get_default_model_raises io = None ->
    get_default_model db = Some m ->
    Lookup.get_cached_recipe_raises io = None ->
    truthy_opt (get_cached_recipe db dish_name (model_id m)) = false ->
    known_provider m = true ->
    credential_of m environ <> "" ->
    call_failure io (net (request_for m environ dish_name)) = Some f ->
    lookup_result io db environ net dish_name
      (Returned
         (Lookup.Str (fragment_for f), db,
          [EvHttpPost (request_for m environ dish_name)]))
| Succeeded m r content html :
    Lookup.get_default_model_raises io = None ->
    get_default_model db = Some m ->
    Lookup.get_cached_recipe_raises io = None ->
    truthy_opt (get_cached_recipe db dish_name (model_id m)) = false ->
    known_provider m = true ->
    credential_of m environ <> "" ->
    net (request_for m environ dish_name) = Lookup.PostResponse r ->
    Lookup.is_success r = true ->
    Lookup.body r = Lookup.Content content ->
    written io content = Returned html ->
    lookup_result io db environ net dish_name
      (Returned
         (Lookup.value_of content,
          with_cache db (<[ cache_key dish_name m := html ]> (ai_recipe_cache db)),
          [EvHttpPost (request_for m environ dish_name);
           EvCacheWrite (cache_key dish_name m) html])).

(** *** Meals of a profile *)

(** The profile sees a meal planned on [d]. *)
Definition has_meal_on (db : Db) (pid d : Z) : Prop :=
  exists m, In m (meal_plans db) /\ plan_date m = d /\ visible_to pid m = true.




(** The profile marked the meal prepared. *)
Definition marked_prepared (db : Db) (pid meal_id : Z) : bool :=
  existsb
    (fun c => (mc_profile_id c =? pid) && (mc_meal_plan_id c =? meal_id)
              && (is_prepared c =? 1))
    (meal_checks db).

(** The rows a day view loads, in table order. *)
Definition rows_on (db : Db) (pid d : Z) : list meal :=
  filter (fun m => (plan_date m =? d) && visible_to pid m) (meal_plans db).

Definition sum_Z (l : list Z) : Z := foldr Z.add 0 l.

(** All six slots, in display order, each without meals. *)
Definition six_empty_slots (organized : list (string * slot)) : Prop :=
  map fst organized = MEAL_TYPE_ORDER /\
  Forall (fun kv => meals (snd kv) = []) organized.

(** The bucket of a day before any meal is added to it. *)
Definition fresh_bucket (d : Z) : day_bucket :=
  {| day_date := d; day_name := day_name_of d; day_meals := [];
     total := 0; prepared := 0 |}.

(** A day bucket without meals, both counters zero. *)
Definition empty_bucket (b : day_bucket) : Prop :=
  day_meals b = [] /\ total b = 0 /\ prepared b = 0.

(** The part of a row that [edit_meal] has no parameter for. *)
Definition kept_fields (m : meal) : Z * string * float * string :=
  (id m, description m, fiber_g m, created_at m).

(** *** Concrete stores used in examples *)

Definition groq_model : ai_model :=
  {| am_id := 1; provider := "groq"; model_id := "openai/gpt-oss-120b";
     display_name := "GPT-OSS 120B (Groq)"; api_key := Some "sk-test";
     is_default := 1 |}.

Definition openrouter_model : ai_model :=
  {| am_id := 2; provider := "openrouter";
     model_id := "arcee-ai/trinity-large-preview:free";
     display_name := "Trinity Large Preview (Free)"; api_key := Some "";
     is_default := 0 |}.

Definition seeded_db : Db :=
  {| profiles := [{| pr_id := 1; pr_name := "Asha" |}];
     meal_plans := []; meal_checks := [];
     ai_models := [groq_model; openrouter_model];
     ai_recipe_cache := ∅ |}.

(** A store whose cache holds an empty recipe for "dal". *)
Definition empty_entry_db : Db :=
  with_cache seeded_db {[ ("dal", "openai/gpt-oss-120b") := "" ]}.

Definition ok_response (html : string) : http_response :=
  {| status_code := 200; text := html; body := Content html |}.

Definition answer_with (html : string) (req : http_request) : post_outcome :=
  PostResponse (ok_response html).

Definition answer_500 (req : http_request) : post_outcome :=
  PostResponse {| status_code := 500; text := "Internal Server Error";
                  body := NoContent "" |}.

(** A store that cannot be opened, and one whose cache cannot be read. *)
Definition unavailable_store : Lookup.faults :=
  {| Lookup.get_default_model_raises := Some "unable to open database file";
     Lookup.get_cached_recipe_raises := Some "unable to open database file";
     Lookup.cache_recipe_raises := Some "unable to open database file" |}.

Definition locked_cache : Lookup.faults :=
  {| Lookup.get_default_model_raises := None;
     Lookup.get_cached_recipe_raises := Some "database is locked";
     Lookup.cache_recipe_raises := None |}.

(** An upstream whose first completion has the number 42 as content; its
    [str()] is [42], and so is the text that the [TEXT] column stores. *)
Definition number_answer (req : http_request) : Lookup.post_outcome :=
  Lookup.PostResponse
    {| Lookup.status_code := 200; Lookup.text := "";
       Lookup.body := Lookup.Content (Lookup.JsonOther "42" (Returned "42")) |}.

(** The request sent for a dish with the model [groq_model]. *)
Definition groq_request (dish_name : string) : http_request :=
  {| req_url := GROQ_API_URL;
     req_headers := [("Authorization", "Bearer sk-test");
                     ("Content-Type", "application/json")];
     req_model := "openai/gpt-oss-120b";
     req_messages :=
       [("system", "You are a nutrition expert and professional chef. Respond only in clean HTML format.");
        ("user", build_prompt dish_name)];
     req_max_tokens := 2000;
     req_temperature := 0x1.6666666666666p-1%float |}.

Definition mk_meal (i d : Z) (mt dish : string) (cal : Z) (p : option Z)
  : meal :=
  {| id := i; plan_date := d; meal_type := mt; dish_name := dish;
     description := ""; calories := cal; protein_g := 0%float;
     carbs_g := 0%float; fat_g := 0%float; fiber_g := 0%float;
     profile_id := p; created_at := "2026-02-20 10:00:00" |}.

(** The day of the upload template: three meals on 2026-02-22, the lunch
    marked prepared by profile 1. *)
Definition template_db : Db :=
  {| profiles := [{| pr_id := 1; pr_name := "Asha" |}];
     meal_plans :=
       [mk_meal 1 739669 "breakfast" "Oatmeal with Berries" 350 None;
        mk_meal 2 739669 "lunch" "Grilled Chicken Salad" 420 None;
        mk_meal 3 739669 "dinner" "Salmon with Vegetables" 480 (Some 1)];
     meal_checks :=
       [{| mc_id := 1; mc_profile_id := 1; mc_meal_plan_id := 2;
           is_prepared := 1 |}];
     ai_models := [groq_model];
     ai_recipe_cache := ∅ |}.

End Props.

(** ** Requests, the activity log and row identifiers *)

Module Store.
Import PyStr Sql Main Props.

(** What the handlers read of a request.  [cookie_profile_id] is the
    [profile_id] cookie read as an integer ([None]: missing or empty). *)
Record request := {
  cookie_profile_id : option Z;
  cookie_admin_session : option string;
  cookie_device_fp : option string;
  header_user_agent : option string;
  client_host : option string;        (* [request.client.host], [None] without client *)
}.

Record activity_log := {
  al_id : Z;
  al_profile_id : Z;
  al_action : string;
  al_details : string;
  al_device_fingerprint : string;
  al_user_agent : string;
  al_os_info : string;
  al_browser_info : string;
  al_device_type : string;
  al_ip_address : string;
}.

(** The tables of [Db] together with the activity log and the
    [sqlite_sequence] table that [AUTOINCREMENT] keeps (table name to the
    largest rowid ever allocated). *)
Record store := {
  st_db : Db;
  activity_logs : list activity_log;
  sqlite_sequence : gmap string Z;
}.

Definition with_db (st : store) (db : Db) : store :=
  {| st_db := db; activity_logs := activity_logs st;
     sqlite_sequence := sqlite_sequence st |}.

Definition with_meal_checks (db : Db) (l : list meal_check) : Db :=
  {| profiles := profiles db; meal_plans := meal_plans db;
     meal_checks := l; ai_models := ai_models db;
     ai_recipe_cache := ai_recipe_cache db |}.

Definition with_ai_models (db : Db) (l : list ai_model) : Db :=
  {| profiles := profiles db; meal_plans := meal_plans db;
     meal_checks := meal_checks db; ai_models := l;
     ai_recipe_cache := ai_recipe_cache db |}.

(** The rowid an [INTEGER PRIMARY KEY AUTOINCREMENT] column gets: one more
    than the largest rowid in the table and the largest ever allocated. *)
Definition next_rowid (st : store) (table : string) (ids : list Z) : Z :=
  Z.max (default 0 (sqlite_sequence st !! table)) (foldr Z.max 0 ids) + 1.

Definition bump_sequence (st : store) (table : string) (rowid : Z) : store :=
  {| st_db := st_db st; activity_logs := activity_logs st;
     sqlite_sequence := <[ table := rowid ]> (sqlite_sequence st) |}.

(** [needle in hay] on strings. *)
Fixpoint contains (needle hay : string) : bool :=
  startswith needle hay
  || match hay with
     | EmptyString => false
     | String _ hay' => contains needle hay'
     end.

Record ua_info := {
  ua_os : string;
  ua_browser : string;
  ua_device : string;
}.

Definition parse_user_agent (ua : string) : ua_info :=
  let ua_lower := lower ua in
  let os_info :=
    if contains "windows" ua_lower then "Windows"
    else if contains "mac os" ua_lower || contains "macintosh" ua_lower
    then "macOS"
    else if contains "linux" ua_lower then "Linux"
    else if contains "android" ua_lower then "Android"
    else if contains "iphone" ua_lower || contains "ipad" ua_lower then "iOS"
    else "Unknown" in
  let browser :=
    if contains "edg/" ua_lower then "Edge"
    else if contains "chrome" ua_lower && contains "safari" ua_lower
    then "Chrome"
    else if contains "firefox" ua_lower then "Firefox"
    else if contains "safari" ua_lower then "Safari"
    else if contains "opera" ua_lower || contains "opr/" ua_lower then "Opera"
    else "Unknown" in
  let device :=
    if contains "mobile" ua_lower || contains "android" ua_lower
       || contains "iphone" ua_lower
    then "Mobile"
    else if contains "tablet" ua_lower || contains "ipad" ua_lower
    then "Tablet"
    else "Desktop" in
  {| ua_os := os_info; ua_browser := browser; ua_device := device |}.

(** [log_activity]: one row in [activity_logs].  The column [profile_id]
    references [profiles(id)] and connections enforce foreign keys. *)
Definition log_activity (st : store) (profile_id : Z) (action details : string)
    (req : request) : py_result store :=
  let ua := default "" (header_user_agent req) in
  let ua_info := parse_user_agent ua in
  let fp := default "" (cookie_device_fp req) in
  let ip := default "" (client_host req) in
  if existsb (fun p => pr_id p =? profile_id) (profiles (st_db st)) then
    let rowid := next_rowid st "activity_logs" (map al_id (activity_logs st)) in
    Returned
      {| st_db := st_db st;
         activity_logs :=
           (activity_logs st ++
            [{| al_id := rowid; al_profile_id := profile_id;
                al_action := action; al_details := details;
                al_device_fingerprint := fp; al_user_agent := ua;
                al_os_info := ua_os ua_info;
                al_browser_info := ua_browser ua_info;
                al_device_type := ua_device ua_info;
                al_ip_address := ip |}])%list;
         sqlite_sequence := <[ "activity_logs" := rowid ]> (sqlite_sequence st) |}
  else Raised "IntegrityError".

(** [get_admin_session] *)
Definition get_admin_session (req : request) : option string :=
  cookie_admin_session req.

(** What a handler answers. *)
Inductive reply :=
| Html (status : Z) (content : string)
| RedirectTo (url : string)
| MealRow (new_id plan_date : Z) (meal_type dish_name : string)
    (calories : Z) (protein_g carbs_g fat_g : float) (pid : option Z)
    (ps : list profile)                  (* the table row of [add_meal_manual] *)
| Copied (dish_name : string) (target_date : Z).   (* the notice of [copy_meal] *)

End Store.

(** ** The view handlers with the activity log and the navigation dates *)

Module Views.
Import PyStr PyDate Sql Main Store.

(** The context handed to [dashboard.html]: the view with the two
    navigation dates and the [is_today] flag. *)
Record dashboard_context := {
  dc_view : dashboard_page;
  prev_date : Z;
  next_date : Z;
  is_today : bool;
}.

(** The [dashboard] handler.  The store it returns is what was committed:
    the activity row is written before the navigation dates are computed,
    so it stays when [selected_date - timedelta(days=1)] or
    [selected_date + timedelta(days=1)] leaves the calendar and raises
    [OverflowError].  The first statement binds the cookie's id. *)
Definition dashboard (st : store) (today : Z) (req : request)
    (view_date : view_date_arg)
  : store * py_result (response dashboard_context) :=
  match cookie_profile_id req with
  | None => (st, Returned (Redirect "/"))
  | Some profile_id =>
      if negb (int64 profile_id) then (st, Raised "OverflowError")
      else
        match Main.dashboard (st_db st) today (Some profile_id) view_date with
        | Raised e => (st, Raised e)
        | Returned (Redirect url) => (st, Returned (Redirect url))
        | Returned (Page view) =>
            match log_activity st profile_id "page_view"
                    ("Dashboard for " +:+ isoformat (selected_date view)) req
            with
            | Raised e => (st, Raised e)
            | Returned st1 =>
                match (one ← timedelta 1; date_sub (selected_date view) one) with
                | Raised e => (st1, Raised e)
                | Returned prev =>
                    match (one ← timedelta 1; date_add (selected_date view) one)
                    with
                    | Raised e => (st1, Raised e)
                    | Returned next =>
                        (st1,
                         Returned
                           (Page {| dc_view := view;
                                    prev_date := prev;
                                    next_date := next;
                                    is_today := selected_date view =? today |}))
                    end
                end
            end
        end
  end.

(** The [history] handler.  Of the view only the date arithmetic raises,
    and it comes before the first statement, which binds the cookie's id.
    The profile is read but not required, so for a cookie that names no
    stored profile the activity row violates its foreign key and
    [log_activity] raises [IntegrityError]. *)
Definition history (st : store) (today : Z) (req : request) (week_offset : Z)
  : store * py_result (response history_page) :=
  match cookie_profile_id req with
  | None => (st, Returned (Redirect "/"))
  | Some profile_id =>
      match Main.history (st_db st) today (Some profile_id) week_offset with
      | Raised e => (st, Raised e)
      | Returned (Redirect url) => (st, Returned (Redirect url))
      | Returned (Page view) =>
          if negb (int64 profile_id) then (st, Raised "OverflowError")
          else
            match log_activity st profile_id "history_view"
                    ("Week of " +:+ isoformat (start_of_week view)) req
            with
            | Raised e => (st, Raised e)
            | Returned st1 => (st1, Returned (Page view))
            end
      end
  end.

End Views.

(** ** The user and admin handlers that write the store ([main.py]) *)

Module Handlers.
Import PyStr Sql AiService Main Props Store.

(** The ids that [toggle_meal], [delete_meal], [copy_meal] and
    [delete_model] bind are taken to fit in 64 bits, as the ids of stored
    rows do; [dish_info], [add_meal_manual] and [set_default_model] check
    what they bind. *)

(** *** Marking a meal prepared *)

(** [toggle_meal].  The store it returns is what was committed. *)
Definition toggle_meal (st : store) (req : request) (meal_plan_id : Z)
  : store * py_result reply :=
  match cookie_profile_id req with
  | None => (st, Returned (Html 401 "<span>Error</span>"))
  | Some profile_id =>
      let db := st_db st in
      let existing :=
        find (fun c => (mc_profile_id c =? profile_id)
                       && (mc_meal_plan_id c =? meal_plan_id))
          (meal_checks db) in
      let written : py_result (Z * store) :=
        match existing with
        | Some e =>
            let new_val := if is_prepared e =? 0 then 1 else 0 in
            Returned
              (new_val,
               with_db st
                 (with_meal_checks db
                    (map (fun c =>
                            if mc_id c =? mc_id e then
                              {| mc_id := mc_id c;
                                 mc_profile_id := mc_profile_id c;
                                 mc_meal_plan_id := mc_meal_plan_id c;
                                 is_prepared := new_val |}
                            else c)
                       (meal_checks db))))
        | None =>
            if existsb (fun p => pr_id p =? profile_id) (profiles db)
               && existsb (fun m => id m =? meal_plan_id) (meal_plans db)
            then
              let rowid :=
                next_rowid st "meal_checks" (map mc_id (meal_checks db)) in
              Returned
                (1,
                 bump_sequence
                   (with_db st
                      (with_meal_checks db
                         (meal_checks db ++
                          [{| mc_id := rowid; mc_profile_id := profile_id;
                              mc_meal_plan_id := meal_plan_id;
                              is_prepared := 1 |}])%list))
                   "meal_checks" rowid)
            else Raised "IntegrityError"
        end in
      match written with
      | Raised e => (st, Raised e)
      | Returned (new_val, st1) =>
          let dish :=
            match find (fun m => id m =? meal_plan_id) (meal_plans db) with
            | Some mp => dish_name mp
            | None => "Unknown"
            end in
          let action :=
            if new_val =? 0 then "meal_unprepared" else "meal_prepared" in
          match log_activity st1 profile_id action dish req with
          | Raised e => (st1, Raised e)
          | Returned st2 =>
              let icon := if new_val =? 0 then "⬜" else "✅" in
              (st2,
               Returned
                 (Html 200
                    ("<span class=" +:+ dquote +:+ "check-icon" +:+ dquote
                     +:+ ">" +:+ icon +:+ "</span>")))
          end
      end
  end.

(** *** Opening a dish *)

(** [dish_info]: the store it leaves, its answer and the effects of the
    recipe lookup.  The [SELECT] binds the meal id and the activity row the
    cookie's id; whatever the lookup raises reaches the caller, after the
    activity row was committed. *)
Definition dish_info (st : store) (io : Lookup.faults)
    (environ : gmap string string)
    (net : http_request -> Lookup.post_outcome) (req : request)
    (meal_plan_id : Z)
  : store * py_result reply * list event :=
  if negb (int64 meal_plan_id) then (st, Raised "OverflowError", [])
  else
  match find (fun m => id m =? meal_plan_id) (meal_plans (st_db st)) with
  | None => (st, Returned (Html 200 "<p>Dish not found</p>"), [])
  | Some meal =>
      let logged :=
        match cookie_profile_id req with
        | Some profile_id =>
            if negb (int64 profile_id) then Raised "OverflowError"
            else log_activity st profile_id "dish_viewed" (dish_name meal) req
        | None => Returned st
        end in
      match logged with
      | Raised e => (st, Raised e, [])
      | Returned st1 =>
          match Lookup.query_ai io (st_db st1) environ net (dish_name meal) with
          | Raised e => (st1, Raised e, [])
          | Returned (result, db', evs) =>
              (with_db st1 db',
               Returned
                 (Html 200
                    ("
        <div class=" +:+ dquote +:+ "dish-detail-content" +:+ dquote +:+ ">
            <div class=" +:+ dquote +:+ "dish-detail-header" +:+ dquote +:+ ">
                <h2>" +:+ dish_name meal +:+ "</h2>
                <p class=" +:+ dquote +:+ "dish-description" +:+ dquote +:+ ">"
                     +:+ description meal +:+ "</p>
            </div>
            <div class=" +:+ dquote +:+ "ai-content" +:+ dquote +:+ ">
                " +:+ Lookup.format result +:+ "
            </div>
        </div>
    ")),
               evs)
          end
      end
  end.

(** *** Meals *)

(** [delete_meal] *)
Definition delete_meal (st : store) (req : request) (meal_id : Z)
  : store * py_result reply :=
  if negb (truthy_opt (get_admin_session req)) then
    (st, Returned (Html 401 "Unauthorized"))
  else
    let db := st_db st in
    let checks := filter (fun c => negb (mc_meal_plan_id c =? meal_id))
                    (meal_checks db) in
    let meals := filter (fun m => negb (id m =? meal_id)) (meal_plans db) in
    (with_db st (with_meal_plans (with_meal_checks db checks) meals),
     Returned (Html 200 "")).

(** The row that an [INSERT INTO meal_plans] adds, once its parameters are
    bound; [created_at] is the store's [CURRENT_TIMESTAMP], given by [now].
    The integers come from a stored row ([copy_meal]) or were checked for 64
    bits by the handler ([add_meal_manual]). *)
Definition insert_meal (st : store) (now : string) (d : Z) (mt dish descr : string)
    (cal : Z) (protein carbs fat fiber : float) (pid : option Z)
  : py_result (Z * store) :=
  let db := st_db st in
  let rowid := next_rowid st "meal_plans" (map id (meal_plans db)) in
  let row :=
    {| id := rowid; plan_date := d; meal_type := mt; dish_name := dish;
       description := descr; calories := cal; protein_g := protein;
       carbs_g := carbs; fat_g := fat; fiber_g := fiber;
       profile_id := pid; created_at := now |} in
  if row_accepted db row then
    Returned
      (rowid,
       bump_sequence
         (with_db st (with_meal_plans db (meal_plans db ++ [row])%list))
         "meal_plans" rowid)
  else Raised "IntegrityError".

(** [add_meal_manual].  The [INSERT] binds [calories] and [pid]: one of
    them beyond 64 bits raises [OverflowError] and nothing is written. *)
Definition add_meal_manual (st : store) (now : string) (req : request)
    (plan_date : Z) (meal_type dish_name description : string) (calories : Z)
    (protein_g carbs_g fat_g fiber_g : float) (profile_id : Z)
  : store * py_result reply :=
  if negb (truthy_opt (get_admin_session req)) then
    (st, Returned (Html 401 "Unauthorized"))
  else
    let pid := if 0 <? profile_id then Some profile_id else None in
    if negb (int64 calories && int64_opt pid) then (st, Raised "OverflowError")
    else
    match insert_meal st now plan_date meal_type (strip dish_name)
            (strip description) calories protein_g carbs_g fat_g fiber_g pid
    with
    | Raised e => (st, Raised e)
    | Returned (new_id, st1) =>
        let ps := order_by (fun a b => String.leb (pr_name a) (pr_name b))
                    (profiles (st_db st1)) in
        (st1,
         Returned
           (MealRow new_id plan_date meal_type dish_name calories protein_g
              carbs_g fat_g pid ps))
    end.

(** [copy_meal] *)
Definition copy_meal (st : store) (now : string) (req : request) (meal_id : Z)
    (target_date : Z) : store * py_result reply :=
  if negb (truthy_opt (get_admin_session req)) then
    (st, Returned (Html 401 "Unauthorized"))
  else
    match find (fun m => id m =? meal_id) (meal_plans (st_db st)) with
    | None =>
        (st,
         Returned
           (Html 200
              ("<div class=" +:+ dquote +:+ "upload-result error" +:+ dquote
               +:+ "><span class=" +:+ dquote +:+ "icon" +:+ dquote
               +:+ ">❌</span><p>Meal not found.</p></div>")))
    | Some meal =>
        match insert_meal st now target_date (meal_type meal) (dish_name meal)
                (description meal) (calories meal) (protein_g meal)
                (carbs_g meal) (fat_g meal) (fiber_g meal) (profile_id meal)
        with
        | Raised e => (st, Raised e)
        | Returned (_, st1) =>
            (st1, Returned (Copied (dish_name meal) target_date))
        end
    end.

(** *** AI models *)

(** [add_model].  The [CHECK] of [ai_models] admits the two providers. *)
Definition add_model (st : store) (req : request)
    (provider model_id display_name api_key : string)
  : store * py_result reply :=
  if negb (truthy_opt (get_admin_session req)) then
    (st, Returned (Html 401 "Unauthorized"))
  else
    if String.eqb provider "groq" || String.eqb provider "openrouter" then
      let db := st_db st in
      let rowid := next_rowid st "ai_models" (map am_id (ai_models db)) in
      (bump_sequence
         (with_db st
            (with_ai_models db
               (ai_models db ++
                [{| am_id := rowid; provider := provider;
                    model_id := strip model_id;
                    display_name := strip display_name;
                    api_key := Some (strip api_key);
                    is_default := 0 |}])%list))
         "ai_models" rowid,
       Returned (RedirectTo "/admin#models"))
    else (st, Raised "IntegrityError").

(** [delete_model] *)
Definition delete_model (st : store) (req : request) (model_id_int : Z)
  : store * py_result reply :=
  if negb (truthy_opt (get_admin_session req)) then
    (st, Returned (Html 401 "Unauthorized"))
  else
    let db := st_db st in
    (with_db st
       (with_ai_models db
          (filter (fun m => negb (am_id m =? model_id_int)) (ai_models db))),
     Returned (Html 200 "")).

Definition set_is_default (v : Z) (m : ai_model) : ai_model :=
  {| am_id := am_id m; provider := provider m; model_id := model_id m;
     display_name := display_name m; api_key := api_key m; is_default := v |}.

(** [set_default_model]: [UPDATE ai_models SET is_default = 0], then
    [UPDATE ai_models SET is_default = 1 WHERE id = ?], then the commit.
    When the id is beyond 64 bits the second statement raises
    [OverflowError] at the bind; the connection is closed without a commit
    and the clearing is rolled back. *)
Definition set_default_model (st : store) (req : request) (model_id_int : Z)
  : store * py_result reply :=
  if negb (truthy_opt (get_admin_session req)) then
    (st, Returned (Html 401 "Unauthorized"))
  else
    let db := st_db st in
    let cleared := map (set_is_default 0) (ai_models db) in
    if negb (int64 model_id_int) then (st, Raised "OverflowError")
    else
    let flagged :=
      map (fun m => if am_id m =? model_id_int then set_is_default 1 m else m)
        cleared in
    (with_db st (with_ai_models db flagged),
     Returned (RedirectTo "/admin#models")).

(** *** Start-up *)


End Handlers.

(** ** Vocabulary of the further properties *)

Module MoreProps.
Import PyStr Sql AiService Main Props Store Handlers.

(** A string that does not begin with whitespace. *)
Definition no_leading_space (s : string) : Prop :=
  match s with
  | EmptyString => True
  | String c _ => isspace c = false
  end.

(** The [CHECK] of [ai_models.provider]. *)
Definition provider_ok (m : ai_model) : Prop :=
  provider m = "groq" \/ provider m = "openrouter".

(** The environment variable that holds the fallback credential of a
    model's provider. *)
Definition credential_variable (m : ai_model) : string :=
  if String.eqb (provider m) "groq" then "GROQ_API_KEY"
  else "OPENROUTER_API_KEY".

(** Every preparation check belongs to a stored meal (the foreign key of
    [meal_checks.meal_plan_id]). *)
Definition checks_refer_to_meals (db : Db) : Prop :=
  forall c, In c (meal_checks db) ->
            exists m, In m (meal_plans db) /\ id m = mc_meal_plan_id c.

(** The constraints of [meal_checks]: the primary key, the
    [UNIQUE(profile_id, meal_plan_id)] pair, and the flag values 0 and 1 that
    the application writes. *)
Definition checks_wf (db : Db) : Prop :=
  List.NoDup (map mc_id (meal_checks db)) /\
  List.NoDup (map (fun c => (mc_profile_id c, mc_meal_plan_id c))
                (meal_checks db)) /\
  forall c, In c (meal_checks db) -> is_prepared c = 0 \/ is_prepared c = 1.

(** The activity row that [toggle_meal] logs. *)
Definition logged_as (a : activity_log) (pid : Z) (action details : string)
  : Prop :=
  al_profile_id a = pid /\ al_action a = action /\ al_details a = details.

(** Two rows that agree on everything a copy takes over: all columns but
    the id, the date and the creation time. *)
Definition same_dish_data (a b : meal) : Prop :=
  meal_type a = meal_type b /\ dish_name a = dish_name b /\
  description a = description b /\ calories a = calories b /\
  protein_g a = protein_g b /\ carbs_g a = carbs_g b /\
  fat_g a = fat_g b /\ fiber_g a = fiber_g b /\
  profile_id a = profile_id b.

(** The entry that the week view shows for a meal. *)
Definition week_meal_of (checked_ids : gset Z) (m : meal) : week_meal :=
  {| wm_dish_name := dish_name m;
     wm_meal_type := labels_get (meal_type m);
     wm_calories := calories m;
     wm_is_checked := bool_decide (id m ∈ checked_ids) |}.

(** *** Concrete requests and stores used in examples *)

Definition admin_request : request :=
  {| cookie_profile_id := None; cookie_admin_session := Some "authenticated";
     cookie_device_fp := None; header_user_agent := None;
     client_host := None |}.

Definition profile1_request : request :=
  {| cookie_profile_id := Some 1; cookie_admin_session := None;
     cookie_device_fp := Some "fp-1";
     header_user_agent :=
       Some "Mozilla/5.0 (Linux; Android 10; Pixel 3) AppleWebKit/537.36 (KHTML, like Gecko) Chrome/120.0 Mobile Safari/537.36";
     client_host := Some "192.168.1.20" |}.

Definition seeded_store : store :=
  {| st_db := seeded_db; activity_logs := []; sqlite_sequence := ∅ |}.

Definition template_store : store :=
  {| st_db := template_db; activity_logs := []; sqlite_sequence := ∅ |}.


(** A request whose profile cookie names a profile that is not stored. *)
Definition stale_cookie_request : request :=
  {| cookie_profile_id := Some 7; cookie_admin_session := None;
     cookie_device_fp := None; header_user_agent := None;
     client_host := None |}.

End MoreProps.

(** * Properties *)

Import PyStr PyDate Sql AiService Main Props.

(** ** Normalisation of dish names *)

Lemma isspace_lower_char (c : ascii) : isspace (lower_char c) = isspace c.
Proof. destruct c as [[] [] [] [] [] [] [] []]; reflexivity. Qed.









Lemma same_letter_lower (c1 c2 : ascii) :
  same_letter c1 c2 = true -> lower_char c1 = lower_char c2.
Proof.
  assert (Hup : forall a b, isupper a = true ->
                  (N_of_ascii b =? N_of_ascii a + 32)%N = true ->
                  lower_char a = lower_char b).
  { intros a b Ha Hb%N.eqb_eq. unfold lower_char. rewrite Ha.
    rewrite <- Hb, ascii_N_embedding.
    unfold isupper in *. rewrite Hb.
    apply andb_prop in Ha as [H1%N.leb_le H2%N.leb_le].
    destruct (N.leb_spec (N_of_ascii a + 32) 90) as [H|H]; [lia|].
    now rewrite andb_false_r. }
  unfold same_letter. intros H.
  apply orb_prop in H as [H|H]; [apply orb_prop in H as [H|H]|].
  - apply Ascii.eqb_eq in H. now subst.
  - apply andb_prop in H as [Ha Hb]. now apply Hup.
  - apply andb_prop in H as [Ha Hb]. symmetry. now apply Hup.
Qed.

Lemma same_letters_lower (a b : string) :
  same_letters a b -> lower a = lower b.
Proof.
  induction 1 as [|c1 c2 s1 s2 Hc _ IH]; simpl; [reflexivity|].
  now rewrite (same_letter_lower _ _ Hc), IH.
Qed.


Lemma lower_char_idem (c : ascii) : lower_char (lower_char c) = lower_char c.
Proof. destruct c as [[] [] [] [] [] [] [] []]; reflexivity. Qed.

Lemma lower_idem (s : string) : lower (lower s) = lower s.
Proof.
  induction s as [|c s IH]; simpl; [reflexivity|].
  now rewrite lower_char_idem, IH.
Qed.

Lemma lower_lstrip (s : string) : lower (lstrip s) = lstrip (lower s).
Proof.
  induction s as [|c s IH]; simpl; [reflexivity|].
  rewrite isspace_lower_char. destruct (isspace c); [exact IH | reflexivity].
Qed.

Lemma lower_rstrip (s : string) : lower (rstrip s) = rstrip (lower s).
Proof.
  induction s as [|c s IH]; simpl; [reflexivity|].
  rewrite <- IH, isspace_lower_char.
  destruct (rstrip s) as [|c' r]; simpl; [|reflexivity].
  destruct (isspace c); reflexivity.
Qed.

Lemma lower_strip (s : string) : lower (strip s) = strip (lower s).
Proof. unfold strip. now rewrite lower_rstrip, lower_lstrip. Qed.

Lemma lstrip_no_leading (s : string) : MoreProps.no_leading_space (lstrip s).
Proof.
  induction s as [|c s IH]; simpl; [exact I|].
  destruct (isspace c) eqn:Hc; [exact IH | exact Hc].
Qed.

Lemma lstrip_fixed (s : string) : MoreProps.no_leading_space s -> lstrip s = s.
Proof. destruct s as [|c s]; simpl; [reflexivity|]. now intros ->. Qed.

Lemma rstrip_no_leading (s : string) :
  MoreProps.no_leading_space s -> MoreProps.no_leading_space (rstrip s).
Proof.
  destruct s as [|c s]; simpl; [trivial|]. intros Hc.
  destruct (rstrip s); simpl; [now rewrite Hc | exact Hc].
Qed.

Lemma rstrip_idem (s : string) : rstrip (rstrip s) = rstrip s.
Proof.
  induction s as [|c s IH]; simpl; [reflexivity|].
  destruct (rstrip s) as [|c' r] eqn:Hr.
  - destruct (isspace c) eqn:Hc; simpl; [reflexivity | now rewrite Hc].
  - change (rstrip (String c (String c' r))) with
      (match rstrip (String c' r) with
       | EmptyString => if isspace c then EmptyString else String c EmptyString
       | r' => String c r'
       end).
    rewrite IH. reflexivity.
Qed.

Lemma strip_idem (s : string) : strip (strip s) = strip s.
Proof.
  unfold strip.
  rewrite (lstrip_fixed (rstrip (lstrip s)))
    by apply rstrip_no_leading, lstrip_no_leading.
  apply rstrip_idem.
Qed.

Lemma normalize_idem (s : string) :
  strip (lower (strip (lower s))) = strip (lower s).
Proof. now rewrite lower_strip, lower_idem, strip_idem. Qed.

Lemma string_app_nil_r (s : string) : s +:+ "" = s.
Proof.
  induction s as [|c s IH]; [reflexivity|].
  change (String c (s +:+ "") = String c s). now rewrite IH.
Qed.

Lemma same_letters_lower_self (a : string) : same_letters a (lower a).
Proof.
  induction a as [|c a IH]; simpl; constructor; [|exact IH].
  destruct c as [[] [] [] [] [] [] [] []]; reflexivity.
Qed.
















(** ** The recipe lookup *)

Lemma string_app_assoc (a b c : string) : (a +:+ b) +:+ c = a +:+ (b +:+ c).
Proof.
  induction a as [|x a IH]; [reflexivity|].
  change (String x ((a +:+ b) +:+ c) = String x (a +:+ (b +:+ c))).
  now f_equal.
Qed.

Lemma truthy_false (s : string) : truthy s = false -> s = "".
Proof. destruct s; [reflexivity | discriminate]. Qed.

Lemma truthy_true (s : string) : truthy s = true -> s <> "".
Proof. destruct s; [discriminate | discriminate]. Qed.

Lemma failure_of_status (r : http_response) :
  is_success r = false ->
  failure_of (PostResponse r) = Some (BadStatus (status_code r) (text r)).
Proof.
  unfold is_success, failure_of. intros H.
  destruct (Z.ltb_spec (status_code r) 200), (Z.ltb_spec 299 (status_code r));
    try reflexivity.
  apply andb_false_iff in H as [H%Z.leb_gt | H%Z.leb_gt]; lia.
Qed.

Lemma failure_of_body (r : http_response) :
  is_success r = true ->
  failure_of (PostResponse r) =
  match body r with
  | NoContent err => Some (OtherFailure err)
  | NullContent =>
      Some (OtherFailure "NOT NULL constraint failed: ai_recipe_cache.recipe_html")
  | Content _ => None
  end.
Proof.
  unfold is_success, failure_of. intros [H1%Z.leb_le H2%Z.leb_le]%andb_prop.
  destruct (Z.ltb_spec (status_code r) 200), (Z.ltb_spec 299 (status_code r));
    try lia.
  reflexivity.
Qed.

(** Every run of [query_ai] is one of the five outcomes. *)
Lemma query_ai_outcome (db : Db) (environ : gmap string string)
    (net : http_request -> post_outcome) (dish_name : string) :
  lookup_outcome db net dish_name (query_ai db environ net dish_name).
Proof.
  unfold query_ai.
  destruct (get_default_model db) as [m|] eqn:Hm; [|now apply NoModel].
  destruct (truthy_opt (get_cached_recipe db dish_name (model_id m))) eqn:Hc.
  { destruct (get_cached_recipe db dish_name (model_id m)) as [html|] eqn:Hg;
      [|discriminate].
    simpl in Hc. simpl. rewrite Hc.
    eapply CacheHit; eauto using truthy_true. }
  cbv zeta.
  match goal with
  | |- context [match ?e with Some _ => _ | None => _ end] =>
      destruct e as [[api_url key]|] eqn:He
  end.
  2:{ apply (NotCalled db net dish_name m "Unknown AI provider configured.");
      assumption. }
  destruct (truthy key) eqn:Hk; simpl negb; cbv iota.
  2:{ pose proof (NotCalled db net dish_name m
        ("API key not configured for " +:+ provider m
         +:+ ". Set the API key in admin settings or environment variable.")
        Hm Hc) as H.
      unfold error_fragment in H. rewrite !string_app_assoc in H. exact H. }
  match goal with
  | |- context [post_and_cache db net ?q _ _] => set (req := q)
  end.
  unfold post_and_cache.
  destruct (net req) as [|err|r] eqn:Hn.
  - apply (CallFailed db net dish_name m req TimedOut Hm Hc). now rewrite Hn.
  - apply (CallFailed db net dish_name m req (OtherFailure err) Hm Hc).
    now rewrite Hn.
  - destruct (is_success r) eqn:Hs.
    + pose proof (failure_of_body r Hs) as Hf.
      destruct (body r) as [err| |content] eqn:Hb; simpl.
      * apply (CallFailed db net dish_name m req (OtherFailure err) Hm Hc).
        now rewrite Hn.
      * apply (CallFailed db net dish_name m req
                 (OtherFailure
                    "NOT NULL constraint failed: ai_recipe_cache.recipe_html")
                 Hm Hc).
        now rewrite Hn.
      * now apply (CallSucceeded db net dish_name m req r content).
    + pose proof (CallFailed db net dish_name m req
                    (BadStatus (status_code r) (text r)) Hm Hc) as H.
      rewrite Hn in H. specialize (H (failure_of_status r Hs)).
      unfold fragment_for, error_fragment in H.
      rewrite !string_app_assoc in H. exact H.
Qed.

Lemma fragment_is_error (f : failure) :
  exists msg, fragment_for f = error_fragment msg.
Proof. destruct f; eexists; reflexivity. Qed.

Lemma error_fragment_nonempty (msg : string) : error_fragment msg <> "".
Proof. discriminate. Qed.

Lemma announced_tag_fragment (f : failure) :
  announced_tag (fragment_for f) = Some (tag_of f).
Proof. destruct f; vm_compute; reflexivity. Qed.

(** C2, as the code has it: when the cache holds a non-empty recipe under
    the key (normalised dish name, model identifier), the lookup returns it
    verbatim, leaves the store as it was and performs no effect: no outbound
    request and no cache write. *)
Theorem cache_hit_no_upstream (db : Db) (environ : gmap string string)
    (net : http_request -> post_outcome) (dish_name : string)
    (m : ai_model) (html : string) :
  get_default_model db = Some m ->
  ai_recipe_cache db !! cache_key dish_name m = Some html ->
  html <> "" ->
  query_ai db environ net dish_name = (html, db, []) /\
  http_calls (snd (query_ai db environ net dish_name)) = 0%nat.
Proof.
  intros Hm Hc Hne.
  assert (Hg : get_cached_recipe db dish_name (model_id m) = Some html)
    by exact Hc.
  assert (Ht : truthy_opt (get_cached_recipe db dish_name (model_id m)) = true).
  { rewrite Hg. destruct html; [contradiction | reflexivity]. }
  pose proof (query_ai_outcome db environ net dish_name) as H.
  destruct (query_ai db environ net dish_name) as [[h d] evs].
  inversion H as [Hm'|m' h' Hm' Hg' _|m' msg Hm' Ht'|m' req f Hm' Ht'
                 |m' req r c Hm' Ht']; subst;
    rewrite Hm in Hm'; try discriminate;
    injection Hm' as <-; try (rewrite Ht in Ht'; discriminate).
  rewrite Hg in Hg'. injection Hg' as <-.
  split; reflexivity.
Qed.

Lemma cache_hit_no_upstream_witness :
  query_ai (with_cache seeded_db {[ ("dal", "openai/gpt-oss-120b") := "<h3>Dal</h3>" ]})
    ∅ (answer_with "fresh") " Dal "
  = ("<h3>Dal</h3>",
     with_cache seeded_db {[ ("dal", "openai/gpt-oss-120b") := "<h3>Dal</h3>" ]},
     []).
Proof.
  refine (proj1 (cache_hit_no_upstream _ ∅ (answer_with "fresh") " Dal "
                   groq_model "<h3>Dal</h3>" _ _ _)).
  - reflexivity.
  - vm_compute. reflexivity.
  - discriminate.
Defined.

(** C2, as stated, fails on an entry whose stored HTML is empty: the entry
    exists under the key, yet the lookup goes upstream (one outbound
    request) and returns the fresh answer, not the stored text. *)
Lemma cache_hit_empty_entry_counterexample :
  get_default_model empty_entry_db = Some groq_model /\
  ai_recipe_cache empty_entry_db !! cache_key "dal" groq_model = Some "" /\
  fst (fst (query_ai empty_entry_db ∅ (answer_with "<h3>Dal</h3>") "dal"))
    = "<h3>Dal</h3>" /\
  http_calls (snd (query_ai empty_entry_db ∅ (answer_with "<h3>Dal</h3>") "dal"))
    = 1%nat.
Proof. vm_compute. repeat split. Qed.

(** The store of the counterexample is one the service itself produces: an
    upstream answer with empty content is cached as it is. *)
Example empty_entry_reachable :
  snd (fst (query_ai seeded_db ∅ (answer_with "") "dal")) = empty_entry_db.
Proof. reflexivity. Qed.



(** ** The recipe lookup with its failures *)

Lemma slice_to_spec (n : nat) (s : string) :
  exists rest,
    s = slice_to n s +:+ rest /\ at_char_boundary rest /\
    char_length (slice_to n s) = Nat.min n (char_length s).
Proof.
  revert n. induction s as [|c s IH]; intros n.
  - exists "". simpl. now rewrite Nat.min_0_r.
  - simpl. destruct (is_continuation c) eqn:Hc.
    + destruct (IH n) as (rest & Hs & Hb & Hl). exists rest.
      split; [|split; [exact Hb|]].
      * change (String c s = String c (slice_to n s +:+ rest)). now rewrite <- Hs.
      * simpl. now rewrite Hc.
    + destruct n as [|n].
      * exists (String c s). simpl. auto.
      * destruct (IH n) as (rest & Hs & Hb & Hl). exists rest.
        split; [|split; [exact Hb|]].
        -- change (String c s = String c (slice_to n s +:+ rest)).
           now rewrite <- Hs.
        -- simpl. now rewrite Hc, Hl.
Qed.

(** Slicing counts characters, not bytes. *)
Example slice_to_characters :
  slice_to 3 "héllo wörld" = "hél" /\ String.length "hél" = 4%nat /\
  slice_to 20 "héllo" = "héllo" /\ slice_to 0 "héllo" = "".
Proof. repeat split. Qed.

Lemma call_failure_status (io : Lookup.faults) (r : Lookup.http_response) :
  Lookup.is_success r = false ->
  call_failure io (Lookup.PostResponse r) =
  Some (BadStatus (Lookup.status_code r) (Lookup.text r)).
Proof.
  unfold Lookup.is_success, call_failure. intros H.
  destruct (Z.ltb_spec (Lookup.status_code r) 200),
    (Z.ltb_spec 299 (Lookup.status_code r)); try reflexivity.
  apply andb_false_iff in H as [H%Z.leb_gt | H%Z.leb_gt]; lia.
Qed.

Lemma call_failure_body (io : Lookup.faults) (r : Lookup.http_response) :
  Lookup.is_success r = true ->
  call_failure io (Lookup.PostResponse r) =
  match Lookup.body r with
  | Lookup.NoContent err => Some (OtherFailure err)
  | Lookup.Content content =>
      match written io content with
      | Raised err => Some (OtherFailure err)
      | Returned _ => None
      end
  end.
Proof.
  unfold Lookup.is_success, call_failure.
  intros [H1%Z.leb_le H2%Z.leb_le]%andb_prop.
  destruct (Z.ltb_spec (Lookup.status_code r) 200),
    (Z.ltb_spec 299 (Lookup.status_code r)); try lia.
  reflexivity.
Qed.

(** What the [try] block and its handlers give for the request of a
    resolved model. *)
Lemma query_ai_call (io : Lookup.faults) (db : Db)
    (environ : gmap string string) (net : http_request -> Lookup.post_outcome)
    (dish_name : string) (m : ai_model) :
  Lookup.get_default_model_raises io = None ->
  get_default_model db = Some m ->
  Lookup.get_cached_recipe_raises io = None ->
  truthy_opt (get_cached_recipe db dish_name (model_id m)) = false ->
  known_provider m = true ->
  credential_of m environ <> "" ->
  lookup_result io db environ net dish_name
    match Lookup.post_and_cache io db net (request_for m environ dish_name)
            dish_name (model_id m) with
    | (evs, db', inr content) => Returned (content, db', evs)
    | (evs, db', inl TimeoutException) =>
        Returned
          (Lookup.Str "<p class='error'>AI service timed out. Please try again.</p>",
           db', evs)
    | (evs, db', inl (HTTPStatusError status response_text)) =>
        Returned
          (Lookup.Str ("<p class='error'>AI service error: " +:+ pretty status
                       +:+ " — " +:+ slice_to 200 response_text +:+ "</p>"),
           db', evs)
    | (evs, db', inl (Exception e)) =>
        Returned
          (Lookup.Str ("<p class='error'>Error querying AI: " +:+ e +:+ "</p>"),
           db', evs)
    end.
Proof.
  intros Hio1 Hm Hio2 Hc Hk Hcred.
  set (req := request_for m environ dish_name).
  assert (Hfail : forall f, call_failure io (net req) = Some f ->
            lookup_result io db environ net dish_name
              (Returned (Lookup.Str (fragment_for f), db, [EvHttpPost req])))
    by (intros f Hf; now apply (Failed io db environ net dish_name m f)).
  assert (Hother : forall err, call_failure io (net req) = Some (OtherFailure err) ->
            lookup_result io db environ net dish_name
              (Returned
                 (Lookup.Str ("<p class='error'>Error querying AI: " +:+ err +:+ "</p>"),
                  db, [EvHttpPost req]))).
  { intros err Hf. specialize (Hfail _ Hf).
    unfold fragment_for, error_fragment in Hfail.
    now rewrite !string_app_assoc in Hfail. }
  unfold Lookup.post_and_cache.
  destruct (net req) as [|err|r] eqn:Hn.
  - now apply (Hfail TimedOut).
  - now apply Hother.
  - destruct (Lookup.is_success r) eqn:Hs.
    + pose proof (call_failure_body io r Hs) as Hf.
      destruct (Lookup.body r) as [err|content] eqn:Hb.
      * now apply Hother.
      * unfold written in Hf. unfold Lookup.cache_recipe.
        destruct (Lookup.cache_recipe_raises io) as [e|] eqn:Hio3;
          [now apply Hother|].
        assert (Hok : forall html, written io content = Returned html ->
                  lookup_result io db environ net dish_name
                    (Returned
                       (Lookup.value_of content,
                        with_cache db
                          (<[ cache_key dish_name m := html ]> (ai_recipe_cache db)),
                        [EvHttpPost req;
                         EvCacheWrite (cache_key dish_name m) html])))
          by (intros html Hw;
              now apply (Succeeded io db environ net dish_name m r content html)).
        unfold written in Hok. rewrite Hio3 in Hok.
        destruct content as [html| |shown [e|html]]; simpl.
        -- now apply Hok.
        -- now apply Hother.
        -- now apply Hother.
        -- now apply Hok.
    + pose proof (Hfail _ (call_failure_status io r Hs)) as H.
      unfold fragment_for, error_fragment in H.
      now rewrite !string_app_assoc in H.
Qed.

Lemma hit_truthy (o : option string) (html : string) :
  o = Some html -> html <> "" -> truthy_opt o = true.
Proof. intros -> H. destruct html; [contradiction | reflexivity]. Qed.

(** Two resolutions of the model on one store give one row, and a cache
    entry read as a hit is no miss. *)
Ltac hit_is_no_miss :=
  repeat match goal with
  | H1 : ?o = Some ?html, H2 : ?html <> "" |- _ =>
      lazymatch goal with
      | _ : truthy_opt o = true |- _ => fail
      | _ => pose proof (hit_truthy o html H1 H2)
      end
  end.

Ltac same_model :=
  repeat match goal with
  | H1 : get_default_model ?db = Some ?m1,
    H2 : get_default_model ?db = Some ?m2 |- _ =>
      lazymatch m1 with
      | m2 => fail
      | _ => assert (m1 = m2) by congruence; subst; clear H2
      end
  end.

(** Every run of [Lookup.query_ai] ends in one of the eight ways. *)
Lemma query_ai_result (io : Lookup.faults) (db : Db)
    (environ : gmap string string) (net : http_request -> Lookup.post_outcome)
    (dish_name : string) :
  lookup_result io db environ net dish_name
    (Lookup.query_ai io db environ net dish_name).
Proof.
  unfold Lookup.query_ai, Lookup.get_default_model.
  destruct (Lookup.get_default_model_raises io) as [e|] eqn:Hio1;
    [now apply ModelReadRaises|].
  cbn [mbind py_result_bind].
  destruct (get_default_model db) as [m|] eqn:Hm;
    [|now apply NoModelConfigured].
  unfold Lookup.get_cached_recipe.
  destruct (Lookup.get_cached_recipe_raises io) as [e|] eqn:Hio2;
    [now apply (CacheReadRaises io db environ net dish_name m)|].
  cbn [mbind py_result_bind].
  destruct (truthy_opt (get_cached_recipe db dish_name (model_id m))) eqn:Hc.
  { destruct (get_cached_recipe db dish_name (model_id m)) as [html|] eqn:Hg;
      [|discriminate].
    simpl in Hc. simpl. rewrite Hc.
    eapply Hit; eauto using truthy_true. }
  cbv zeta.
  pose proof (query_ai_call io db environ net dish_name m Hio1 Hm Hio2 Hc) as Hcall.
  pose proof (NoCredential io db environ net dish_name m Hio1 Hm Hio2 Hc) as Hnone.
  unfold request_for, credential_of, known_provider in Hcall, Hnone.
  unfold error_fragment in Hnone. rewrite !string_app_assoc in Hnone.
  destruct (String.eqb (provider m) "groq") eqn:Hg;
    [|destruct (String.eqb (provider m) "openrouter") eqn:Ho].
  - match goal with
    | |- context [negb (truthy ?k)] => destruct (truthy k) eqn:Hk
    end; simpl negb; cbv iota.
    + apply Hcall; [reflexivity|]. now apply truthy_true.
    + apply Hnone; [reflexivity|]. now apply truthy_false.
  - match goal with
    | |- context [negb (truthy ?k)] => destruct (truthy k) eqn:Hk
    end; simpl negb; cbv iota.
    + apply Hcall; [reflexivity|]. now apply truthy_true.
    + apply Hnone; [reflexivity|]. now apply truthy_false.
  - apply (UnknownProvider io db environ net dish_name m); try assumption.
    unfold known_provider. now rewrite Hg, Ho.
Qed.

(** [AiService.query_ai] is [Lookup.query_ai] on the runs in which no store
    call raises and the upstream content is text or [null]. *)
Lemma query_ai_refines (db : Db) (environ : gmap string string)
    (net : http_request -> post_outcome) (dish_name : string) :
  Lookup.query_ai Lookup.no_faults db environ
    (fun req => Lookup.of_outcome (net req)) dish_name =
  let '(html, db', evs) := query_ai db environ net dish_name in
  Returned (Lookup.Str html, db', evs).
Proof.
  unfold Lookup.query_ai, query_ai, Lookup.get_default_model,
    Lookup.get_cached_recipe.
  cbn [Lookup.no_faults Lookup.get_default_model_raises
       Lookup.get_cached_recipe_raises mbind py_result_bind].
  destruct (get_default_model db) as [m|]; [|reflexivity].
  destruct (truthy_opt (get_cached_recipe db dish_name (model_id m)));
    [reflexivity|].
  cbv zeta.
  match goal with
  | |- context [match ?e with Some _ => _ | None => _ end] =>
      destruct e as [[api_url key]|]
  end; [|reflexivity].
  destruct (negb (truthy key)); [reflexivity|].
  unfold Lookup.post_and_cache, post_and_cache.
  match goal with
  | |- context [net ?q] => destruct (net q) as [|err|r]
  end; try reflexivity.
  cbn [Lookup.of_outcome].
  unfold Lookup.is_success, is_success.
  cbn [Lookup.status_code Lookup.body Lookup.text].
  destruct ((200 <=? status_code r) && (status_code r <=? 299)); [|reflexivity].
  destruct (body r) as [err| |html]; reflexivity.
Qed.

(** The cache hit and the successful miss on the whole function: what was
    shown above of [AiService.query_ai] holds of [Lookup.query_ai] whenever
    the two store reads raise nothing, for any content that the store
    takes. *)
Lemma lookup_cache_hit (io : Lookup.faults) (db : Db)
    (environ : gmap string string) (net : http_request -> Lookup.post_outcome)
    (dish_name : string) (m : ai_model) (html : string) :
  Lookup.get_default_model_raises io = None ->
  Lookup.get_cached_recipe_raises io = None ->
  get_default_model db = Some m ->
  ai_recipe_cache db !! cache_key dish_name m = Some html ->
  html <> "" ->
  Lookup.query_ai io db environ net dish_name
    = Returned (Lookup.Str html, db, []).
Proof.
  intros Hio1 Hio2 Hm Hc Hne.
  assert (Hg : get_cached_recipe db dish_name (model_id m) = Some html)
    by exact Hc.
  pose proof (query_ai_result io db environ net dish_name) as H.
  inversion H; subst; try congruence; same_model; hit_is_no_miss; congruence.
Qed.

Lemma lookup_miss_success (io : Lookup.faults) (db : Db)
    (environ : gmap string string) (net : http_request -> Lookup.post_outcome)
    (dish_name : string) (m : ai_model) (r : Lookup.http_response)
    (content : Lookup.json_content) (html : string) :
  Lookup.get_default_model_raises io = None ->
  Lookup.get_cached_recipe_raises io = None ->
  get_default_model db = Some m ->
  truthy_opt (get_cached_recipe db dish_name (model_id m)) = false ->
  known_provider m = true ->
  credential_of m environ <> "" ->
  net (request_for m environ dish_name) = Lookup.PostResponse r ->
  Lookup.is_success r = true ->
  Lookup.body r = Lookup.Content content ->
  written io content = Returned html ->
  Lookup.query_ai io db environ net dish_name
    = Returned
        (Lookup.value_of content,
         with_cache db (<[ cache_key dish_name m := html ]> (ai_recipe_cache db)),
         [EvHttpPost (request_for m environ dish_name);
          EvCacheWrite (cache_key dish_name m) html]).
Proof.
  intros Hio1 Hio2 Hm Hmiss Hk Hcred Hn Hs Hb Hw.
  pose proof (query_ai_result io db environ net dish_name) as H.
  inversion H; subst; try congruence; same_model; hit_is_no_miss;
    try congruence.
  match goal with
  | Hf : call_failure _ _ = Some _ |- _ =>
      rewrite Hn, (call_failure_body io r Hs), Hb, Hw in Hf; discriminate
  end.
Qed.

(** C1, as the code has it: when the two store reads that precede the
    [try] block raise nothing, and the upstream does not answer with a
    content that is no string and that the store accepts all the same, a
    recipe lookup returns a string and raises nothing.  What it returns is
    the cached HTML, the content of the upstream answer, or an error
    fragment [<p class='error'>...</p>]: a missing model, an unknown
    provider, a missing credential, a timeout, a bad status and every other
    exception of the upstream call, a cache write that the store refuses
    included, all end in such a fragment. *)
Theorem query_ai_always_returns_html (io : Lookup.faults) (db : Db)
    (environ : gmap string string) (net : http_request -> Lookup.post_outcome)
    (dish_name : string) :
  Lookup.get_default_model_raises io = None ->
  Lookup.get_cached_recipe_raises io = None ->
  (forall req r content,
     net req = Lookup.PostResponse r ->
     Lookup.body r = Lookup.Content content -> text_or_refused content) ->
  exists html db' evs,
    Lookup.query_ai io db environ net dish_name
      = Returned (Lookup.Str html, db', evs) /\
    ((exists m, get_default_model db = Some m /\
                get_cached_recipe db dish_name (model_id m) = Some html)
     \/ (exists req r, In (EvHttpPost req) evs /\
                       net req = Lookup.PostResponse r /\
                       Lookup.is_success r = true /\
                       Lookup.body r = Lookup.Content (Lookup.JsonString html))
     \/ (exists msg, html = error_fragment msg)).
Proof.
  intros Hio1 Hio2 Htext.
  pose proof (query_ai_result io db environ net dish_name) as H.
  destruct (Lookup.query_ai io db environ net dish_name) as [e|[[v db'] evs]];
    inversion H; subst; try congruence.
  - eauto 10.
  - eauto 10.
  - eauto 10.
  - eauto 10.
  - destruct (fragment_is_error f) as [msg Hmsg]. rewrite Hmsg. eauto 10.
  - match goal with
    | Hn : net _ = Lookup.PostResponse ?r, Hb : Lookup.body ?r = _,
      Hw : written _ ?c = _ |- _ =>
        pose proof (Htext _ _ _ Hn Hb) as Ht; unfold written in Hw;
        destruct (Lookup.cache_recipe_raises io); [discriminate|];
        destruct c as [s| |shown [e|s]]; try discriminate; try contradiction;
        injection Hw as <-
    end.
    eexists s, _, _. split; [reflexivity|]. right; left.
    eexists _, r. split; [now left|]. auto.
Qed.

Lemma query_ai_always_returns_html_witness :
  exists db' evs,
    Lookup.query_ai Lookup.no_faults seeded_db ∅
      (fun req => Lookup.of_outcome (answer_500 req)) "dal"
    = Returned
        (Lookup.Str "<p class='error'>AI service error: 500 — Internal Server Error</p>",
         db', evs).
Proof.
  destruct (query_ai_always_returns_html Lookup.no_faults seeded_db ∅
              (fun req => Lookup.of_outcome (answer_500 req)) "dal"
              eq_refl eq_refl)
    as (html & db' & evs & Hq & _).
  - intros req r content [= <-] [=].
  - exists db', evs. rewrite Hq. vm_compute in Hq. injection Hq as <- _ _.
    reflexivity.
Defined.

(** C1, as stated, fails in two ways.  The model is read and the cache is
    looked up before the [try] block, so when the store is unavailable the
    exception of the read reaches the caller; and a content that is no
    string (here the number 42, which the [TEXT] column takes as the text
    42) is returned as it is, a value that is no [str]. *)
Lemma query_ai_raises_counterexample :
  Lookup.query_ai unavailable_store seeded_db ∅ number_answer "dal"
    = Raised "unable to open database file" /\
  Lookup.query_ai locked_cache seeded_db ∅ number_answer "dal"
    = Raised "database is locked" /\
  exists db',
    Lookup.query_ai Lookup.no_faults seeded_db ∅ number_answer "dal"
    = Returned
        (Lookup.NotStr "42", db',
         [EvHttpPost (groq_request "dal");
          EvCacheWrite ("dal", "openai/gpt-oss-120b") "42"]).
Proof.
  split; [reflexivity|]. split; [reflexivity|].
  eexists. reflexivity.
Qed.

(** C4: when the upstream call fails (it times out, answers with a status
    outside 2xx, or fails in any other way: a transport error, a malformed
    or content-less body, a content whose cache write raises), the lookup
    writes nothing to the cache and leaves the store as it was; it returns a
    non-empty error fragment that announces the kind of failure.  For a bad
    status the fragment carries the status code and the excerpt
    [response.text[:200]]: the beginning of the response text, cut between
    two characters, of 200 characters or of all of them when the text has
    fewer.  The call is the one made on a cache miss for a resolved model
    of a known provider with a credential; and whenever a lookup returns
    with a request in its trace that failed, this is what it did. *)
Theorem upstream_failure_not_cached (io : Lookup.faults) (db : Db)
    (environ : gmap string string) (net : http_request -> Lookup.post_outcome)
    (dish_name : string) (m : ai_model) (f : failure) :
  Lookup.get_default_model_raises io = None ->
  Lookup.get_cached_recipe_raises io = None ->
  get_default_model db = Some m ->
  truthy_opt (get_cached_recipe db dish_name (model_id m)) = false ->
  known_provider m = true ->
  credential_of m environ <> "" ->
  call_failure io (net (request_for m environ dish_name)) = Some f ->
  (exists html,
     Lookup.query_ai io db environ net dish_name
       = Returned (Lookup.Str html, db,
                   [EvHttpPost (request_for m environ dish_name)]) /\
     cache_writes [EvHttpPost (request_for m environ dish_name)] = 0%nat /\
     html <> "" /\
     announced_tag html = Some (tag_of f) /\
     match f with
     | TimedOut =>
         html = "<p class='error'>AI service timed out. Please try again.</p>"
     | BadStatus status response_text =>
         exists excerpt rest,
           html = "<p class='error'>AI service error: " +:+ pretty status
                  +:+ " — " +:+ excerpt +:+ "</p>" /\
           response_text = excerpt +:+ rest /\ at_char_boundary rest /\
           char_length excerpt = Nat.min 200 (char_length response_text)
     | OtherFailure err =>
         html = "<p class='error'>Error querying AI: " +:+ err +:+ "</p>"
     end) /\
  (forall v db' evs req f',
     Lookup.query_ai io db environ net dish_name = Returned (v, db', evs) ->
     In (EvHttpPost req) evs ->
     call_failure io (net req) = Some f' ->
     req = request_for m environ dish_name /\ f' = f).
Proof.
  intros Hio1 Hio2 Hm Hmiss Hk Hcred Hfail.
  pose proof (query_ai_result io db environ net dish_name) as H.
  assert (Hq : Lookup.query_ai io db environ net dish_name
               = Returned (Lookup.Str (fragment_for f), db,
                           [EvHttpPost (request_for m environ dish_name)])).
  { inversion H; subst; try congruence; same_model; hit_is_no_miss;
      try congruence.
    match goal with
    | Hn : net _ = Lookup.PostResponse ?r, Hs : Lookup.is_success ?r = true,
      Hb : Lookup.body ?r = _, Hw : written _ _ = _ |- _ =>
        rewrite Hn, (call_failure_body io r Hs), Hb, Hw in Hfail
    end.
    discriminate. }
  split.
  - exists (fragment_for f). split; [exact Hq|]. split; [reflexivity|]. split.
    { destruct (fragment_is_error f) as [msg ->]. apply error_fragment_nonempty. }
    split; [apply announced_tag_fragment|].
    destruct f as [|status response_text|err]; simpl.
    + reflexivity.
    + destruct (slice_to_spec 200 response_text) as (rest & Hs & Hb & Hl).
      exists (slice_to 200 response_text), rest.
      split; [|auto]. unfold error_fragment. now rewrite !string_app_assoc.
    + unfold error_fragment. now rewrite !string_app_assoc.
  - intros v db' evs req f' Hq' Hin Hf'. rewrite Hq in Hq'.
    injection Hq' as <- <- <-. destruct Hin as [[= <-]|[]].
    split; [reflexivity | congruence].
Qed.

Lemma upstream_failure_not_cached_witness :
  Lookup.query_ai Lookup.no_faults seeded_db ∅
    (fun req => Lookup.of_outcome (answer_500 req)) "dal"
  = Returned
      (Lookup.Str "<p class='error'>AI service error: 500 — Internal Server Error</p>",
       seeded_db, [EvHttpPost (groq_request "dal")]).
Proof.
  destruct (upstream_failure_not_cached Lookup.no_faults seeded_db ∅
              (fun req => Lookup.of_outcome (answer_500 req)) "dal" groq_model
              (BadStatus 500 "Internal Server Error")
              eq_refl eq_refl eq_refl eq_refl eq_refl)
    as ((html & Hq & _) & _).
  - discriminate.
  - reflexivity.
  - rewrite Hq. vm_compute in Hq. injection Hq as <-. reflexivity.
Defined.

(** The excerpt of a long response text with characters of several bytes:
    200 characters, which are 300 bytes here. *)
Example upstream_failure_excerpt :
  let body := String.concat "" (repeat "aé" 150) in
  char_length body = 300%nat /\ String.length body = 450%nat /\
  char_length (slice_to 200 body) = 200%nat /\
  String.length (slice_to 200 body) = 300%nat /\
  fst (fst (default (Lookup.NotStr "", seeded_db, [])
              (match Lookup.query_ai Lookup.no_faults seeded_db ∅
                       (fun _ => Lookup.PostResponse
                                   {| Lookup.status_code := 503;
                                      Lookup.text := body;
                                      Lookup.body := Lookup.NoContent "" |})
                       "dal" with
               | Returned x => Some x
               | Raised _ => None
               end)))
  = Lookup.Str ("<p class='error'>AI service error: 503 — "
                +:+ String.concat "" (repeat "aé" 100) +:+ "</p>").
Proof. vm_compute. repeat split. Qed.

(** C6: model resolution has three branches.  A resolved model is a
    configured row, and it is a row flagged default unless no row is
    flagged; a model is resolved whenever some row is configured; with no
    row at all nothing is resolved and the lookup returns the fixed
    fragment at once, the store untouched and no effect performed.  The
    resolved row is the one the lookup uses: it returns the recipe cached
    under that row's model identifier, and on a miss the request it issues
    goes to the endpoint of that row's provider, names that row's model and
    carries that row's credential, and what it caches is cached under that
    row's model identifier. *)
Theorem model_resolution_order (db : Db) :
  match get_default_model db with
  | Some m =>
      In m (ai_models db) /\
      (is_default m = 1 \/
       (Forall (fun m' => is_default m' <> 1) (ai_models db) /\
        head (ai_models db) = Some m)) /\
      forall io environ net dish_name,
        Lookup.get_default_model_raises io = None ->
        Lookup.get_cached_recipe_raises io = None ->
        (forall html,
           get_cached_recipe db dish_name (model_id m) = Some html ->
           html <> "" ->
           Lookup.query_ai io db environ net dish_name
             = Returned (Lookup.Str html, db, [])) /\
        (truthy_opt (get_cached_recipe db dish_name (model_id m)) = false ->
         known_provider m = true -> credential_of m environ <> "" ->
         exists v db' evs req,
           Lookup.query_ai io db environ net dish_name
             = Returned (v, db', EvHttpPost req :: evs) /\
           req_model req = model_id m /\
           req_url req = (if String.eqb (provider m) "groq" then GROQ_API_URL
                          else OPENROUTER_API_URL) /\
           head (req_headers req)
             = Some ("Authorization", "Bearer " +:+ credential_of m environ) /\
           forall key html, In (EvCacheWrite key html) evs ->
                            key = (strip (lower dish_name), model_id m))
  | None =>
      ai_models db = [] /\
      forall io environ net dish_name,
        Lookup.get_default_model_raises io = None ->
        Lookup.query_ai io db environ net dish_name =
        Returned
          (Lookup.Str "<p class='error'>No AI model configured. Ask admin to add one.</p>",
           db, [])
  end.
Proof.
  destruct (get_default_model db) as [m|] eqn:Hm.
  - split; [|split].
    + unfold get_default_model in Hm.
      destruct (find (fun m => is_default m =? 1) (ai_models db)) as [m'|] eqn:Hf.
      * injection Hm as <-. now apply find_some in Hf as [Hin _].
      * destruct (ai_models db); [discriminate|]. injection Hm as <-. now left.
    + unfold get_default_model in Hm.
      destruct (find (fun m => is_default m =? 1) (ai_models db)) as [m'|] eqn:Hf.
      * injection Hm as <-. apply find_some in Hf as [_ Hd%Z.eqb_eq]. now left.
      * right. split; [|exact Hm].
        apply List.Forall_forall. intros m' Hin Hd.
        pose proof (find_none _ _ Hf m' Hin) as Hn. simpl in Hn.
        apply Z.eqb_neq in Hn. contradiction.
    + intros io environ net dish_name Hio1 Hio2.
      pose proof (query_ai_result io db environ net dish_name) as H.
      split.
      * intros html Hg Hne.
        assert (Ht : truthy_opt (get_cached_recipe db dish_name (model_id m)) = true).
        { rewrite Hg. destruct html; [contradiction | reflexivity]. }
        inversion H; subst; try congruence; same_model; congruence.
      * intros Hmiss Hk Hcred.
        inversion H; subst; try congruence; same_model; hit_is_no_miss;
          try congruence.
        -- eexists _, _, _, _. split; [reflexivity|].
           repeat split. intros key html [].
        -- eexists _, _, _, _. split; [reflexivity|].
           repeat split. intros key html' [[= <- _]|[]]. reflexivity.
  - split.
    + unfold get_default_model in Hm.
      destruct (find (fun m => is_default m =? 1) (ai_models db)); [discriminate|].
      now destruct (ai_models db).
    + intros io environ net dish_name Hio1.
      unfold Lookup.query_ai, Lookup.get_default_model. rewrite Hio1.
      cbn [mbind py_result_bind]. now rewrite Hm.
Qed.

Lemma model_resolution_order_witness :
  Lookup.query_ai Lookup.no_faults
    (with_cache seeded_db {[ ("dal", "openai/gpt-oss-120b") := "<h3>Dal</h3>" ]})
    ∅ (fun _ => Lookup.PostTimeout) " Dal "
  = Returned
      (Lookup.Str "<h3>Dal</h3>",
       with_cache seeded_db {[ ("dal", "openai/gpt-oss-120b") := "<h3>Dal</h3>" ]},
       []).
Proof.
  refine (proj1 (proj2 (proj2 (model_resolution_order
            (with_cache seeded_db {[ ("dal", "openai/gpt-oss-120b") := "<h3>Dal</h3>" ]})))
            Lookup.no_faults ∅ (fun _ => Lookup.PostTimeout) " Dal " eq_refl eq_refl)
            "<h3>Dal</h3>" _ _).
  - vm_compute. reflexivity.
  - discriminate.
Defined.

(** ** Ordering of query results *)

Section OrderBy.
Context {A : Type} (leb : A -> A -> bool).

Lemma insert_by_perm (x : A) (l : list A) :
  Permutation (insert_by leb x l) (x :: l).
Proof.
  induction l as [|y l IH]; simpl; [reflexivity|].
  destruct (leb x y); [reflexivity|].
  rewrite IH. apply perm_swap.
Qed.

Lemma order_by_perm (l : list A) : Permutation (order_by leb l) l.
Proof.
  induction l as [|x l IH]; simpl; [reflexivity|].
  rewrite insert_by_perm. now constructor.
Qed.

Lemma order_by_nil : order_by leb [] = [].
Proof. reflexivity. Qed.

End OrderBy.


Lemma head_order_by_some {A : Type} (leb : A -> A -> bool) (l : list A) :
  l <> [] -> exists x, head (order_by leb l) = Some x.
Proof.
  intros Hl. pose proof (order_by_perm leb l) as Hp.
  destruct (order_by leb l) as [|x s]; [|eauto].
  apply Permutation_nil in Hp. contradiction.
Qed.

(** ** Sums *)

Lemma fold_left_add (l : list Z) (a : Z) : fold_left Z.add l a = a + sum_Z l.
Proof.
  revert a. induction l as [|x l IH]; intros a; simpl; [lia|].
  rewrite IH. lia.
Qed.

Lemma py_sum_sum_Z (l : list Z) : py_sum l = sum_Z l.
Proof. unfold py_sum. rewrite fold_left_add. lia. Qed.

Lemma sum_Z_perm (l1 l2 : list Z) : Permutation l1 l2 -> sum_Z l1 = sum_Z l2.
Proof. induction 1; simpl; lia. Qed.

(** ** Visible meals *)

Lemma in_rows_on (db : Db) (pid d : Z) (m : meal) :
  In m (rows_on db pid d) <->
  In m (meal_plans db) /\ plan_date m = d /\ visible_to pid m = true.
Proof.
  unfold rows_on. rewrite <- !list_elem_of_In, list_elem_of_filter.
  rewrite andb_True, !Is_true_true, Z.eqb_eq. tauto.
Qed.



Lemma meals_on_rows (db : Db) (pid d : Z) :
  Permutation (meals_on db d pid) (rows_on db pid d).
Proof. apply order_by_perm. Qed.


(** ** The day view *)

Lemma init_organized_default :
  exists slots,
    init_organized MEAL_TYPE_ORDER [] = Returned slots /\ six_empty_slots slots.
Proof.
  eexists. split; [reflexivity|]. split; [reflexivity|].
  repeat constructor.
Qed.

Lemma checked_ids_marked (db : Db) (pid i : Z) :
  i ∈ checked_ids_of db pid <-> marked_prepared db pid i = true.
Proof.
  unfold checked_ids_of, marked_prepared.
  rewrite elem_of_list_to_set, list_elem_of_In, in_map_iff, existsb_exists.
  split.
  - intros (c & <- & Hc). apply list_elem_of_In, list_elem_of_filter in Hc.
    destruct Hc as [Hc Hin]. apply Is_true_true in Hc.
    apply andb_prop in Hc as [H1 H2].
    exists c. split; [now apply list_elem_of_In|].
    now rewrite H1, H2, Z.eqb_refl.
  - intros (c & Hin & Hc).
    apply andb_prop in Hc as [[H1 H2]%andb_prop H3].
    exists c. split; [now apply Z.eqb_eq|].
    apply list_elem_of_In, list_elem_of_filter. split.
    + apply Is_true_true. now rewrite H1, H3.
    + now apply list_elem_of_In.
Qed.

Lemma checked_filter (db : Db) (pid : Z) (l : list meal) :
  filter (fun m => bool_decide (id m ∈ checked_ids_of db pid)) l =
  filter (fun m => marked_prepared db pid (id m)) l.
Proof.
  apply list_filter_iff. intros m.
  rewrite bool_decide_spec, checked_ids_marked, Is_true_true. reflexivity.
Qed.

Lemma update_keys {K V : Type} (eqb : K -> K -> bool) (k : K) (f : V -> V)
    (d : list (K * V)) :
  map fst (PyDict.update eqb k f d) = map fst d.
Proof.
  induction d as [|[k' v] d IH]; simpl; [reflexivity|].
  destruct (eqb k k'); simpl; [reflexivity | now rewrite IH].
Qed.


(** The page built for a known profile, with the date it resolved. *)
Lemma dashboard_page (db : Db) (today pid : Z) (p : profile)
    (vd : view_date_arg) :
  get_profile db pid = Some p ->
  exists slots0 sd,
    six_empty_slots slots0 /\
    sd =
      match vd with
      | ViewDate d => d
      | BadViewDate => today
      | NoViewDate =>
          if count_meals_on db today pid =? 0 then
            match nearest_plan_date db pid today with
            | Some nearest => nearest
            | None => today
            end
          else today
      end /\
    dashboard db today (Some pid) vd =
    Returned
      (Page {| dp_profile := p;
               dp_meals :=
                 organize (checked_ids_of db pid) (meals_on db sd pid) slots0;
               selected_date := sd;
               dp_today := today;
               total_calories := py_sum (map calories (meals_on db sd pid));
               checked_calories :=
                 py_sum
                   (map calories
                      (filter
                         (fun m => bool_decide (id m ∈ checked_ids_of db pid))
                         (meals_on db sd pid))) |}).
Proof.
  intros Hp. destruct init_organized_default as (slots0 & Hinit & Hsix).
  exists slots0. eexists. split; [exact Hsix|]. split; [reflexivity|].
  unfold dashboard. rewrite Hp, Hinit.
  destruct vd; reflexivity.
Qed.



Lemma log_activity_stored (st : Store.store) (pid : Z) (p : profile)
    (action details : string) (req : Store.request) :
  get_profile (Store.st_db st) pid = Some p ->
  exists st1,
    Store.log_activity st pid action details req = Returned st1 /\
    Store.st_db st1 = Store.st_db st /\
    length (Store.activity_logs st1) = S (length (Store.activity_logs st)).
Proof.
  intros Hp. unfold Store.log_activity.
  assert (He : existsb (fun q => pr_id q =? pid) (profiles (Store.st_db st)) = true).
  { unfold get_profile in Hp. apply find_some in Hp as [Hin Hid].
    apply existsb_exists. eauto. }
  rewrite He. eexists. split; [reflexivity|]. simpl.
  split; [reflexivity|]. rewrite length_app. simpl. lia.
Qed.








(** ** The week view *)

Lemma timedelta_small (n : Z) :
  Z.abs n <= 999999999 -> timedelta n = Returned n.
Proof.
  intros H. unfold timedelta.
  destruct (Z.leb_spec (Z.abs n) 999999999); [reflexivity | lia].
Qed.

Lemma date_add_valid (d delta : Z) :
  valid_date (d + delta) -> date_add d delta = Returned (d + delta).
Proof.
  unfold valid_date, date_add. intros [H1 H2]. cbv zeta.
  destruct (Z.leb_spec MINORDINAL (d + delta)); [|lia].
  destruct (Z.leb_spec (d + delta) MAXORDINAL); [reflexivity | lia].
Qed.

Lemma weekday_range (d : Z) : 0 <= weekday d <= 6.
Proof. unfold weekday. pose proof (Z.mod_pos_bound (d + 6) 7). lia. Qed.

Lemma monday_valid (today : Z) :
  valid_date today -> valid_date (today - weekday today).
Proof.
  unfold valid_date, weekday, MINORDINAL, MAXORDINAL. intros H.
  pose proof (Z.mod_pos_bound (today + 6) 7).
  assert ((today + 6) mod 7 <= today - 1).
  { replace (today + 6) with (today - 1 + 1 * 7) by lia.
    rewrite Z.mod_add by lia. apply Z.mod_le; lia. }
  lia.
Qed.

Lemma monday_weekday (today off : Z) :
  weekday (today - weekday today + 7 * off) = 0.
Proof.
  unfold weekday.
  pose proof (Z.div_mod (today + 6) 7 ltac:(lia)) as H.
  replace (today - (today + 6) mod 7 + 7 * off + 6)
    with (((today + 6) / 7 + off) * 7) by lia.
  apply Z.mod_mul. lia.
Qed.

Lemma set_fresh {V : Type} (k : Z) (v : V) (d : list (Z * V)) :
  ~ In k (map fst d) -> PyDict.set Z.eqb k v d = (d ++ [(k, v)])%list.
Proof.
  induction d as [|[k' v'] d IH]; simpl; [reflexivity|].
  intros Hn. destruct (Z.eqb_spec k k') as [->|_]; [tauto|].
  rewrite IH; [reflexivity | tauto].
Qed.

Lemma init_days_spec (start : Z) (offsets : list Z) (ds : list (Z * day_bucket)) :
  List.NoDup offsets ->
  (forall i, In i offsets ->
             Z.abs i <= 999999999 /\ valid_date (start + i) /\
             ~ In (start + i) (map fst ds)) ->
  init_days start offsets ds =
  Returned (ds ++ map (fun i => (start + i, fresh_bucket (start + i))) offsets)%list.
Proof.
  revert ds. induction offsets as [|i offsets IH]; intros ds Hnd Hall.
  - simpl. now rewrite app_nil_r.
  - destruct (Hall i (or_introl eq_refl)) as (Hi & Hv & Hfresh).
    apply NoDup_cons_iff in Hnd as [Hni Hnd].
    cbn [init_days]. rewrite (timedelta_small i Hi).
    cbn [mbind py_result_bind]. rewrite (date_add_valid start i Hv).
    cbn [mbind py_result_bind]. rewrite (set_fresh _ _ _ Hfresh).
    rewrite IH; [now rewrite <- app_assoc| exact Hnd |].
    intros j Hj. destruct (Hall j (or_intror Hj)) as (Hj1 & Hj2 & Hj3).
    split; [exact Hj1 | split; [exact Hj2|]].
    rewrite List.map_app, in_app_iff. intros [H|[H|[]]]; [tauto|].
    simpl in H. assert (i = j) by lia. subst. contradiction.
Qed.

Lemma update_in {V : Type} (k0 : Z) (f : V -> V) (d : list (Z * V)) (k : Z) (v : V) :
  In (k, v) (PyDict.update Z.eqb k0 f d) ->
  In (k, v) d \/ (k = k0 /\ exists v0, In (k, v0) d /\ v = f v0).
Proof.
  induction d as [|[k' v'] d IH]; simpl; [tauto|].
  destruct (Z.eqb_spec k0 k') as [->|Hne]; simpl.
  - intros [[= <- <-]|H]; [right; eauto | tauto].
  - intros [H|H]; [tauto|].
    destruct (IH H) as [H'|(-> & v0 & Hin & ->)]; [tauto|].
    right. eauto.
Qed.

Lemma fill_days_keys (checked : gset Z) (ms : list meal)
    (ds : list (Z * day_bucket)) :
  map fst (fill_days checked ms ds) = map fst ds.
Proof.
  unfold fill_days. revert ds.
  induction ms as [|m ms IH]; intros ds; simpl; [reflexivity|].
  rewrite IH. destruct (PyDict.mem Z.eqb (plan_date m) ds);
    [apply update_keys | reflexivity].
Qed.

Lemma fill_days_buckets (checked : gset Z) (ms : list meal)
    (ds : list (Z * day_bucket)) (touched : Z -> Prop) :
  (forall k b, In (k, b) ds ->
               day_date b = k /\ (~ touched k -> empty_bucket b)) ->
  forall k b, In (k, b) (fill_days checked ms ds) ->
    day_date b = k /\
    (~ touched k -> (forall m, In m ms -> plan_date m <> k) -> empty_bucket b).
Proof.
  unfold fill_days. revert ds touched.
  induction ms as [|m ms IH]; intros ds touched Hds k b Hin; simpl in Hin.
  - destruct (Hds k b Hin). tauto.
  - match type of Hin with
    | In _ (fold_left _ _ ?d) => set (ds' := d) in *
    end.
    destruct (IH ds' (fun k => touched k \/ k = plan_date m)) with (k := k) (b := b)
      as [Hdate Hempty]; [|exact Hin|].
    + intros k1 b1 H1. unfold ds' in H1.
      destruct (PyDict.mem Z.eqb (plan_date m) ds).
      * apply update_in in H1 as [H1|(-> & b0 & H0 & ->)].
        -- destruct (Hds k1 b1 H1). tauto.
        -- destruct (Hds _ b0 H0). simpl. tauto.
      * destruct (Hds k1 b1 H1). tauto.
    + split; [exact Hdate|]. intros Ht Hms. apply Hempty.
      * intros [H|H]; [tauto|]. apply (Hms m); [now left | now symmetry].
      * intros m' Hm'. apply Hms. now right.
Qed.

Lemma in_meals_between (db : Db) (lo hi pid : Z) (m : meal) :
  In m (meals_between db lo hi pid) ->
  In m (meal_plans db) /\ visible_to pid m = true.
Proof.
  unfold meals_between. intros H.
  eapply Permutation_in in H; [|apply order_by_perm].
  apply list_elem_of_In, list_elem_of_filter in H as [H Hin].
  apply Is_true_true, andb_prop in H as [_ Hv].
  split; [now apply list_elem_of_In | exact Hv].
Qed.

(** The week view that [Main.history] builds when the week lies within the
    calendar. *)
Lemma history_in_calendar (db : Db) (today pid week_offset : Z) :
  valid_date today ->
  valid_date (today - weekday today + 7 * week_offset) ->
  valid_date (today - weekday today + 7 * week_offset + 6) ->
  exists ctx,
    history db today (Some pid) week_offset = Returned (Page ctx) /\
    let s := today - weekday today + 7 * week_offset in
    start_of_week ctx = s /\ end_of_week ctx = s + 6 /\
    weekday s = 0 /\
    s <= today + 7 * week_offset <= s + 6 /\
    map fst (days ctx) = [s; s + 1; s + 2; s + 3; s + 4; s + 5; s + 6] /\
    forall k b, In (k, b) (days ctx) ->
      day_date b = k /\
      (~ has_meal_on db pid k -> empty_bucket b).
Proof.
  intros Htoday Hs He.
  set (s := today - weekday today + 7 * week_offset) in *.
  pose proof (weekday_range today) as Hw.
  pose proof (monday_valid today Htoday) as Hmon.
  assert (Hdays : init_days s [0; 1; 2; 3; 4; 5; 6] [] =
                  Returned (map (fun i => (s + i, fresh_bucket (s + i)))
                              [0; 1; 2; 3; 4; 5; 6])).
  { rewrite init_days_spec; [reflexivity | |].
    - repeat (constructor; [simpl; intuition lia|]). constructor.
    - unfold valid_date in *. simpl. intros i Hi. intuition lia. }
  eexists. split.
  - unfold history.
    rewrite (timedelta_small (weekday today)) by lia.
    cbn [mbind py_result_bind]. unfold date_sub.
    rewrite (date_add_valid today (- weekday today)) by exact Hmon.
    cbn [mbind py_result_bind].
    unfold valid_date, MINORDINAL, MAXORDINAL in *.
    rewrite (timedelta_small (7 * week_offset)) by (subst s; lia).
    cbn [mbind py_result_bind].
    rewrite (date_add_valid (today + - weekday today) (7 * week_offset))
      by (unfold valid_date, MINORDINAL, MAXORDINAL; subst s; lia).
    cbn [mbind py_result_bind].
    rewrite (timedelta_small 6) by lia.
    cbn [mbind py_result_bind].
    replace (today + - weekday today + 7 * week_offset) with s by (subst s; lia).
    rewrite (date_add_valid s 6)
      by (unfold valid_date, MINORDINAL, MAXORDINAL; lia).
    cbn [mbind py_result_bind].
    rewrite Hdays. cbn [mbind py_result_bind]. reflexivity.
  - cbv zeta. cbn [start_of_week end_of_week days].
    split; [reflexivity|]. split; [reflexivity|].
    split; [apply monday_weekday|].
    split; [subst s; lia|].
    split.
    + rewrite fill_days_keys. simpl. now rewrite Z.add_0_r.
    + intros k b Hin.
      eapply fill_days_buckets with (touched := fun _ => False) in Hin.
      * destruct Hin as [Hdate Hempty]. split; [exact Hdate|].
        intros Hno. apply Hempty; [tauto|].
        intros m Hm Hk. apply Hno. exists m.
        apply in_meals_between in Hm. tauto.
      * intros k1 b1 H1. apply in_map_iff in H1 as (i & [= <- <-] & _).
        split; [reflexivity|]. intros _. repeat split.
Qed.

(** C9, as the code has it: for a request whose cookie names a stored
    profile, whenever the week shifted by [week_offset] whole weeks lies
    within the calendar ([date.min] to [date.max]), the week view covers the
    seven consecutive dates that start at the Monday of that week; at offset
    0 this is the Monday on or before today, whatever weekday today is.  The
    seven day buckets are all present, in order, and a day for which the
    profile sees no meal has an empty bucket with both counters zero.  The
    view is logged as one activity row. *)
Theorem week_view_seven_days (st : Store.store) (today pid week_offset : Z)
    (p : profile) (req : Store.request) :
  Store.cookie_profile_id req = Some pid ->
  get_profile (Store.st_db st) pid = Some p ->
  int64 pid = true ->
  valid_date today ->
  valid_date (today - weekday today + 7 * week_offset) ->
  valid_date (today - weekday today + 7 * week_offset + 6) ->
  let db := Store.st_db st in
  exists st' ctx,
    Views.history st today req week_offset = (st', Returned (Page ctx)) /\
    Store.st_db st' = db /\
    length (Store.activity_logs st') = S (length (Store.activity_logs st)) /\
    let s := today - weekday today + 7 * week_offset in
    start_of_week ctx = s /\ end_of_week ctx = s + 6 /\
    weekday s = 0 /\
    s <= today + 7 * week_offset <= s + 6 /\
    map fst (days ctx) = [s; s + 1; s + 2; s + 3; s + 4; s + 5; s + 6] /\
    forall k b, In (k, b) (days ctx) ->
      day_date b = k /\
      (~ has_meal_on db pid k -> empty_bucket b).
Proof.
  intros Hc Hp Hi Htoday Hs He. cbv zeta.
  destruct (history_in_calendar (Store.st_db st) today pid week_offset
              Htoday Hs He) as (ctx & Hh & Hfacts).
  cbv zeta in Hfacts.
  assert (Hstart : start_of_week ctx = today - weekday today + 7 * week_offset)
    by apply Hfacts.
  destruct (log_activity_stored st pid p "history_view"
              ("Week of " +:+ isoformat (start_of_week ctx)) req Hp)
    as (st1 & Hlog & Hdb & Hlen).
  exists st1, ctx. split.
  - unfold Views.history. rewrite Hc, Hh, Hi. simpl negb. cbv iota.
    now rewrite Hlog.
  - split; [exact Hdb|]. split; [exact Hlen | exact Hfacts].
Qed.

Lemma week_view_seven_days_witness :
  exists st' ctx,
    Views.history MoreProps.template_store 739924 MoreProps.profile1_request (-36)
      = (st', Returned (Page ctx)) /\
    map fst (days ctx) =
    [739670; 739671; 739672; 739673; 739674; 739675; 739676].
Proof.
  destruct (week_view_seven_days MoreProps.template_store 739924 1 (-36)
              {| pr_id := 1; pr_name := "Asha" |} MoreProps.profile1_request
              eq_refl eq_refl eq_refl)
    as (st' & ctx & Hh & _ & _ & _ & _ & _ & _ & Hk & _).
  - unfold valid_date, MINORDINAL, MAXORDINAL. lia.
  - vm_compute. split; discriminate.
  - vm_compute. split; discriminate.
  - exists st', ctx. split; [exact Hh | exact Hk].
Defined.

(** C9, as stated for every week offset, fails: an offset that moves the
    week past [date.max] makes the date arithmetic raise [OverflowError],
    and no week view is produced.  Nor is one produced for a cookie that
    names no stored profile: the activity row violates its foreign key and
    the handler raises [IntegrityError]. *)
Lemma week_view_overflow_counterexample :
  valid_date 739924 /\
  Views.history MoreProps.template_store 739924 MoreProps.profile1_request
    1000000 = (MoreProps.template_store, Raised "OverflowError") /\
  get_profile template_db 7 = None /\
  Views.history MoreProps.template_store 739924
    MoreProps.stale_cookie_request 0
    = (MoreProps.template_store, Raised "IntegrityError").
Proof.
  split; [unfold valid_date, MINORDINAL, MAXORDINAL; lia|].
  repeat split.
Qed.

(** ** The admin edit *)

Lemma Forall2_map_r {A : Type} (R : A -> A -> Prop) (f : A -> A) (l : list A) :
  (forall x, R x (f x)) -> Forall2 R l (map f l).
Proof. intros H. induction l; simpl; constructor; auto. Qed.

Lemma Forall2_diag {A : Type} (R : A -> A -> Prop) (l : list A) :
  (forall x, R x x) -> Forall2 R l l.
Proof. intros H. induction l; constructor; auto. Qed.

(** C10: an edit leaves the description and the fibre value of every
    meal-plan entry as they were (and its id and creation time).  Row by
    row, the table after the edit keeps those fields; a row with another id
    is unchanged altogether, and the row with the edited id is either
    unchanged (the request was refused or rejected) or carries the posted
    date, slot, trimmed dish name, calories, protein, carbs, fat and profile
    scope.  No other table changes. *)
Theorem edit_meal_frame (db : Db) (admin_session : option string)
    (meal_id new_date : Z) (new_type new_name : string) (new_calories : Z)
    (new_protein new_carbs new_fat : float) (new_profile : Z) :
  let db' := fst (edit_meal db admin_session meal_id new_date new_type new_name
                    new_calories new_protein new_carbs new_fat new_profile) in
  Forall2
    (fun m m' =>
       description m' = description m /\ fiber_g m' = fiber_g m /\
       kept_fields m' = kept_fields m /\
       (id m <> meal_id -> m' = m) /\
       (m' = m \/
        (plan_date m' = new_date /\ meal_type m' = new_type /\
         dish_name m' = PyStr.strip new_name /\ calories m' = new_calories /\
         protein_g m' = new_protein /\ carbs_g m' = new_carbs /\
         fat_g m' = new_fat /\
         profile_id m' = if 0 <? new_profile then Some new_profile else None)))
    (meal_plans db) (meal_plans db') /\
  profiles db' = profiles db /\ meal_checks db' = meal_checks db /\
  ai_models db' = ai_models db /\ ai_recipe_cache db' = ai_recipe_cache db.
Proof.
  cbv zeta.
  match goal with |- Forall2 ?R _ _ /\ _ => set (rel := R) end.
  assert (Hsame : Forall2 rel (meal_plans db) (meal_plans db)).
  { apply Forall2_diag. intros m. unfold rel. repeat split; auto. }
  assert (Hupd : Forall2 rel (meal_plans db)
    (map (update_row meal_id new_date new_type (PyStr.strip new_name)
            new_calories new_protein new_carbs new_fat
            (if 0 <? new_profile then Some new_profile else None))
       (meal_plans db))).
  { apply Forall2_map_r. intros m. unfold rel, update_row.
    destruct (Z.eqb_spec (id m) meal_id) as [He|Hne].
    - simpl. repeat split; try tauto; right; repeat split.
    - repeat split; auto. }
  unfold edit_meal.
  destruct (negb (truthy_opt admin_session)); [simpl; auto|].
  match goal with
  | |- context [negb (int64 ?a && int64_opt ?b && int64 ?c)] =>
      destruct (negb (int64 a && int64_opt b && int64 c))
  end; [simpl; auto|].
  match goal with
  | |- context [forallb ?f ?l] => destruct (forallb f l)
  end; [|simpl; auto].
  match goal with
  | |- context [find ?f ?l] => destruct (find f l)
  end; simpl; auto.
Qed.

(** The edit does change the other fields: an accepted edit of the lunch of
    the template day. *)
Example edit_meal_changes_row :
  map (fun m => (id m, plan_date m, meal_type m, dish_name m, calories m,
                 description m))
    (meal_plans
       (fst (edit_meal template_db (Some "session") 2 739670 "dinner"
               " Paneer Tikka " 510 30%float 12%float 20%float 1)))
  = [(1, 739669, "breakfast", "Oatmeal with Berries", 350, "");
     (2, 739670, "dinner", "Paneer Tikka", 510, "");
     (3, 739669, "dinner", "Salmon with Vegetables", 480, "")].
Proof. reflexivity. Qed.

(** * Further properties *)

Import Store Handlers MoreProps.

(** ** Normal forms of dish names *)

(** X1: normalising a dish name twice is normalising it once, so the text
    under which a recipe is stored is itself a name that finds it: a lookup
    by the normalised name reads the entry of the original name, and after a
    store under any name the lookup by its normalised form returns what was
    stored. *)
Theorem cache_key_is_normal_form (db : Db) (s model html : string) :
  strip (lower (strip (lower s))) = strip (lower s) /\
  get_cached_recipe db (strip (lower s)) model = get_cached_recipe db s model /\
  exists db',
    cache_recipe db s model (Some html) = Returned db' /\
    get_cached_recipe db' (strip (lower s)) model = Some html.
Proof.
  split; [apply normalize_idem|]. split.
  - unfold get_cached_recipe. now rewrite normalize_idem.
  - eexists. split; [reflexivity|].
    unfold get_cached_recipe. simpl. rewrite normalize_idem.
    apply lookup_insert_eq.
Qed.

(** ** Effects of a recipe lookup *)

Lemma get_default_model_with_cache (db : Db) (c : gmap (string * string) string) :
  get_default_model (with_cache db c) = get_default_model db.
Proof. reflexivity. Qed.




(** X3: a lookup touches one cache key at most.  It leaves the profiles,
    meals, checks and model configuration as they were, never removes a
    cache entry, and every cache key other than the one computed for the
    dish and the resolved model keeps its value. *)
Theorem query_ai_frame (db : Db) (environ : gmap string string)
    (net : http_request -> post_outcome) (dish_name : string) :
  let db' := snd (fst (query_ai db environ net dish_name)) in
  profiles db' = profiles db /\ meal_plans db' = meal_plans db /\
  meal_checks db' = meal_checks db /\ ai_models db' = ai_models db /\
  (forall k, is_Some (ai_recipe_cache db !! k) ->
             is_Some (ai_recipe_cache db' !! k)) /\
  (forall k, (forall m, get_default_model db = Some m ->
                        k <> cache_key dish_name m) ->
             ai_recipe_cache db' !! k = ai_recipe_cache db !! k).
Proof.
  pose proof (query_ai_outcome db environ net dish_name) as H.
  destruct (query_ai db environ net dish_name) as [[h d] evs].
  cbv zeta. cbn [fst snd].
  inversion H as [Hm'|m' h' Hm' Hg' _|m' msg Hm' Ht'|m' req' f Hm' Ht' Hf
                 |m' req' r' c Hm' Ht' Hn' Hs' Hb']; subst;
    try (repeat split; auto; fail).
  simpl. repeat split.
  - intros k Hk. destruct (decide (cache_key dish_name m' = k)) as [<-|Hne].
    + rewrite lookup_insert_eq. eauto.
    + now rewrite lookup_insert_ne.
  - intros k Hk. rewrite lookup_insert_ne; [reflexivity|].
    intros Heq. now apply (Hk m' Hm').
Qed.


(** ** The request that is issued *)

Lemma post_and_cache_events (db : Db) (net : http_request -> post_outcome)
    (req : http_request) (dish_name model : string) (q : http_request) :
  In (EvHttpPost q) (fst (fst (post_and_cache db net req dish_name model))) ->
  q = req.
Proof.
  unfold post_and_cache.
  destruct (net req) as [|err|r]; simpl.
  - now intros [[= <-]|[]].
  - now intros [[= <-]|[]].
  - destruct (is_success r); [destruct (body r)|]; simpl;
      intros [[= <-]|H]; try reflexivity; try (now destruct H);
      destruct H as [[=]|[]].
Qed.

Lemma get_default_model_in (db : Db) (m : ai_model) :
  get_default_model db = Some m -> In m (ai_models db).
Proof.
  unfold get_default_model.
  destruct (find (fun m => is_default m =? 1) (ai_models db)) as [m'|] eqn:Hf.
  - intros [= <-]. now apply find_some in Hf.
  - destruct (ai_models db); [discriminate|]. intros [= <-]. now left.
Qed.

(** X5: the request that a lookup issues.  It goes to the endpoint of the
    resolved model's provider, names that model, and authenticates with a
    non-empty bearer credential: the key stored with the model when that is
    non-empty, otherwise the provider's environment variable.  The
    [X-Title] header is sent to OpenRouter only. *)
Theorem issued_request_credentials (db : Db) (environ : gmap string string)
    (net : http_request -> post_outcome) (dish_name : string)
    (m : ai_model) (req : http_request) :
  get_default_model db = Some m ->
  In (EvHttpPost req) (snd (query_ai db environ net dish_name)) ->
  let stored := or_empty (api_key m) in
  let key := if truthy stored then stored
             else environ_get environ (credential_variable m) "" in
  key <> "" /\
  provider_ok m /\
  req_url req = (if String.eqb (provider m) "groq" then GROQ_API_URL
                 else OPENROUTER_API_URL) /\
  req_model req = model_id m /\
  head (req_headers req) = Some ("Authorization", "Bearer " +:+ key) /\
  (In "X-Title" (map fst (req_headers req)) <-> provider m = "openrouter").
Proof.
  intros Hm. unfold query_ai. rewrite Hm. cbv zeta.
  destruct (truthy_opt (get_cached_recipe db dish_name (model_id m)));
    [intros []|].
  unfold credential_variable, provider_ok.
  destruct (String.eqb_spec (provider m) "groq") as [Hg|Hng].
  - destruct (truthy (if truthy (or_empty (api_key m)) then or_empty (api_key m)
                      else environ_get environ "GROQ_API_KEY" "")) eqn:Hk;
      simpl negb; cbv iota; [|intros []].
    match goal with
    | |- context [post_and_cache db net ?q _ _] => set (payload := q)
    end.
    pose proof (post_and_cache_events db net payload dish_name (model_id m) req) as Hev.
    destruct (post_and_cache db net payload dish_name (model_id m))
      as [[evs d] [[| |]|]]; simpl in *; intros Hin;
      rewrite (Hev Hin); unfold payload; simpl;
      (split; [now apply truthy_true|]);
      (split; [now left|]);
      rewrite Hg; simpl; repeat split; try tauto;
      try (intros [[=]|[[=]|[]]]); try discriminate.
  - destruct (String.eqb_spec (provider m) "openrouter") as [Ho|Hno];
      [|intros []].
    destruct (truthy (if truthy (or_empty (api_key m)) then or_empty (api_key m)
                      else environ_get environ "OPENROUTER_API_KEY" "")) eqn:Hk;
      simpl negb; cbv iota; [|intros []].
    match goal with
    | |- context [post_and_cache db net ?q _ _] => set (payload := q)
    end.
    pose proof (post_and_cache_events db net payload dish_name (model_id m) req) as Hev.
    destruct (post_and_cache db net payload dish_name (model_id m))
      as [[evs d] [[| |]|]]; simpl in *; intros Hin;
      rewrite (Hev Hin); unfold payload; simpl;
      (split; [now apply truthy_true|]);
      (split; [now right|]);
      rewrite Ho; simpl; repeat split; auto.
Qed.

Lemma issued_request_credentials_witness :
  req_url (groq_request "dal") = GROQ_API_URL /\
  head (req_headers (groq_request "dal"))
    = Some ("Authorization", "Bearer sk-test").
Proof.
  destruct (issued_request_credentials seeded_db ∅ answer_500 "dal" groq_model
              (groq_request "dal") eq_refl (or_introl eq_refl))
    as (_ & _ & Hurl & _ & Hauth & _).
  split; [exact Hurl | exact Hauth].
Defined.

(** X6: on a cache miss with a model of a known provider, exactly one
    request is issued when a credential is resolvable (the stored key, else
    the provider's environment variable), and none otherwise: without a
    credential the lookup returns the fragment that names the provider and
    leaves the store alone. *)
Theorem miss_calls_upstream_iff_credential (db : Db)
    (environ : gmap string string) (net : http_request -> post_outcome)
    (dish_name : string) (m : ai_model) :
  get_default_model db = Some m ->
  provider_ok m ->
  truthy_opt (get_cached_recipe db dish_name (model_id m)) = false ->
  let stored := or_empty (api_key m) in
  let key := if truthy stored then stored
             else environ_get environ (credential_variable m) "" in
  if truthy key then
    http_calls (snd (query_ai db environ net dish_name)) = 1%nat
  else
    query_ai db environ net dish_name =
    ("<p class='error'>API key not configured for " +:+ provider m
     +:+ ". Set the API key in admin settings or environment variable.</p>",
     db, []).
Proof.
  intros Hm Hp Hmiss. unfold query_ai. rewrite Hm. cbv zeta. rewrite Hmiss.
  unfold credential_variable.
  assert (Hcalls : forall payload,
            http_calls
              (snd (let '(evs, db', res) :=
                      post_and_cache db net payload dish_name (model_id m) in
                    match res with
                    | inr content => (content, db', evs)
                    | inl TimeoutException =>
                        ("<p class='error'>AI service timed out. Please try again.</p>",
                         db', evs)
                    | inl (HTTPStatusError status response_text) =>
                        ("<p class='error'>AI service error: " +:+ pretty status
                         +:+ " — " +:+ slice_to 200 response_text +:+ "</p>",
                         db', evs)
                    | inl (Exception e) =>
                        ("<p class='error'>Error querying AI: " +:+ e +:+ "</p>",
                         db', evs)
                    end)) = 1%nat).
  { intros payload. unfold post_and_cache.
    destruct (net payload) as [|err|r]; try reflexivity.
    destruct (is_success r); [destruct (body r)|]; reflexivity. }
  destruct Hp as [Hg|Ho].
  - rewrite Hg. simpl String.eqb. cbv iota.
    destruct (truthy (if truthy (or_empty (api_key m)) then or_empty (api_key m)
                      else environ_get environ "GROQ_API_KEY" "")) eqn:Hk;
      simpl negb; cbv iota; [|reflexivity].
    match goal with
    | |- context [post_and_cache db net ?q _ _] => specialize (Hcalls q)
    end.
    destruct (post_and_cache db net _ dish_name (model_id m))
      as [[evs d] [[| |]|]]; exact Hcalls.
  - rewrite Ho. simpl String.eqb. cbv iota.
    destruct (truthy (if truthy (or_empty (api_key m)) then or_empty (api_key m)
                      else environ_get environ "OPENROUTER_API_KEY" "")) eqn:Hk;
      simpl negb; cbv iota; [|reflexivity].
    match goal with
    | |- context [post_and_cache db net ?q _ _] => specialize (Hcalls q)
    end.
    destruct (post_and_cache db net _ dish_name (model_id m))
      as [[evs d] [[| |]|]]; exact Hcalls.
Qed.

Lemma miss_calls_upstream_iff_credential_witness :
  query_ai (with_ai_models seeded_db [openrouter_model]) ∅ answer_500 "dal" =
  ("<p class='error'>API key not configured for openrouter. Set the API key in admin settings or environment variable.</p>",
   with_ai_models seeded_db [openrouter_model], []).
Proof.
  exact (miss_calls_upstream_iff_credential
           (with_ai_models seeded_db [openrouter_model]) ∅ answer_500 "dal"
           openrouter_model eq_refl (or_intror eq_refl) eq_refl).
Defined.

(** ** Model administration *)

Lemma find_app_last {A : Type} (f : A -> bool) (l : list A) (x : A) :
  find f (l ++ [x]) =
  match find f l with
  | Some y => Some y
  | None => if f x then Some x else None
  end.
Proof.
  induction l as [|a l IH]; simpl; [reflexivity|].
  destruct (f a); [reflexivity | exact IH].
Qed.

Lemma foldr_max_ge (l : list Z) (x : Z) : In x l -> x <= foldr Z.max 0 l.
Proof.
  induction l as [|a l IH]; simpl; [intros []|].
  intros [<-|H]; [lia|]. specialize (IH H). lia.
Qed.

Lemma next_rowid_fresh (st : store) (table : string) (ids : list Z) (x : Z) :
  In x ids -> x < next_rowid st table ids.
Proof.
  intros H. unfold next_rowid. pose proof (foldr_max_ge ids x H). lia.
Qed.

(** X7: making a model the default.  For an id that fits in 64 bits the
    handler answers with the redirect; afterwards every row is flagged 0 or
    1 and only rows with the given id are flagged 1; the other columns of
    every row are kept.  When a row has the id, resolution returns a row
    with that id; when none has, every flag has been cleared and resolution
    falls back to the first row.  For an id beyond 64 bits the handler
    raises [OverflowError] and the store is as it was, no flag cleared. *)
Theorem set_default_model_single_flag (st : store) (req : request)
    (model_id_int : Z) :
  truthy_opt (get_admin_session req) = true ->
  let db := st_db st in
  let run := set_default_model st req model_id_int in
  let db' := st_db (fst run) in
  (int64 model_id_int = true ->
   snd run = Returned (RedirectTo "/admin#models") /\
   (forall m, In m (ai_models db') ->
      (is_default m = 1 /\ am_id m = model_id_int) \/
      (is_default m = 0 /\ am_id m <> model_id_int)) /\
   map (set_is_default 0) (ai_models db') = map (set_is_default 0) (ai_models db) /\
   ((exists m, In m (ai_models db) /\ am_id m = model_id_int) ->
    exists m, get_default_model db' = Some m /\ am_id m = model_id_int /\
              is_default m = 1) /\
   ((forall m, In m (ai_models db) -> am_id m <> model_id_int) ->
    get_default_model db' = option_map (set_is_default 0) (head (ai_models db)))) /\
  (int64 model_id_int = false -> run = (st, Raised "OverflowError")).
Proof.
  intros Hadm. cbv zeta. unfold set_default_model. rewrite Hadm.
  simpl negb. cbv iota.
  split; intros Hi; rewrite Hi; simpl negb; cbv iota; [|reflexivity].
  split; [reflexivity|]. simpl.
  set (flag := fun m : ai_model =>
                 if am_id m =? model_id_int then set_is_default 1 m else m).
  rewrite map_map.
  assert (Hrow : forall m,
            (is_default (flag (set_is_default 0 m)) = 1 /\
             am_id (flag (set_is_default 0 m)) = model_id_int /\
             am_id m = model_id_int) \/
            (flag (set_is_default 0 m) = set_is_default 0 m /\
             am_id m <> model_id_int)).
  { intros m. unfold flag. simpl.
    destruct (Z.eqb_spec (am_id m) model_id_int); [left | right]; auto. }
  split; [|split; [|split]].
  - intros m' Hin. apply in_map_iff in Hin as (m & <- & _).
    destruct (Hrow m) as [(H1 & H2 & _)|[-> H2]]; [left | right]; auto.
  - rewrite map_map. apply map_ext. intros m. unfold flag. simpl.
    destruct (am_id m =? model_id_int); reflexivity.
  - intros (m0 & Hin & Hid). unfold get_default_model. simpl.
    destruct (find (fun m => is_default m =? 1)
                (map (fun x => flag (set_is_default 0 x)) (ai_models (st_db st))))
      as [m|] eqn:Hf.
    + apply find_some in Hf as [Hin' Hd%Z.eqb_eq].
      apply in_map_iff in Hin' as (m1 & <- & _).
      destruct (Hrow m1) as [(H1 & H2 & _)|[Heq H2]]; [eauto|].
      rewrite Heq in Hd. discriminate.
    + exfalso.
      assert (Hin' : In (flag (set_is_default 0 m0))
                       (map (fun x => flag (set_is_default 0 x)) (ai_models (st_db st))))
        by (apply in_map_iff; eauto).
      pose proof (find_none _ _ Hf _ Hin') as Hn. simpl in Hn.
      destruct (Hrow m0) as [(H1 & _)|[_ H2]]; [|contradiction].
      rewrite H1 in Hn. discriminate.
  - intros Hnone. unfold get_default_model. simpl.
    assert (Hmap : map (fun x => flag (set_is_default 0 x)) (ai_models (st_db st)) =
                   map (set_is_default 0) (ai_models (st_db st))).
    { apply map_ext_in. intros m Hin.
      destruct (Hrow m) as [(_ & _ & H)|[H _]]; [|exact H].
      now destruct (Hnone m Hin). }
    rewrite Hmap.
    assert (Hfind : find (fun m => is_default m =? 1)
                      (map (set_is_default 0) (ai_models (st_db st))) = None).
    { clear. induction (ai_models (st_db st)) as [|a l IH]; simpl;
        [reflexivity | exact IH]. }
    rewrite Hfind. now destruct (ai_models (st_db st)).
Qed.


Lemma set_default_model_single_flag_witness :
  exists m,
    get_default_model (st_db (fst (set_default_model seeded_store admin_request 2)))
      = Some m /\ am_id m = 2 /\ is_default m = 1.
Proof.
  apply (proj1 (set_default_model_single_flag seeded_store admin_request 2 eq_refl)
           eq_refl).
  exists openrouter_model. split; [right; left; reflexivity | reflexivity].
Defined.

(** An id beyond 64 bits: nothing is cleared. *)
Example set_default_model_overflow :
  set_default_model seeded_store admin_request (2 ^ 63)
  = (seeded_store, Raised "OverflowError").
Proof. reflexivity. Qed.

Lemma head_app_last {A : Type} (l : list A) (x : A) :
  head (l ++ [x]) = match head l with Some y => Some y | None => Some x end.
Proof. destruct l; reflexivity. Qed.

(** X8: adding a model.  A provider other than the two known ones is
    rejected by the store and nothing changes.  Otherwise one row is
    appended, with the trimmed model identifier, display name and key, not
    flagged default and with an id above every existing one; the model that
    lookups resolve stays the same when one was resolved before, and is the
    new row when the table was empty. *)
Theorem add_model_resolution (st : store) (req : request)
    (prov mid dname key : string) :
  truthy_opt (get_admin_session req) = true ->
  let db := st_db st in
  let st' := fst (add_model st req prov mid dname key) in
  let res := snd (add_model st req prov mid dname key) in
  (prov <> "groq" -> prov <> "openrouter" ->
   st' = st /\ res = Raised "IntegrityError") /\
  (prov = "groq" \/ prov = "openrouter" ->
   res = Returned (RedirectTo "/admin#models") /\
   exists row,
     ai_models (st_db st') = (ai_models db ++ [row])%list /\
     provider row = prov /\ model_id row = strip mid /\
     display_name row = strip dname /\ api_key row = Some (strip key) /\
     is_default row = 0 /\
     (forall m, In m (ai_models db) -> am_id m < am_id row) /\
     get_default_model (st_db st') =
       match get_default_model db with
       | Some m => Some m
       | None => Some row
       end).
Proof.
  intros Hadm. cbv zeta. unfold add_model. rewrite Hadm. simpl negb. cbv iota.
  split.
  - intros Hg Ho.
    apply String.eqb_neq in Hg, Ho. rewrite Hg, Ho. simpl. auto.
  - intros Hp.
    assert (Hv : String.eqb prov "groq" || String.eqb prov "openrouter" = true).
    { destruct Hp as [->| ->]; reflexivity. }
    rewrite Hv. simpl. split; [reflexivity|].
    eexists. split; [reflexivity|]. simpl.
    repeat split.
    + intros m Hin. apply next_rowid_fresh. now apply in_map.
    + unfold get_default_model. simpl.
      rewrite find_app_last, head_app_last. simpl.
      destruct (find (fun m => is_default m =? 1) (ai_models (st_db st)));
        [reflexivity|].
      now destruct (ai_models (st_db st)).
Qed.

Lemma add_model_resolution_witness :
  get_default_model
    (st_db (fst (add_model seeded_store admin_request "groq" " llama-3 "
                   "Llama" "")))
  = Some groq_model.
Proof.
  destruct (add_model_resolution seeded_store admin_request "groq" " llama-3 "
              "Llama" "" eq_refl) as [_ H].
  destruct (H (or_introl eq_refl)) as (_ & row & _ & _ & _ & _ & _ & _ & _ & Hd).
  exact Hd.
Defined.

Lemma find_filter_keep {A : Type} (f g : A -> bool) (l : list A) (x : A) :
  find f l = Some x -> g x = true ->
  find f (filter (fun a => g a) l) = Some x.
Proof.
  induction l as [|a l IH]; simpl; [discriminate|].
  intros Hf Hg. rewrite filter_cons.
  destruct (f a) eqn:Hfa.
  - injection Hf as ->. destruct (decide (g x)) as [_|Hn].
    + simpl. now rewrite Hfa.
    + rewrite Hg in Hn. now destruct Hn.
  - destruct (decide (g a)); simpl; [rewrite Hfa|]; auto.
Qed.

Lemma find_filter_none {A : Type} (f g : A -> bool) (l : list A) :
  find f l = None -> find f (filter (fun a => g a) l) = None.
Proof.
  induction l as [|a l IH]; simpl; [reflexivity|].
  rewrite filter_cons. destruct (f a) eqn:Hfa; [discriminate|].
  intros H. destruct (decide (g a)); simpl; [rewrite Hfa|]; auto.
Qed.

Lemma in_filter_bool {A : Type} (g : A -> bool) (l : list A) (x : A) :
  In x (filter (fun a => g a) l) <-> In x l /\ g x = true.
Proof.
  rewrite <- !list_elem_of_In, list_elem_of_filter, Is_true_true. tauto.
Qed.

(** X9: deleting a model.  Exactly the rows with the given id go, and the
    recipe cache is left as it is, entries of the deleted model included.
    A resolved model with another id stays the resolved model, and the
    deleted id is never resolved afterwards. *)
Theorem delete_model_resolution (st : store) (req : request) (model_id_int : Z) :
  truthy_opt (get_admin_session req) = true ->
  let db := st_db st in
  let db' := st_db (fst (delete_model st req model_id_int)) in
  (forall m, In m (ai_models db') <->
             In m (ai_models db) /\ am_id m <> model_id_int) /\
  ai_recipe_cache db' = ai_recipe_cache db /\
  (forall m, get_default_model db = Some m -> am_id m <> model_id_int ->
             get_default_model db' = Some m) /\
  (forall m, get_default_model db' = Some m -> am_id m <> model_id_int).
Proof.
  intros Hadm. cbv zeta. unfold delete_model. rewrite Hadm. simpl.
  assert (Hin : forall m,
            In m (filter (fun m => negb (am_id m =? model_id_int))
                    (ai_models (st_db st))) <->
            In m (ai_models (st_db st)) /\ am_id m <> model_id_int).
  { intros m. rewrite in_filter_bool, negb_true_iff, Z.eqb_neq. tauto. }
  split; [exact Hin|]. split; [reflexivity|]. split.
  - intros m Hm Hid. unfold get_default_model in *. simpl.
    assert (Hg : negb (am_id m =? model_id_int) = true)
      by now apply negb_true_iff, Z.eqb_neq.
    destruct (find (fun m => is_default m =? 1) (ai_models (st_db st)))
      as [m'|] eqn:Hf.
    + injection Hm as ->.
      now rewrite (find_filter_keep _ (fun m => negb (am_id m =? model_id_int))
                     _ _ Hf Hg).
    + rewrite (find_filter_none _ (fun m => negb (am_id m =? model_id_int)) _ Hf).
      destruct (ai_models (st_db st)) as [|a l]; [discriminate|].
      injection Hm as ->. rewrite filter_cons.
      destruct (decide (negb (am_id m =? model_id_int))) as [_|Hn];
        [reflexivity|].
      rewrite Hg in Hn. now destruct Hn.
  - intros m Hm. apply get_default_model_in in Hm. simpl in Hm.
    now apply Hin in Hm.
Qed.

Lemma delete_model_resolution_witness :
  get_default_model (st_db (fst (delete_model seeded_store admin_request 2)))
  = Some groq_model.
Proof.
  destruct (delete_model_resolution seeded_store admin_request 2 eq_refl)
    as (_ & _ & H & _).
  apply H; [reflexivity | discriminate].
Defined.


(** ** Meal administration *)

Lemma filter_filter_comm {A : Type} (f g : A -> bool) (l : list A) :
  filter (fun a => f a) (filter (fun a => g a) l) =
  filter (fun a => g a) (filter (fun a => f a) l).
Proof.
  induction l as [|a l IH]; [reflexivity|].
  rewrite !filter_cons.
  destruct (decide (g a)) as [Hg|Hg], (decide (f a)) as [Hf|Hf];
    rewrite ?filter_cons;
    repeat match goal with
           | |- context [decide ?P] => destruct (decide P); try contradiction
           end;
    now rewrite ?IH.
Qed.

(** X11: deleting a meal.  Exactly the rows of [meal_plans] with the given
    id and the checks recorded for that id go; if every check belonged to a
    stored meal before, the same holds afterwards.  Each profile's rows for
    each day are the former ones without the deleted meal, and profiles,
    models and recipe cache are untouched. *)
Theorem delete_meal_removes (st : store) (req : request) (meal_id : Z) :
  truthy_opt (get_admin_session req) = true ->
  let db := st_db st in
  let db' := st_db (fst (delete_meal st req meal_id)) in
  (forall m, In m (meal_plans db') <-> In m (meal_plans db) /\ id m <> meal_id) /\
  (forall c, In c (meal_checks db') <->
             In c (meal_checks db) /\ mc_meal_plan_id c <> meal_id) /\
  (checks_refer_to_meals db -> checks_refer_to_meals db') /\
  (forall pid d,
     rows_on db' pid d =
     filter (fun m => negb (id m =? meal_id)) (rows_on db pid d)) /\
  profiles db' = profiles db /\ ai_models db' = ai_models db /\
  ai_recipe_cache db' = ai_recipe_cache db.
Proof.
  intros Hadm. cbv zeta. unfold delete_meal. rewrite Hadm. simpl.
  assert (Hm : forall m,
            In m (filter (fun m => negb (id m =? meal_id)) (meal_plans (st_db st)))
            <-> In m (meal_plans (st_db st)) /\ id m <> meal_id).
  { intros m. rewrite in_filter_bool, negb_true_iff, Z.eqb_neq. tauto. }
  assert (Hc : forall c,
            In c (filter (fun c => negb (mc_meal_plan_id c =? meal_id))
                    (meal_checks (st_db st)))
            <-> In c (meal_checks (st_db st)) /\ mc_meal_plan_id c <> meal_id).
  { intros c. rewrite in_filter_bool, negb_true_iff, Z.eqb_neq. tauto. }
  split; [exact Hm|]. split; [exact Hc|]. split; [|split; [|auto]].
  - intros Hfk c Hin. simpl in *. apply Hc in Hin as [Hin Hne].
    destruct (Hfk c Hin) as (m & Hmin & Hid).
    exists m. split; [|exact Hid]. apply Hm. split; [exact Hmin|]. congruence.
  - intros pid d. unfold rows_on. simpl.
    apply (filter_filter_comm
             (fun m => (plan_date m =? d) && visible_to pid m)
             (fun m => negb (id m =? meal_id))).
Qed.

Lemma delete_meal_removes_witness :
  map id (meal_plans (st_db (fst (delete_meal template_store admin_request 2))))
  = [1; 3] /\
  forall c, In c (meal_checks (st_db (fst (delete_meal template_store admin_request 2))))
            -> mc_meal_plan_id c <> 2.
Proof.
  split; [reflexivity|]. intros c Hin.
  apply (proj1 (proj2 (delete_meal_removes template_store admin_request 2 eq_refl)))
    in Hin.
  exact (proj2 Hin).
Defined.

Lemma existsb_eqb_In (s : string) (l : list string) :
  existsb (String.eqb s) l = true <-> In s l.
Proof.
  rewrite existsb_exists. split.
  - intros (x & Hin & ->%String.eqb_eq). exact Hin.
  - intros Hin. exists s. split; [exact Hin | apply String.eqb_refl].
Qed.

Lemma with_meal_plans_same (db : Db) : with_meal_plans db (meal_plans db) = db.
Proof. now destruct db. Qed.

(** The posted integers are bound when each fits in 64 bits; a profile id
    that is not positive is posted as [None]. *)
Lemma posted_integers_bound (calories profile_id meal_id : Z) :
  int64 calories = true -> int64 meal_id = true ->
  (0 < profile_id -> int64 profile_id = true) ->
  int64 calories
  && int64_opt (if 0 <? profile_id then Some profile_id else None)
  && int64 meal_id = true.
Proof.
  intros -> -> Hp. destruct (Z.ltb_spec 0 profile_id); simpl; [|reflexivity].
  now rewrite Hp.
Qed.

Lemma posted_integers_overflow (calories profile_id meal_id : Z) :
  int64 calories = false \/ int64 meal_id = false \/
  (0 < profile_id /\ int64 profile_id = false) ->
  int64 calories
  && int64_opt (if 0 <? profile_id then Some profile_id else None)
  && int64 meal_id = false.
Proof.
  intros [->|[->|[Hpos Hp]]].
  - reflexivity.
  - apply andb_false_r.
  - apply Z.ltb_lt in Hpos. rewrite Hpos. simpl. rewrite Hp.
    now rewrite andb_false_r.
Qed.

(** X12: constraints on an edit.  When a posted integer (the calories, a
    positive profile id, the meal id) does not fit in 64 bits, the edit
    raises [OverflowError] and changes nothing.  Otherwise an edit of an id
    that no row has answers with the empty response and changes nothing,
    and an edit of a stored row is rejected by the store, which stays as it
    was, when the posted slot is none of the six or the posted profile is no
    stored profile. *)
Theorem edit_meal_constraints (db : Db) (admin_session : option string)
    (meal_id new_date : Z) (new_type new_name : string) (new_calories : Z)
    (new_protein new_carbs new_fat : float) (new_profile : Z) :
  truthy_opt admin_session = true ->
  let run := edit_meal db admin_session meal_id new_date new_type new_name
               new_calories new_protein new_carbs new_fat new_profile in
  (int64 new_calories = false \/ int64 meal_id = false \/
   (0 < new_profile /\ int64 new_profile = false) ->
   run = (db, Raised "OverflowError")) /\
  (int64 new_calories = true -> int64 meal_id = true ->
   (0 < new_profile -> int64 new_profile = true) ->
   ((forall m, In m (meal_plans db) -> id m <> meal_id) ->
    run = (db, Returned EmptyResponse)) /\
   ((exists m, In m (meal_plans db) /\ id m = meal_id) ->
    ~ In new_type MEAL_TYPE_ORDER \/
    (0 < new_profile /\ get_profile db new_profile = None) ->
    run = (db, Raised "IntegrityError"))).
Proof.
  intros Hadm. cbv zeta. unfold edit_meal. rewrite Hadm. simpl negb. cbv iota.
  split.
  { intros Hover. now rewrite (posted_integers_overflow _ _ _ Hover). }
  intros Hcal Hmid Hprof.
  rewrite (posted_integers_bound _ _ _ Hcal Hmid Hprof). simpl negb. cbv iota.
  set (upd := update_row meal_id new_date new_type (strip new_name) new_calories
                new_protein new_carbs new_fat
                (if 0 <? new_profile then Some new_profile else None)).
  split.
  - intros Hnone.
    assert (Hmap : map upd (meal_plans db) = meal_plans db).
    { rewrite <- (map_id (meal_plans db)) at 2. apply map_ext_in.
      intros m Hin. unfold upd, update_row.
      destruct (Z.eqb_spec (id m) meal_id); [now destruct (Hnone m Hin)|].
      reflexivity. }
    rewrite Hmap, with_meal_plans_same.
    assert (Hall : forallb (fun m => negb (id m =? meal_id) || row_accepted db m)
                     (meal_plans db) = true).
    { apply forallb_forall. intros m Hin.
      destruct (Z.eqb_spec (id m) meal_id); [now destruct (Hnone m Hin)|].
      reflexivity. }
    rewrite Hall.
    destruct (find (fun m => id m =? meal_id) (meal_plans db)) as [m|] eqn:Hf;
      [|reflexivity].
    apply find_some in Hf as [Hin Hid%Z.eqb_eq]. now destruct (Hnone m Hin).
  - intros (m & Hin & Hid) Hbad.
    assert (Hall : forallb (fun m => negb (id m =? meal_id) || row_accepted db m)
                     (map upd (meal_plans db)) = false).
    { apply not_true_is_false. intros Hall.
      rewrite forallb_forall in Hall.
      specialize (Hall (upd m) (in_map upd _ _ Hin)).
      unfold upd, update_row in Hall. rewrite <- Hid, Z.eqb_refl in Hall.
      cbn [id] in Hall. rewrite Z.eqb_refl in Hall.
      cbn [negb orb] in Hall. unfold row_accepted in Hall.
      cbn [meal_type profile_id] in Hall.
      apply andb_prop in Hall as [Ht Hp].
      destruct Hbad as [Hbad|[Hpos Hnp]].
      - apply Hbad. now apply existsb_eqb_In.
      - apply Z.ltb_lt in Hpos. rewrite Hpos in Hp.
        apply existsb_exists in Hp as (q & Hq & Hqid).
        unfold get_profile in Hnp.
        pose proof (find_none _ _ Hnp q Hq) as Hn. simpl in Hn. congruence. }
    now rewrite Hall.
Qed.

Lemma edit_meal_constraints_witness :
  edit_meal template_db (Some "authenticated") 2 739670 "brunch" "Dosa" 300
    0%float 0%float 0%float 0
  = (template_db, Raised "IntegrityError").
Proof.
  refine (proj2 (proj2 (edit_meal_constraints template_db (Some "authenticated")
                          2 739670 "brunch" "Dosa" 300 0%float 0%float 0%float 0
                          eq_refl) eq_refl eq_refl _) _ _).
  - intros H. discriminate H.
  - eexists. split; [right; left; reflexivity | reflexivity].
  - left. intros H. repeat (destruct H as [H|H]; [discriminate H|]). destruct H.
Defined.

(** Calories beyond 64 bits: the bind raises before any row is matched. *)
Example edit_meal_overflow :
  edit_meal template_db (Some "authenticated") 2 739670 "lunch" "Dosa" (2 ^ 63)
    0%float 0%float 0%float 0
  = (template_db, Raised "OverflowError").
Proof. reflexivity. Qed.

Lemma insert_meal_accepted (st : store) (now : string) (d : Z)
    (mt dish descr : string) (cal : Z) (protein carbs fat fiber : float)
    (pid : option Z) :
  existsb (String.eqb mt) MEAL_TYPE_ORDER = true ->
  match pid with
  | None => True
  | Some p => existsb (fun q => pr_id q =? p) (profiles (st_db st)) = true
  end ->
  exists row st',
    insert_meal st now d mt dish descr cal protein carbs fat fiber pid
      = Returned (id row, st') /\
    row = {| id := next_rowid st "meal_plans" (map id (meal_plans (st_db st)));
             plan_date := d; meal_type := mt; dish_name := dish;
             description := descr; calories := cal; protein_g := protein;
             carbs_g := carbs; fat_g := fat; fiber_g := fiber;
             profile_id := pid; created_at := now |} /\
    meal_plans (st_db st') = (meal_plans (st_db st) ++ [row])%list /\
    profiles (st_db st') = profiles (st_db st) /\
    meal_checks (st_db st') = meal_checks (st_db st) /\
    ai_models (st_db st') = ai_models (st_db st) /\
    ai_recipe_cache (st_db st') = ai_recipe_cache (st_db st) /\
    (forall m, In m (meal_plans (st_db st)) -> id m < id row).
Proof.
  intros Hmt Hpid. unfold insert_meal, row_accepted. cbn [meal_type profile_id].
  rewrite Hmt.
  assert (Hp : match pid with
               | Some p => existsb (fun q => pr_id q =? p) (profiles (st_db st))
               | None => true
               end = true) by (destruct pid; auto).
  rewrite Hp. simpl andb. cbv iota.
  exists {| id := next_rowid st "meal_plans" (map id (meal_plans (st_db st)));
            plan_date := d; meal_type := mt; dish_name := dish;
            description := descr; calories := cal; protein_g := protein;
            carbs_g := carbs; fat_g := fat; fiber_g := fiber;
            profile_id := pid; created_at := now |}.
  eexists. split; [reflexivity|]. split; [reflexivity|].
  simpl. repeat split.
  intros m Hin. apply next_rowid_fresh. now apply in_map.
Qed.

Lemma rows_on_app_last (db db' : Db) (row : meal) (pid d : Z) :
  meal_plans db' = (meal_plans db ++ [row])%list ->
  rows_on db' pid d =
  (rows_on db pid d ++
   (if (plan_date row =? d) && visible_to pid row then [row] else []))%list.
Proof.
  intros H. unfold rows_on. rewrite H, filter_app. f_equal.
  rewrite filter_cons, filter_nil.
  destruct ((plan_date row =? d) && visible_to pid row);
    destruct (decide _) as [Hd|Hd]; simpl in Hd; try reflexivity;
    contradiction || (exfalso; apply Hd; exact I).
Qed.

Lemma copy_meal_appends_aux (st : store) (now : string) (req : request)
    (meal_id target_date : Z) (m : meal) :
  truthy_opt (get_admin_session req) = true ->
  find (fun x => id x =? meal_id) (meal_plans (st_db st)) = Some m ->
  row_accepted (st_db st) m = true ->
  let db := st_db st in
  let db' := st_db (fst (copy_meal st now req meal_id target_date)) in
  exists copy,
    meal_plans db' = (meal_plans db ++ [copy])%list /\
    calories copy = calories m /\
    (forall x, In x (meal_plans db) -> id x < id copy) /\
    meal_checks db' = meal_checks db /\ profiles db' = profiles db /\
    forall pid,
      rows_on db' pid target_date =
      (rows_on db pid target_date ++ (if visible_to pid m then [copy] else []))%list.
Proof.
  intros Hadm Hfind Hacc. cbv zeta. unfold copy_meal.
  rewrite Hadm, Hfind. simpl negb. cbv iota.
  unfold row_accepted in Hacc. apply andb_prop in Hacc as [Hmt Hp].
  destruct (insert_meal_accepted st now target_date (meal_type m) (dish_name m)
              (description m) (calories m) (protein_g m) (carbs_g m) (fat_g m)
              (fiber_g m) (profile_id m) Hmt)
    as (row & st' & Hins & Hrow & Hmeals & Hprof & Hchk & _ & _ & Hfresh).
  { destruct (profile_id m); [exact Hp | exact I]. }
  rewrite Hins. simpl.
  exists row. split; [exact Hmeals|]. split; [now rewrite Hrow|].
  split; [exact Hfresh|]. split; [exact Hchk|]. split; [exact Hprof|].
  intros pid. rewrite (rows_on_app_last _ _ row pid target_date Hmeals).
  f_equal. rewrite Hrow. cbn [plan_date]. rewrite Z.eqb_refl.
  unfold visible_to. cbn [profile_id]. reflexivity.
Qed.

(** X13: copying a meal.  For a stored meal that satisfies the table's
    constraints, the copy is one appended row on the target date with a new
    id above every existing one; it takes over slot, dish name, description,
    calories, the four macros and the profile scope.  No check is copied,
    and each profile's rows of the target date are the former ones followed
    by the copy, if the profile sees the meal. *)
Theorem copy_meal_appends (st : store) (now : string) (req : request)
    (meal_id target_date : Z) (m : meal) :
  truthy_opt (get_admin_session req) = true ->
  find (fun x => id x =? meal_id) (meal_plans (st_db st)) = Some m ->
  row_accepted (st_db st) m = true ->
  let db := st_db st in
  let db' := st_db (fst (copy_meal st now req meal_id target_date)) in
  snd (copy_meal st now req meal_id target_date)
    = Returned (Copied (dish_name m) target_date) /\
  exists copy,
    meal_plans db' = (meal_plans db ++ [copy])%list /\
    plan_date copy = target_date /\ created_at copy = now /\
    same_dish_data copy m /\
    (forall x, In x (meal_plans db) -> id x < id copy) /\
    meal_checks db' = meal_checks db /\ profiles db' = profiles db /\
    forall pid,
      rows_on db' pid target_date =
      (rows_on db pid target_date ++ (if visible_to pid m then [copy] else []))%list.
Proof.
  intros Hadm Hfind Hacc. cbv zeta. unfold copy_meal.
  rewrite Hadm, Hfind. simpl negb. cbv iota.
  unfold row_accepted in Hacc. apply andb_prop in Hacc as [Hmt Hp].
  destruct (insert_meal_accepted st now target_date (meal_type m) (dish_name m)
              (description m) (calories m) (protein_g m) (carbs_g m) (fat_g m)
              (fiber_g m) (profile_id m) Hmt)
    as (row & st' & Hins & Hrow & Hmeals & Hprof & Hchk & _ & _ & Hfresh).
  { destruct (profile_id m); [exact Hp | exact I]. }
  rewrite Hins. simpl. split; [reflexivity|].
  exists row. split; [exact Hmeals|].
  split; [now rewrite Hrow|]. split; [now rewrite Hrow|].
  split; [rewrite Hrow; repeat split|].
  split; [exact Hfresh|]. split; [exact Hchk|]. split; [exact Hprof|].
  intros pid. rewrite (rows_on_app_last _ _ row pid target_date Hmeals).
  f_equal. rewrite Hrow. cbn [plan_date]. rewrite Z.eqb_refl.
  unfold visible_to. cbn [profile_id]. reflexivity.
Qed.

Lemma copy_meal_appends_witness :
  map (fun x => (id x, plan_date x, dish_name x, calories x))
    (meal_plans (st_db (fst (copy_meal template_store "2026-02-23 09:00:00"
                               admin_request 2 739670))))
  = [(1, 739669, "Oatmeal with Berries", 350);
     (2, 739669, "Grilled Chicken Salad", 420);
     (3, 739669, "Salmon with Vegetables", 480);
     (4, 739670, "Grilled Chicken Salad", 420)] /\
  snd (copy_meal template_store "2026-02-23 09:00:00" admin_request 2 739670)
  = Returned (Copied "Grilled Chicken Salad" 739670).
Proof.
  split; [reflexivity|].
  exact (proj1 (copy_meal_appends template_store "2026-02-23 09:00:00"
                  admin_request 2 739670
                  (mk_meal 2 739669 "lunch" "Grilled Chicken Salad" 420 None)
                  eq_refl eq_refl eq_refl)).
Defined.

Lemma dashboard_totals_on (db : Db) (today pid d : Z) (p : profile) :
  get_profile db pid = Some p ->
  exists ctx,
    dashboard db today (Some pid) (ViewDate d) = Returned (Page ctx) /\
    selected_date ctx = d /\
    total_calories ctx = sum_Z (map calories (rows_on db pid d)) /\
    checked_calories ctx =
      sum_Z (map calories
               (filter (fun m => marked_prepared db pid (id m)) (rows_on db pid d))).
Proof.
  intros Hp.
  destruct (dashboard_page db today pid p (ViewDate d) Hp)
    as (slots0 & sd & _ & -> & Hd).
  eexists. split; [exact Hd|]. cbn [total_calories checked_calories selected_date].
  pose proof (meals_on_rows db pid d) as Hperm.
  split; [reflexivity|]. split.
  - rewrite py_sum_sum_Z. apply sum_Z_perm, Permutation_map, Hperm.
  - rewrite py_sum_sum_Z, checked_filter.
    apply sum_Z_perm, Permutation_map. now apply filter_Permutation.
Qed.

Lemma sum_Z_app (l1 l2 : list Z) : sum_Z (l1 ++ l2) = sum_Z l1 + sum_Z l2.
Proof. induction l1 as [|a l1 IH]; simpl; lia. Qed.

Lemma marked_prepared_unreferenced (db : Db) (pid i : Z) :
  (forall c, In c (meal_checks db) -> mc_meal_plan_id c <> i) ->
  marked_prepared db pid i = false.
Proof.
  intros H. unfold marked_prepared. apply not_true_is_false.
  intros (c & Hin & Hc)%existsb_exists.
  apply andb_prop in Hc as [[_ Hc%Z.eqb_eq]%andb_prop _].
  now apply (H c Hin).
Qed.

(** The page that the [dashboard] handler returns is the view built from
    the store, for the profile of the cookie, which is a stored profile. *)
Lemma views_dashboard_page (st st' : store) (today : Z) (req : request)
    (vd : view_date_arg) (ctx : Views.dashboard_context) :
  Views.dashboard st today req vd = (st', Returned (Page ctx)) ->
  exists pid p,
    cookie_profile_id req = Some pid /\
    get_profile (st_db st) pid = Some p /\
    dashboard (st_db st) today (Some pid) vd = Returned (Page (Views.dc_view ctx)).
Proof.
  unfold Views.dashboard.
  destruct (cookie_profile_id req) as [pid|]; [|discriminate].
  destruct (negb (int64 pid)); [discriminate|].
  destruct (dashboard (st_db st) today (Some pid) vd) as [e|[url|view]] eqn:Hd;
    try discriminate.
  repeat match goal with
  | |- context [match ?x with Raised _ => _ | Returned _ => _ end] =>
      destruct x; [discriminate|]
  end.
  intros [= _ <-]. exists pid.
  pose proof Hd as Hd0. unfold dashboard in Hd0.
  destruct (get_profile (st_db st) pid) as [p|] eqn:Hp; [|discriminate].
  exists p. cbn [Views.dc_view]. auto.
Qed.

(** The totals of a returned page of a requested date. *)
Lemma views_dashboard_totals (st st' : store) (today d pid : Z) (req : request)
    (ctx : Views.dashboard_context) :
  cookie_profile_id req = Some pid ->
  Views.dashboard st today req (ViewDate d) = (st', Returned (Page ctx)) ->
  (exists p, get_profile (st_db st) pid = Some p) /\
  total_calories (Views.dc_view ctx)
    = sum_Z (map calories (rows_on (st_db st) pid d)) /\
  checked_calories (Views.dc_view ctx)
    = sum_Z (map calories
               (filter (fun m => marked_prepared (st_db st) pid (id m))
                  (rows_on (st_db st) pid d))).
Proof.
  intros Hc Hv.
  destruct (views_dashboard_page _ _ _ _ _ _ Hv) as (pid' & p & Hc' & Hp & Hd).
  rewrite Hc in Hc'. injection Hc' as <-.
  destruct (dashboard_totals_on (st_db st) today pid d p Hp)
    as (view & Hd' & _ & Ht & Hck).
  rewrite Hd in Hd'. injection Hd' as <-. eauto.
Qed.

(** X14: a copy shows up in the day view.  After a meal is copied to a
    date, the page that the day view of that date returns for a profile has
    its total calories raised by the meal's calories when the profile sees
    the meal, and unchanged otherwise; the prepared total is unchanged,
    because the copy starts without a check (given that checks belong to
    stored meals). *)
Theorem copy_meal_day_view (st : store) (now : string) (req : request)
    (meal_id target_date : Z) (m : meal) (today pid : Z) (viewer : request)
    (st1 st2 : store) (ctx ctx' : Views.dashboard_context) :
  truthy_opt (get_admin_session req) = true ->
  find (fun x => id x =? meal_id) (meal_plans (st_db st)) = Some m ->
  row_accepted (st_db st) m = true ->
  checks_refer_to_meals (st_db st) ->
  cookie_profile_id viewer = Some pid ->
  Views.dashboard st today viewer (ViewDate target_date)
    = (st1, Returned (Page ctx)) ->
  Views.dashboard (fst (copy_meal st now req meal_id target_date)) today viewer
    (ViewDate target_date) = (st2, Returned (Page ctx')) ->
  total_calories (Views.dc_view ctx') =
    total_calories (Views.dc_view ctx)
    + (if visible_to pid m then calories m else 0) /\
  checked_calories (Views.dc_view ctx') = checked_calories (Views.dc_view ctx).
Proof.
  intros Hadm Hfind Hacc Hfk Hck Hv Hv'.
  destruct (copy_meal_appends_aux st now req meal_id target_date m Hadm Hfind Hacc)
    as (copy & Hmeals & Hcal & Hfresh & Hchk & Hprof & Hrows).
  set (db' := st_db (fst (copy_meal st now req meal_id target_date))) in *.
  destruct (views_dashboard_totals _ _ _ _ _ _ _ Hck Hv) as (_ & Ht & Hc).
  destruct (views_dashboard_totals _ _ _ _ _ _ _ Hck Hv') as (_ & Ht' & Hc').
  fold db' in Ht', Hc'.
  assert (Hmark : forall i, marked_prepared db' pid i
                            = marked_prepared (st_db st) pid i).
  { intros i. unfold marked_prepared. now rewrite Hchk. }
  assert (Hnew : marked_prepared (st_db st) pid (id copy) = false).
  { apply marked_prepared_unreferenced. intros c Hin Heq.
    destruct (Hfk c Hin) as (x & Hx & Hid).
    specialize (Hfresh x Hx). lia. }
  rewrite Ht', Hc', Ht, Hc, (Hrows pid). split.
  - rewrite map_app, sum_Z_app. f_equal.
    destruct (visible_to pid m); simpl; [rewrite Hcal; lia | reflexivity].
  - rewrite filter_app, map_app, sum_Z_app.
    rewrite (list_filter_iff _ (fun x => marked_prepared (st_db st) pid (id x)))
      by (intros x; now rewrite Hmark).
    destruct (visible_to pid m); simpl; [|lia].
    rewrite filter_cons, filter_nil.
    destruct (decide _) as [Hd0|_]; [|simpl; lia].
    rewrite Hmark, Hnew in Hd0. destruct Hd0.
Qed.

Lemma template_checks_refer : checks_refer_to_meals template_db.
Proof.
  intros c [<-|[]].
  exists (mk_meal 2 739669 "lunch" "Grilled Chicken Salad" 420 None).
  split; [right; left; reflexivity | reflexivity].
Defined.

Lemma copy_meal_day_view_witness :
  exists st1 st2 ctx ctx',
    Views.dashboard template_store 739924 profile1_request (ViewDate 739670)
      = (st1, Returned (Page ctx)) /\
    Views.dashboard
      (fst (copy_meal template_store "2026-02-23 09:00:00" admin_request 2 739670))
      739924 profile1_request (ViewDate 739670) = (st2, Returned (Page ctx')) /\
    total_calories (Views.dc_view ctx') = total_calories (Views.dc_view ctx) + 420.
Proof.
  eexists _, _, _, _. split; [reflexivity|]. split; [reflexivity|].
  exact (proj1 (copy_meal_day_view template_store "2026-02-23 09:00:00"
                  admin_request 2 739670
                  (mk_meal 2 739669 "lunch" "Grilled Chicken Salad" 420 None)
                  739924 1 profile1_request _ _ _ _
                  eq_refl eq_refl eq_refl template_checks_refer eq_refl
                  eq_refl eq_refl)).
Defined.

(** X15: adding a meal by hand.  When the posted calories or a positive
    posted profile id do not fit in 64 bits, the handler raises
    [OverflowError] and nothing changes.  Otherwise: with a slot outside the
    six, or a positive profile id that no profile has, the store rejects the
    row and nothing changes; else one row is appended with the trimmed dish
    name and description and an id above every existing one; posted with
    profile id 0 (or any non-positive id) the meal is shared and every
    profile sees it, posted with a profile's id only that profile does. *)
Theorem add_meal_manual_scope (st : store) (now : string) (req : request)
    (d : Z) (mt dish descr : string) (cal : Z)
    (protein carbs fat fiber : float) (profile : Z) :
  truthy_opt (get_admin_session req) = true ->
  let db := st_db st in
  let run := add_meal_manual st now req d mt dish descr cal protein carbs fat
               fiber profile in
  (int64 cal = false \/ (0 < profile /\ int64 profile = false) ->
   run = (st, Raised "OverflowError")) /\
  (int64 cal = true -> (0 < profile -> int64 profile = true) ->
   (~ In mt MEAL_TYPE_ORDER \/ (0 < profile /\ get_profile db profile = None) ->
    run = (st, Raised "IntegrityError")) /\
   (In mt MEAL_TYPE_ORDER ->
    profile <= 0 \/ (exists p, get_profile db profile = Some p) ->
    exists row,
      meal_plans (st_db (fst run)) = (meal_plans db ++ [row])%list /\
      plan_date row = d /\ meal_type row = mt /\
      dish_name row = strip dish /\ description row = strip descr /\
      calories row = cal /\
      (forall x, In x (meal_plans db) -> id x < id row) /\
      forall pid,
        visible_to pid row = true <-> (profile <= 0 \/ pid = profile))).
Proof.
  intros Hadm. cbv zeta. unfold add_meal_manual. rewrite Hadm.
  simpl negb. cbv iota. split.
  { intros [Hcal|[Hpos Hp]].
    - now rewrite Hcal.
    - apply Z.ltb_lt in Hpos. rewrite Hpos. simpl. rewrite Hp.
      now rewrite andb_false_r. }
  intros Hcal Hfit.
  assert (Hbound : int64 cal
                   && int64_opt (if 0 <? profile then Some profile else None)
                   = true).
  { rewrite Hcal. destruct (Z.ltb_spec 0 profile); simpl; auto. }
  rewrite Hbound. simpl negb. cbv iota. split.
  - intros Hbad. unfold insert_meal, row_accepted. cbn [meal_type profile_id].
    destruct Hbad as [Hmt|[Hpos Hnp]].
    + destruct (existsb (String.eqb mt) MEAL_TYPE_ORDER) eqn:He;
        [now apply existsb_eqb_In in He|].
      reflexivity.
    + apply Z.ltb_lt in Hpos. rewrite Hpos.
      destruct (existsb (fun q => pr_id q =? profile) (profiles (st_db st)))
        eqn:He.
      * apply existsb_exists in He as (q & Hq & Hqid).
        unfold get_profile in Hnp.
        pose proof (find_none _ _ Hnp q Hq) as Hn. simpl in Hn. congruence.
      * now rewrite andb_false_r.
  - intros Hmt Hprof.
    destruct (insert_meal_accepted st now d mt (strip dish) (strip descr) cal
                protein carbs fat fiber
                (if 0 <? profile then Some profile else None))
      as (row & st' & Hins & Hrow & Hmeals & _ & _ & _ & _ & Hfresh).
    { now apply existsb_eqb_In. }
    { destruct (Z.ltb_spec 0 profile) as [Hpos|_]; [|exact I].
      destruct Hprof as [Hle|[p Hp]]; [lia|].
      unfold get_profile in Hp. apply find_some in Hp as [Hin Hid].
      apply existsb_exists. eauto. }
    rewrite Hins. simpl. exists row. split; [exact Hmeals|].
    rewrite Hrow. cbn [plan_date meal_type dish_name description calories].
    repeat split; try (rewrite <- Hrow; exact Hfresh).
    + unfold visible_to. cbn [profile_id].
      destruct (Z.ltb_spec 0 profile) as [Hpos|Hle]; [|auto].
      intros Heq%Z.eqb_eq. right. congruence.
    + unfold visible_to. cbn [profile_id].
      destruct (Z.ltb_spec 0 profile) as [Hpos|Hle]; [|reflexivity].
      intros [Hle| ->]; [lia | apply Z.eqb_refl].
Qed.

Lemma add_meal_manual_scope_witness :
  add_meal_manual template_store "2026-02-23 09:00:00" admin_request 739670
    "brunch" "Dosa" "" 300 0%float 0%float 0%float 0%float 0
  = (template_store, Raised "IntegrityError").
Proof.
  refine (proj1 (proj2 (add_meal_manual_scope template_store
                          "2026-02-23 09:00:00" admin_request 739670 "brunch"
                          "Dosa" "" 300 0%float 0%float 0%float 0%float 0
                          eq_refl) eq_refl _) _).
  - intros H. discriminate H.
  - left. intros H. repeat (destruct H as [H|H]; [discriminate H|]). destruct H.
Defined.

(** A profile id beyond 64 bits: nothing is written. *)
Example add_meal_manual_overflow :
  add_meal_manual template_store "2026-02-23 09:00:00" admin_request 739670
    "lunch" "Dosa" "" 300 0%float 0%float 0%float 0%float (2 ^ 64)
  = (template_store, Raised "OverflowError").
Proof. reflexivity. Qed.

(** ** Marking a meal prepared *)

Lemma marked_prepared_iff (db : Db) (pid i : Z) :
  marked_prepared db pid i = true <->
  exists c, In c (meal_checks db) /\ mc_profile_id c = pid /\
            mc_meal_plan_id c = i /\ is_prepared c = 1.
Proof.
  unfold marked_prepared. rewrite existsb_exists. split.
  - intros (c & Hin & Hc).
    apply andb_prop in Hc as [[H1%Z.eqb_eq H2%Z.eqb_eq]%andb_prop H3%Z.eqb_eq].
    eauto 6.
  - intros (c & Hin & H1 & H2 & H3). exists c. split; [exact Hin|].
    now rewrite H1, H2, H3, !Z.eqb_refl.
Qed.

Lemma NoDup_map_inj_in {A B : Type} (f : A -> B) (l : list A) (x y : A) :
  List.NoDup (map f l) -> In x l -> In y l -> f x = f y -> x = y.
Proof.
  induction l as [|a l IH]; simpl; [intros _ []|].
  intros Hnd. apply NoDup_cons_iff in Hnd as [Hni Hnd].
  intros [<-|Hx] [<-|Hy] Heq; auto.
  - exfalso. apply Hni. rewrite Heq. now apply in_map.
  - exfalso. apply Hni. rewrite <- Heq. now apply in_map.
Qed.

Lemma log_activity_ok (st : store) (pid : Z) (action details : string)
    (req : request) :
  existsb (fun p => pr_id p =? pid) (profiles (st_db st)) = true ->
  exists st' a,
    log_activity st pid action details req = Returned st' /\
    st_db st' = st_db st /\
    activity_logs st' = (activity_logs st ++ [a])%list /\
    logged_as a pid action details.
Proof.
  intros H. unfold log_activity. rewrite H.
  eexists. eexists. split; [reflexivity|]. simpl.
  split; [reflexivity|]. split; [reflexivity|]. repeat split.
Qed.

(** The checks that a toggle by a stored profile for a stored meal leaves,
    and what it logs. *)
Lemma toggle_meal_written (st : store) (req : request) (meal pid : Z) :
  cookie_profile_id req = Some pid ->
  existsb (fun p => pr_id p =? pid) (profiles (st_db st)) = true ->
  existsb (fun m => id m =? meal) (meal_plans (st_db st)) = true ->
  let db := st_db st in
  let st' := fst (toggle_meal st req meal) in
  let db' := st_db st' in
  exists new_val a,
    meal_checks db' =
      match find (fun c => (mc_profile_id c =? pid) && (mc_meal_plan_id c =? meal))
              (meal_checks db) with
      | Some e =>
          map (fun c => if mc_id c =? mc_id e then
                          {| mc_id := mc_id c; mc_profile_id := mc_profile_id c;
                             mc_meal_plan_id := mc_meal_plan_id c;
                             is_prepared := new_val |}
                        else c)
            (meal_checks db)
      | None =>
          (meal_checks db ++
           [{| mc_id := next_rowid st "meal_checks" (map mc_id (meal_checks db));
               mc_profile_id := pid; mc_meal_plan_id := meal;
               is_prepared := 1 |}])%list
      end /\
    new_val =
      match find (fun c => (mc_profile_id c =? pid) && (mc_meal_plan_id c =? meal))
              (meal_checks db) with
      | Some e => if is_prepared e =? 0 then 1 else 0
      | None => 1
      end /\
    meal_plans db' = meal_plans db /\ profiles db' = profiles db /\
    ai_models db' = ai_models db /\ ai_recipe_cache db' = ai_recipe_cache db /\
    activity_logs st' = (activity_logs st ++ [a])%list /\
    logged_as a pid (if new_val =? 0 then "meal_unprepared" else "meal_prepared")
      (match find (fun m => id m =? meal) (meal_plans db) with
       | Some mp => dish_name mp
       | None => "Unknown"
       end) /\
    snd (toggle_meal st req meal) =
      Returned (Html 200 ("<span class=" +:+ dquote +:+ "check-icon" +:+ dquote
                          +:+ ">" +:+ (if new_val =? 0 then "⬜" else "✅")
                          +:+ "</span>")).
Proof.
  intros Hc Hp Hm. cbv zeta. unfold toggle_meal. rewrite Hc.
  destruct (find (fun c => (mc_profile_id c =? pid) && (mc_meal_plan_id c =? meal))
              (meal_checks (st_db st))) as [e|] eqn:Hf.
  - cbv zeta.
    match goal with
    | |- context [log_activity ?s ?p ?a ?d ?r] =>
        destruct (log_activity_ok s p a d r) as (st2 & a0 & Hlog & Hdb & Hlogs & Ha);
          [exact Hp|]
    end.
    rewrite Hlog. cbn [fst snd]. rewrite Hdb, Hlogs.
    exists (if is_prepared e =? 0 then 1 else 0), a0.
    simpl. repeat split; try reflexivity; apply Ha.
  - rewrite Hp, Hm. simpl andb. cbv iota zeta.
    match goal with
    | |- context [log_activity ?s ?p ?a ?d ?r] =>
        destruct (log_activity_ok s p a d r) as (st2 & a0 & Hlog & Hdb & Hlogs & Ha);
          [exact Hp|]
    end.
    rewrite Hlog. cbn [fst snd]. rewrite Hdb, Hlogs.
    exists 1, a0. simpl. repeat split; try reflexivity; apply Ha.
Qed.

Lemma find_pair_some (l : list meal_check) (pid meal : Z) (e : meal_check) :
  find (fun c => (mc_profile_id c =? pid) && (mc_meal_plan_id c =? meal)) l
    = Some e ->
  In e l /\ mc_profile_id e = pid /\ mc_meal_plan_id e = meal.
Proof.
  intros H. apply find_some in H as [Hin Hc].
  apply andb_prop in Hc as [H1%Z.eqb_eq H2%Z.eqb_eq]. auto.
Qed.

Lemma find_pair_none (l : list meal_check) (pid meal : Z) (c : meal_check) :
  find (fun c => (mc_profile_id c =? pid) && (mc_meal_plan_id c =? meal)) l
    = None ->
  In c l -> ~ (mc_profile_id c = pid /\ mc_meal_plan_id c = meal).
Proof.
  intros H Hin [H1 H2]. pose proof (find_none _ _ H c Hin) as Hn.
  simpl in Hn. now rewrite H1, H2, !Z.eqb_refl in Hn.
Qed.

Lemma NoDup_app_snoc {A : Type} (l : list A) (x : A) :
  List.NoDup l -> ~ In x l -> List.NoDup (l ++ [x]).
Proof.
  intros Hnd Hni. induction l as [|a l IH]; simpl.
  - constructor; [intros [] | constructor].
  - apply NoDup_cons_iff in Hnd as [Ha Hnd]. constructor.
    + rewrite in_app_iff. intros [H|[H|[]]]; [contradiction|].
      apply Hni. now left.
    + apply IH; [exact Hnd|]. intros H. apply Hni. now right.
Qed.

Lemma toggle_meal_spec (st : store) (req : request) (meal pid : Z) :
  cookie_profile_id req = Some pid ->
  existsb (fun p => pr_id p =? pid) (profiles (st_db st)) = true ->
  existsb (fun m => id m =? meal) (meal_plans (st_db st)) = true ->
  checks_wf (st_db st) ->
  let db := st_db st in
  let st' := fst (toggle_meal st req meal) in
  let db' := st_db st' in
  let now_prepared := negb (marked_prepared db pid meal) in
  marked_prepared db' pid meal = now_prepared /\
  (forall pid' meal', (pid', meal') <> (pid, meal) ->
     marked_prepared db' pid' meal' = marked_prepared db pid' meal') /\
  checks_wf db' /\
  meal_plans db' = meal_plans db /\ profiles db' = profiles db /\
  snd (toggle_meal st req meal) =
    Returned (Html 200 ("<span class=" +:+ dquote +:+ "check-icon" +:+ dquote
                        +:+ ">" +:+ (if now_prepared then "✅" else "⬜")
                        +:+ "</span>")) /\
  exists a,
    activity_logs st' = (activity_logs st ++ [a])%list /\
    logged_as a pid
      (if now_prepared then "meal_prepared" else "meal_unprepared")
      (match find (fun m => id m =? meal) (meal_plans db) with
       | Some mp => dish_name mp
       | None => "Unknown"
       end).
Proof.
  intros Hc Hp Hm (Hids & Hpairs & Hflags). cbv zeta.
  destruct (toggle_meal_written st req meal pid Hc Hp Hm)
    as (nv & a & Hchk & Hnv & Hmeals & Hprof & _ & _ & Hlogs & Ha & Hres).
  set (db' := st_db (fst (toggle_meal st req meal))) in *.
  assert (Hmark : forall p i,
            marked_prepared db' p i = true <->
            exists c, In c (meal_checks db') /\ mc_profile_id c = p /\
                      mc_meal_plan_id c = i /\ is_prepared c = 1)
    by (intros; apply marked_prepared_iff).
  destruct (find (fun c => (mc_profile_id c =? pid) && (mc_meal_plan_id c =? meal))
              (meal_checks (st_db st))) as [e|] eqn:Hf.
  - (* an existing check is updated *)
    destruct (find_pair_some _ _ _ _ Hf) as (He & Hep & Hem).
    set (upd := fun c => if mc_id c =? mc_id e then
                           {| mc_id := mc_id c; mc_profile_id := mc_profile_id c;
                              mc_meal_plan_id := mc_meal_plan_id c;
                              is_prepared := nv |}
                         else c) in *.
    assert (Hupd_e : forall c, In c (meal_checks (st_db st)) ->
              (c = e /\ upd c = {| mc_id := mc_id e; mc_profile_id := pid;
                                   mc_meal_plan_id := meal; is_prepared := nv |})
              \/ (c <> e /\ upd c = c /\
                  (mc_profile_id c, mc_meal_plan_id c) <> (pid, meal))).
    { intros c Hin. unfold upd.
      destruct (Z.eqb_spec (mc_id c) (mc_id e)) as [Heq|Hne].
      - left.
        assert (c = e)
          by (apply (NoDup_map_inj_in mc_id (meal_checks (st_db st))); auto).
        subst c.
        split; [reflexivity|]. now rewrite Hep, Hem.
      - right. split; [congruence|]. split; [reflexivity|].
        intros Hpair. apply Hne. f_equal.
        apply (NoDup_map_inj_in
                 (fun c => (mc_profile_id c, mc_meal_plan_id c))
                 (meal_checks (st_db st))); auto.
        now rewrite Hpair, Hep, Hem. }
    assert (Hold : marked_prepared (st_db st) pid meal = (is_prepared e =? 1)).
    { apply eq_true_iff_eq. rewrite marked_prepared_iff, Z.eqb_eq. split.
      - intros (c & Hin & H1 & H2 & H3).
        destruct (Hupd_e c Hin) as [[-> _]|(_ & _ & Hne)]; [exact H3|].
        exfalso. apply Hne. now rewrite H1, H2.
      - intros H3. exists e. auto. }
    assert (Hnew : marked_prepared db' pid meal = (nv =? 1)).
    { apply eq_true_iff_eq. rewrite Hmark, Hchk, Z.eqb_eq. split.
      - intros (c' & Hin & H1 & H2 & H3).
        apply in_map_iff in Hin as (c & <- & Hin).
        destruct (Hupd_e c Hin) as [[_ Hu]|(_ & Hu & Hne)].
        + rewrite Hu in H3. exact H3.
        + rewrite Hu in *. exfalso. apply Hne. now rewrite H1, H2.
      - intros H3. exists (upd e). split; [now apply in_map|].
        destruct (Hupd_e e He) as [[_ Hu]|(Hne & _)]; [|contradiction].
        rewrite Hu. auto. }
    assert (Hflip : (nv =? 1) = negb (is_prepared e =? 1)).
    { rewrite Hnv. destruct (Hflags e He) as [-> | ->]; reflexivity. }
    assert (Hnv0 : (nv =? 0) = negb (nv =? 1)).
    { rewrite Hnv. destruct (is_prepared e =? 0); reflexivity. }
    split; [now rewrite Hnew, Hold, Hflip|].
    split.
    { intros p i Hne. apply eq_true_iff_eq.
      rewrite Hmark, marked_prepared_iff, Hchk. split.
      - intros (c' & Hin & H1 & H2 & H3).
        apply in_map_iff in Hin as (c & <- & Hin).
        destruct (Hupd_e c Hin) as [[_ Hu]|(_ & Hu & _)].
        + rewrite Hu in H1, H2. simpl in H1, H2. exfalso. apply Hne. congruence.
        + rewrite Hu in *. eauto 6.
      - intros (c & Hin & H1 & H2 & H3).
        exists (upd c). split; [now apply in_map|].
        destruct (Hupd_e c Hin) as [[-> _]|(_ & Hu & _)].
        + exfalso. apply Hne. congruence.
        + rewrite Hu. auto. }
    split.
    { unfold checks_wf. rewrite Hchk, !map_map.
      assert (E1 : map (fun x => mc_id (upd x)) (meal_checks (st_db st))
                   = map mc_id (meal_checks (st_db st))).
      { apply map_ext. intros c. unfold upd. now destruct (mc_id c =? mc_id e). }
      assert (E2 : map (fun x => (mc_profile_id (upd x), mc_meal_plan_id (upd x)))
                     (meal_checks (st_db st))
                   = map (fun c => (mc_profile_id c, mc_meal_plan_id c))
                       (meal_checks (st_db st))).
      { apply map_ext. intros c. unfold upd. now destruct (mc_id c =? mc_id e). }
      rewrite E1, E2. split; [exact Hids|]. split; [exact Hpairs|].
      intros c' Hin. apply in_map_iff in Hin as (c & <- & Hin).
      destruct (Hupd_e c Hin) as [[_ Hu]|(_ & Hu & _)]; rewrite Hu; [|auto].
      simpl. rewrite Hnv. destruct (is_prepared e =? 0); auto. }
    split; [exact Hmeals|]. split; [exact Hprof|].
    rewrite Hold, <- Hflip. rewrite Hnv0 in Hres, Ha.
    split.
    { rewrite Hres. now destruct (nv =? 1). }
    exists a. split; [exact Hlogs|]. now destruct (nv =? 1).
  - (* a new check is inserted *)
    assert (Hold : marked_prepared (st_db st) pid meal = false).
    { apply not_true_is_false. rewrite marked_prepared_iff.
      intros (c & Hin & H1 & H2 & _). now apply (find_pair_none _ _ _ c Hf Hin). }
    assert (Hnew : marked_prepared db' pid meal = true).
    { apply Hmark. rewrite Hchk. eexists. split; [apply in_or_app; right; now left|].
      simpl. auto. }
    subst nv. simpl in Hres, Ha.
    split; [now rewrite Hnew, Hold|].
    split.
    { intros p i Hne. apply eq_true_iff_eq.
      rewrite Hmark, marked_prepared_iff, Hchk. split.
      - intros (c & Hin & H1 & H2 & H3).
        apply in_app_or in Hin as [Hin|[<-|[]]]; [eauto 6|].
        simpl in H1, H2. exfalso. apply Hne. congruence.
      - intros (c & Hin & H). exists c. split; [apply in_or_app; now left | exact H]. }
    split.
    { unfold checks_wf. rewrite Hchk, !List.map_app. simpl. split; [|split].
      - apply NoDup_app_snoc; [exact Hids|].
        intros Hin. apply in_map_iff in Hin as (c & Heq & Hin).
        pose proof (next_rowid_fresh st "meal_checks"
                      (map mc_id (meal_checks (st_db st))) (mc_id c)
                      (in_map mc_id _ _ Hin)). lia.
      - apply NoDup_app_snoc; [exact Hpairs|].
        intros Hin. apply in_map_iff in Hin as (c & [= H1 H2] & Hin).
        now apply (find_pair_none _ _ _ c Hf Hin).
      - intros c Hin. apply in_app_or in Hin as [Hin|[<-|[]]]; [auto|].
        simpl. auto. }
    split; [exact Hmeals|]. split; [exact Hprof|].
    rewrite Hold. simpl. split; [exact Hres|]. exists a. auto.
Qed.

Lemma template_checks_wf : checks_wf template_db.
Proof.
  split; [|split].
  - repeat constructor. intros [].
  - repeat constructor. intros [].
  - intros c [<-|[]]. now right.
Defined.

(** X16: toggling a meal.  For a stored profile and a stored meal, with the
    constraints of [meal_checks] in force, a toggle flips whether the profile
    has the meal marked prepared and nothing else: every other profile and
    every other meal keeps its mark, the constraints still hold, meals and
    profiles are untouched.  The answer shows the new state and one activity
    row is logged for it with the dish name. *)
Theorem toggle_meal_flips (st : store) (req : request) (meal pid : Z) :
  cookie_profile_id req = Some pid ->
  existsb (fun p => pr_id p =? pid) (profiles (st_db st)) = true ->
  existsb (fun m => id m =? meal) (meal_plans (st_db st)) = true ->
  checks_wf (st_db st) ->
  let db := st_db st in
  let st' := fst (toggle_meal st req meal) in
  let db' := st_db st' in
  let now_prepared := negb (marked_prepared db pid meal) in
  marked_prepared db' pid meal = now_prepared /\
  (forall pid' meal', (pid', meal') <> (pid, meal) ->
     marked_prepared db' pid' meal' = marked_prepared db pid' meal') /\
  checks_wf db' /\
  meal_plans db' = meal_plans db /\ profiles db' = profiles db /\
  snd (toggle_meal st req meal) =
    Returned (Html 200 ("<span class=" +:+ dquote +:+ "check-icon" +:+ dquote
                        +:+ ">" +:+ (if now_prepared then "✅" else "⬜")
                        +:+ "</span>")) /\
  exists a,
    activity_logs st' = (activity_logs st ++ [a])%list /\
    logged_as a pid
      (if now_prepared then "meal_prepared" else "meal_unprepared")
      (match find (fun m => id m =? meal) (meal_plans db) with
       | Some mp => dish_name mp
       | None => "Unknown"
       end).
Proof.
  intros Hc Hp Hm Hwf.
  destruct (toggle_meal_spec st req meal pid Hc Hp Hm Hwf)
    as (Hflip & Hothers & Hwf' & Hmeals & Hprofiles & Hanswer & a & Hlog & Ha).
  cbv zeta in *.
  split; [exact Hflip|]. split; [exact Hothers|]. split; [exact Hwf'|].
  split; [exact Hmeals|]. split; [exact Hprofiles|]. split; [exact Hanswer|].
  exists a. split; [exact Hlog | exact Ha].
Qed.

Lemma toggle_meal_flips_witness :
  marked_prepared (st_db (fst (toggle_meal template_store profile1_request 2))) 1 2
    = false /\
  marked_prepared (st_db (fst (toggle_meal template_store profile1_request 3))) 1 3
    = true.
Proof.
  split.
  - exact (proj1 (toggle_meal_flips template_store profile1_request 2 1
                    eq_refl eq_refl eq_refl template_checks_wf)).
  - exact (proj1 (toggle_meal_flips template_store profile1_request 3 1
                    eq_refl eq_refl eq_refl template_checks_wf)).
Defined.

(** X17: toggling twice restores every mark.  After two toggles of the
    same meal by the same profile, each profile has each meal marked
    prepared exactly as before the first toggle; two activity rows were
    logged. *)
Theorem toggle_meal_twice (st : store) (req : request) (meal pid : Z) :
  cookie_profile_id req = Some pid ->
  existsb (fun p => pr_id p =? pid) (profiles (st_db st)) = true ->
  existsb (fun m => id m =? meal) (meal_plans (st_db st)) = true ->
  checks_wf (st_db st) ->
  let st1 := fst (toggle_meal st req meal) in
  let st2 := fst (toggle_meal st1 req meal) in
  (forall pid' meal',
     marked_prepared (st_db st2) pid' meal'
     = marked_prepared (st_db st) pid' meal') /\
  length (activity_logs st2) = S (S (length (activity_logs st))).
Proof.
  intros Hc Hp Hm Hwf. cbv zeta.
  destruct (toggle_meal_spec st req meal pid Hc Hp Hm Hwf)
    as (H1 & Hoth1 & Hwf1 & Hmeals1 & Hprof1 & _ & a1 & Hlog1 & _).
  set (st1 := fst (toggle_meal st req meal)) in *.
  assert (Hp1 : existsb (fun p => pr_id p =? pid) (profiles (st_db st1)) = true)
    by now rewrite Hprof1.
  assert (Hm1 : existsb (fun m => id m =? meal) (meal_plans (st_db st1)) = true)
    by now rewrite Hmeals1.
  destruct (toggle_meal_spec st1 req meal pid Hc Hp1 Hm1 Hwf1)
    as (H2 & Hoth2 & _ & _ & _ & _ & a2 & Hlog2 & _).
  split.
  - intros p i.
    destruct (decide ((p, i) = (pid, meal))) as [[= -> ->]|Hne].
    + rewrite H2, H1. apply negb_involutive.
    + rewrite (Hoth2 p i Hne). now apply Hoth1.
  - rewrite Hlog2, Hlog1, !length_app. simpl. lia.
Qed.

Lemma toggle_meal_twice_witness :
  marked_prepared
    (st_db (fst (toggle_meal (fst (toggle_meal template_store profile1_request 2))
                   profile1_request 2))) 1 2
  = marked_prepared template_db 1 2.
Proof.
  exact (proj1 (toggle_meal_twice template_store profile1_request 2 1
                  eq_refl eq_refl eq_refl template_checks_wf) 1 2).
Defined.

Lemma NoDup_map_filter {A B : Type} (f : A -> B) (g : A -> bool) (l : list A) :
  List.NoDup (map f l) -> List.NoDup (map f (filter (fun a => g a) l)).
Proof.
  induction l as [|a l IH]; simpl; [intros; constructor|].
  intros Hnd. apply NoDup_cons_iff in Hnd as [Hni Hnd].
  rewrite filter_cons. destruct (decide (g a)); [|auto].
  simpl. constructor; [|auto].
  intros Hin. apply Hni. apply in_map_iff in Hin as (x & Hx & Hin).
  apply in_filter_bool in Hin as [Hin _]. apply in_map_iff. eauto.
Qed.

Lemma filter_ext_in_bool {A : Type} (f g : A -> bool) (l : list A) :
  (forall x, In x l -> f x = g x) ->
  filter (fun a => f a) l = filter (fun a => g a) l.
Proof.
  induction l as [|a l IH]; intros H; [reflexivity|].
  rewrite !filter_cons, (H a (or_introl eq_refl)).
  rewrite IH by (intros x Hx; apply H; now right). reflexivity.
Qed.

Lemma sum_filter_flip (l : list meal) (f f' : meal -> bool) (m : meal) :
  List.NoDup (map id l) -> In m l ->
  (forall x, In x l -> id x <> id m -> f' x = f x) ->
  f' m = negb (f m) ->
  sum_Z (map calories (filter (fun a => f' a) l)) =
  sum_Z (map calories (filter (fun a => f a) l))
  + (if f m then - calories m else calories m).
Proof.
  induction l as [|a l IH]; simpl; [intros _ []|].
  intros Hnd Hin Hoth Hm. apply NoDup_cons_iff in Hnd as [Hni Hnd].
  rewrite !filter_cons.
  destruct Hin as [->|Hin].
  - assert (Hrest : filter (fun a => f' a) l = filter (fun a => f a) l).
    { apply filter_ext_in_bool. intros x Hx. apply Hoth; [now right|].
      intros Heq. apply Hni. rewrite <- Heq. now apply in_map. }
    rewrite Hrest, Hm.
    destruct (f m); destruct (decide _) as [H1|H1];
      destruct (decide _) as [H2|H2]; simpl in *;
      try contradiction; try (exfalso; now auto); lia.
  - assert (Ha : id a <> id m).
    { intros Heq. apply Hni. rewrite Heq. now apply in_map. }
    rewrite (Hoth a (or_introl eq_refl) Ha).
    specialize (IH Hnd Hin (fun x Hx => Hoth x (or_intror Hx)) Hm).
    destruct (decide (f a)); simpl; lia.
Qed.

Lemma get_profile_exists (db : Db) (pid : Z) (p : profile) :
  get_profile db pid = Some p ->
  existsb (fun q => pr_id q =? pid) (profiles db) = true.
Proof.
  unfold get_profile. intros H. apply find_some in H as [Hin Hid].
  apply existsb_exists. eauto.
Qed.

(** X18: a toggle shows up in the day view.  When a profile toggles a meal
    that its day view of a date shows, and meal ids are unique, the page that
    the day view returns keeps its total calories, and its prepared calories
    go up by the meal's calories if the meal was not marked prepared, down
    by them if it was. *)
Theorem toggle_meal_day_view (st : store) (req : request) (pid : Z)
    (today d : Z) (m : meal) (st1 st2 : store)
    (ctx ctx' : Views.dashboard_context) :
  cookie_profile_id req = Some pid ->
  checks_wf (st_db st) ->
  List.NoDup (map id (meal_plans (st_db st))) ->
  In m (rows_on (st_db st) pid d) ->
  Views.dashboard st today req (ViewDate d) = (st1, Returned (Page ctx)) ->
  Views.dashboard (fst (toggle_meal st req (id m))) today req (ViewDate d)
    = (st2, Returned (Page ctx')) ->
  total_calories (Views.dc_view ctx') = total_calories (Views.dc_view ctx) /\
  checked_calories (Views.dc_view ctx') =
    checked_calories (Views.dc_view ctx)
    + (if marked_prepared (st_db st) pid (id m) then - calories m
       else calories m).
Proof.
  intros Hc Hwf Hnd Hin Hv Hv'.
  destruct (views_dashboard_totals _ _ _ _ _ _ _ Hc Hv) as ((p & Hp) & Ht & Hck).
  destruct (views_dashboard_totals _ _ _ _ _ _ _ Hc Hv') as (_ & Ht' & Hck').
  pose proof (get_profile_exists _ _ _ Hp) as Hpe.
  assert (Hme : existsb (fun x => id x =? id m) (meal_plans (st_db st)) = true).
  { apply existsb_exists. exists m. split; [|apply Z.eqb_refl].
    now apply in_rows_on in Hin. }
  destruct (toggle_meal_spec st req (id m) pid Hc Hpe Hme Hwf)
    as (Hflip & Hoth & _ & Hmeals & Hprof & _).
  set (db' := st_db (fst (toggle_meal st req (id m)))) in *.
  assert (Hrows : rows_on db' pid d = rows_on (st_db st) pid d)
    by (unfold rows_on; now rewrite Hmeals).
  rewrite Ht', Hck', Ht, Hck, Hrows. split; [reflexivity|].
  apply (sum_filter_flip (rows_on (st_db st) pid d)
           (fun x => marked_prepared (st_db st) pid (id x))
           (fun x => marked_prepared db' pid (id x)) m).
  - unfold rows_on. now apply NoDup_map_filter.
  - exact Hin.
  - intros x _ Hne. apply Hoth. congruence.
  - exact Hflip.
Qed.

Lemma toggle_meal_day_view_witness :
  exists st1 st2 ctx ctx',
    Views.dashboard template_store 739924 profile1_request (ViewDate 739669)
      = (st1, Returned (Page ctx)) /\
    Views.dashboard (fst (toggle_meal template_store profile1_request 3))
      739924 profile1_request (ViewDate 739669) = (st2, Returned (Page ctx')) /\
    checked_calories (Views.dc_view ctx')
      = checked_calories (Views.dc_view ctx) + 480.
Proof.
  eexists _, _, _, _. split; [reflexivity|]. split; [reflexivity|].
  refine (proj2 (toggle_meal_day_view template_store profile1_request 1
                   739924 739669
                   (mk_meal 3 739669 "dinner" "Salmon with Vegetables" 480 (Some 1))
                   _ _ _ _ eq_refl template_checks_wf _ _ eq_refl eq_refl)).
  - repeat constructor; simpl; intuition discriminate.
  - right; right; left. reflexivity.
Defined.

(** ** Opening a dish *)



(** A lookup that raises: the store cannot be opened when the model is
    read, and the visitor gets the exception instead of the dish. *)
Example dish_info_store_unavailable :
  dish_info template_store unavailable_store ∅ number_answer admin_request 2
  = (template_store, Raised "unable to open database file", []).
Proof. reflexivity. Qed.

(** ** User agents *)

Lemma parse_user_agent_lower (ua ua' : string) :
  lower ua = lower ua' -> parse_user_agent ua = parse_user_agent ua'.
Proof. intros H. unfold parse_user_agent. now rewrite H. Qed.

(** X20: what the user-agent parser reports.  Letter case is ignored.  The
    device is always Mobile, Tablet or Desktop, and Mobile whenever the text
    mentions android.  The tests are tried in a fixed order, so a text that
    mentions linux is never reported as Android, one that mentions "mac os"
    never as iOS, and one that mentions both chrome and safari never as
    Opera. *)
Theorem parse_user_agent_facts (ua ua' : string) :
  (same_letters ua ua' -> parse_user_agent ua = parse_user_agent ua') /\
  (ua_device (parse_user_agent ua) = "Mobile" \/
   ua_device (parse_user_agent ua) = "Tablet" \/
   ua_device (parse_user_agent ua) = "Desktop") /\
  (contains "android" (lower ua) = true ->
   ua_device (parse_user_agent ua) = "Mobile") /\
  (contains "linux" (lower ua) = true ->
   ua_os (parse_user_agent ua) <> "Android") /\
  (contains "mac os" (lower ua) = true ->
   ua_os (parse_user_agent ua) <> "iOS") /\
  (contains "chrome" (lower ua) = true -> contains "safari" (lower ua) = true ->
   ua_browser (parse_user_agent ua) <> "Opera").
Proof.
  split; [intros H; apply parse_user_agent_lower, same_letters_lower, H|].
  unfold parse_user_agent. cbn [ua_device ua_os ua_browser].
  split; [|split; [|split; [|split]]].
  - destruct (contains "mobile" (lower ua) || contains "android" (lower ua)
              || contains "iphone" (lower ua)); [auto|].
    destruct (contains "tablet" (lower ua) || contains "ipad" (lower ua)); auto.
  - intros ->. now rewrite orb_true_r.
  - intros ->.
    destruct (contains "windows" (lower ua)); [discriminate|].
    destruct (contains "mac os" (lower ua) || contains "macintosh" (lower ua));
      discriminate.
  - intros ->. destruct (contains "windows" (lower ua)); discriminate.
  - intros -> ->. destruct (contains "edg/" (lower ua)); discriminate.
Qed.

(** An Android phone's Chrome is logged as Linux, Chrome, Mobile; an
    iPhone's Safari as macOS, Safari, Mobile. *)
Example parse_user_agent_android :
  parse_user_agent
    "Mozilla/5.0 (Linux; Android 10; Pixel 3) AppleWebKit/537.36 (KHTML, like Gecko) Chrome/120.0 Mobile Safari/537.36"
  = {| ua_os := "Linux"; ua_browser := "Chrome"; ua_device := "Mobile" |}.
Proof. vm_compute. reflexivity. Qed.

Example parse_user_agent_iphone :
  parse_user_agent
    "Mozilla/5.0 (iPhone; CPU iPhone OS 17_0 like Mac OS X) AppleWebKit/605.1.15 (KHTML, like Gecko) Version/17.0 Mobile/15E148 Safari/604.1"
  = {| ua_os := "macOS"; ua_browser := "Safari"; ua_device := "Mobile" |}.
Proof. vm_compute. reflexivity. Qed.

(** ** Grouping loops *)

Section FoldUpdate.
Context {K V A : Type} (eqb : K -> K -> bool).
Hypothesis eqb_eq : forall a b, eqb a b = true <-> a = b.
Variables (key : A -> K) (step : A -> V -> V).

Lemma update_as_map (k : K) (f : V -> V) (d : list (K * V)) :
  List.NoDup (map fst d) ->
  PyDict.update eqb k f d =
  map (fun kv => if eqb k (fst kv) then (fst kv, f (snd kv)) else kv) d.
Proof.
  induction d as [|[k' v] d IH]; simpl; [reflexivity|].
  intros Hnd. apply NoDup_cons_iff in Hnd as [Hni Hnd].
  destruct (eqb k k') eqn:He.
  - f_equal. apply eqb_eq in He. subst k'.
    rewrite <- (map_id d) at 1. apply map_ext_in. intros [k2 v2] Hin. simpl.
    destruct (eqb k k2) eqn:He2; [|reflexivity].
    apply eqb_eq in He2. subst k2. exfalso. apply Hni.
    apply in_map_iff. exists (k, v2). auto.
  - f_equal. now apply IH.
Qed.

Lemma mem_false_map (k : K) (f : V -> V) (d : list (K * V)) :
  PyDict.mem eqb k d = false ->
  map (fun kv => if eqb k (fst kv) then (fst kv, f (snd kv)) else kv) d = d.
Proof.
  unfold PyDict.mem. induction d as [|[k' v] d IH]; simpl; [reflexivity|].
  destruct (eqb k k'); [discriminate|]. intros H. now rewrite IH.
Qed.

Lemma fold_update_spec (ms : list A) (ds : list (K * V)) :
  List.NoDup (map fst ds) ->
  fold_left
    (fun d m => if PyDict.mem eqb (key m) d
                then PyDict.update eqb (key m) (step m) d else d)
    ms ds =
  map (fun kv =>
         (fst kv,
          fold_left (fun v m => step m v)
            (filter (fun m => eqb (key m) (fst kv)) ms) (snd kv)))
    ds.
Proof.
  revert ds. induction ms as [|m ms IH]; intros ds Hnd; simpl.
  - rewrite <- (map_id ds) at 1. apply map_ext. now intros [k v].
  - assert (Hstep : (if PyDict.mem eqb (key m) ds
                     then PyDict.update eqb (key m) (step m) ds else ds) =
                    map (fun kv => if eqb (key m) (fst kv)
                                   then (fst kv, step m (snd kv)) else kv) ds).
    { destruct (PyDict.mem eqb (key m) ds) eqn:Hm.
      - now apply update_as_map.
      - symmetry. now apply mem_false_map. }
    rewrite Hstep, IH.
    + rewrite map_map. apply map_ext. intros [k v]. simpl.
      rewrite filter_cons.
      destruct (decide (Is_true (eqb (key m) k))) as [Hd|Hd].
      * apply Is_true_true in Hd. now rewrite Hd.
      * apply Is_true_false in Hd. now rewrite Hd.
    + rewrite map_map.
      erewrite map_ext; [exact Hnd|].
      intros [k v]. simpl. now destruct (eqb (key m) k).
Qed.
End FoldUpdate.

Lemma organize_spec (checked : gset Z) (ms : list meal)
    (org : list (string * slot)) :
  List.NoDup (map fst org) ->
  organize checked ms org =
  map (fun kv =>
         (fst kv,
          {| label := label (snd kv);
             meals := (meals (snd kv) ++
                       map (view_of checked)
                         (filter (fun m => String.eqb (meal_type m) (fst kv)) ms))%list |}))
    org.
Proof.
  intros Hnd. unfold organize.
  rewrite (fold_update_spec String.eqb String.eqb_eq meal_type
             (fun m s => {| label := label s;
                            meals := (meals s ++ [view_of checked m])%list |})
             ms org Hnd).
  apply map_ext. intros [k s]. simpl. f_equal.
  generalize (filter (fun m => String.eqb (meal_type m) k) ms). intros l.
  revert s. induction l as [|a l IH]; intros s; simpl.
  - rewrite app_nil_r. now destruct s.
  - rewrite IH. simpl. now rewrite <- app_assoc.
Qed.

(** X21: the groups of the day view.  Each of the six slots holds the
    loaded meals of its type, in load order; every entry shown comes from a
    stored row of the resolved date that the profile sees (its own or a
    shared one, never one scoped to another profile), with that row's id,
    dish name and calories, and is flagged checked exactly when the profile
    marked the meal prepared. *)
Theorem day_view_groups (db : Db) (today pid : Z) (vd : view_date_arg)
    (ctx : Main.dashboard_page) :
  dashboard db today (Some pid) vd = Returned (Page ctx) ->
  forall mt s, In (mt, s) (dp_meals ctx) ->
    meals s =
      map (view_of (checked_ids_of db pid))
        (filter (fun m => String.eqb (meal_type m) mt)
           (meals_on db (selected_date ctx) pid)) /\
    forall v, In v (meals s) ->
      exists m,
        In m (meal_plans db) /\ plan_date m = selected_date ctx /\
        visible_to pid m = true /\ meal_type m = mt /\
        mv_id v = id m /\ mv_dish_name v = dish_name m /\
        mv_calories v = calories m /\
        mv_is_checked v = marked_prepared db pid (id m).
Proof.
  intros Hd mt s Hin.
  destruct (get_profile db pid) as [p|] eqn:Hp.
  2:{ unfold dashboard in Hd. rewrite Hp in Hd. discriminate. }
  destruct (dashboard_page db today pid p vd Hp)
    as (slots0 & sd & [Hkeys Hempty] & _ & Hd').
  rewrite Hd' in Hd. injection Hd as <-.
  cbn [dp_meals selected_date] in *.
  rewrite organize_spec in Hin
    by (rewrite Hkeys; repeat constructor; simpl; intuition discriminate).
  apply in_map_iff in Hin as ([k s0] & [= <- <-] & Hin0).
  rewrite Forall_forall in Hempty.
  assert (Hs0 : meals s0 = [])
    by (apply (Hempty (k, s0)); now apply list_elem_of_In).
  cbn [meals fst snd]. rewrite Hs0. simpl. split; [reflexivity|].
  intros v Hv. apply in_map_iff in Hv as (m & <- & Hm).
  apply in_filter_bool in Hm as [Hm Hmt]. apply String.eqb_eq in Hmt.
  eapply Permutation_in in Hm; [|apply meals_on_rows].
  apply in_rows_on in Hm as (Hm1 & Hm2 & Hm3).
  exists m. repeat split; auto. simpl.
  apply eq_true_iff_eq. now rewrite bool_decide_eq_true, checked_ids_marked.
Qed.

Lemma day_view_groups_witness :
  exists ctx,
    dashboard template_db 739669 (Some 1) NoViewDate = Returned (Page ctx) /\
    map (fun kv => (fst kv, map mv_dish_name (meals (snd kv)))) (dp_meals ctx)
    = [("breakfast", ["Oatmeal with Berries"]); ("morning_snack", []);
       ("lunch", ["Grilled Chicken Salad"]); ("afternoon_snack", []);
       ("dinner", ["Salmon with Vegetables"]); ("evening_snack", [])] /\
    forall mt s, In (mt, s) (dp_meals ctx) ->
      meals s =
        map (view_of (checked_ids_of template_db 1))
          (filter (fun m => String.eqb (meal_type m) mt)
             (meals_on template_db (selected_date ctx) 1)).
Proof.
  eexists. split; [reflexivity|]. split; [reflexivity|].
  intros mt s Hin.
  exact (proj1 (day_view_groups template_db 739669 1 NoViewDate _ eq_refl mt s Hin)).
Defined.

(** ** More on the week view *)

Lemma timedelta_inv (n d : Z) : timedelta n = Returned d -> d = n.
Proof. unfold timedelta. destruct (_ <=? _); [now intros [= <-] | discriminate]. Qed.

Lemma date_add_inv (d delta r : Z) :
  date_add d delta = Returned r -> r = d + delta /\ valid_date r.
Proof.
  unfold date_add, valid_date. cbv zeta.
  destruct (Z.leb_spec MINORDINAL (d + delta)); [|discriminate].
  destruct (Z.leb_spec (d + delta) MAXORDINAL); [|discriminate].
  intros [= <-]. auto.
Qed.

(** The page of a week view that is built. *)
Lemma history_shape (db : Db) (today pid week_offset : Z) (ctx : history_page) :
  history db today (Some pid) week_offset = Returned (Page ctx) ->
  let s := today - weekday today + 7 * week_offset in
  valid_date s /\ valid_date (s + 6) /\
  start_of_week ctx = s /\ end_of_week ctx = s + 6 /\
  prev_offset ctx = week_offset - 1 /\ next_offset ctx = week_offset + 1 /\
  current_offset ctx = week_offset /\
  days ctx =
    fill_days (checked_ids_of db pid) (meals_between db s (s + 6) pid)
      (map (fun i => (s + i, fresh_bucket (s + i))) [0; 1; 2; 3; 4; 5; 6]).
Proof.
  cbv zeta. unfold history, date_sub.
  destruct (timedelta (weekday today)) as [|back] eqn:H1; [discriminate|].
  apply timedelta_inv in H1. subst back. cbn [mbind py_result_bind].
  destruct (date_add today (- weekday today)) as [|monday] eqn:H2; [discriminate|].
  apply date_add_inv in H2 as [-> _]. cbn [mbind py_result_bind].
  destruct (timedelta (7 * week_offset)) as [|shift] eqn:H3; [discriminate|].
  apply timedelta_inv in H3. subst shift. cbn [mbind py_result_bind].
  destruct (date_add (today + - weekday today) (7 * week_offset))
    as [|s] eqn:H4; [discriminate|].
  apply date_add_inv in H4 as [Hs Hsv]. cbn [mbind py_result_bind].
  destruct (timedelta 6) as [|six] eqn:H5; [discriminate|].
  apply timedelta_inv in H5. subst six. cbn [mbind py_result_bind].
  destruct (date_add s 6) as [|e] eqn:H6; [discriminate|].
  apply date_add_inv in H6 as [-> Hev]. cbn [mbind py_result_bind].
  replace (today - weekday today + 7 * week_offset) with s by lia.
  rewrite init_days_spec.
  - cbn [mbind py_result_bind app]. intros [= <-].
    cbn [start_of_week end_of_week prev_offset next_offset current_offset days].
    split; [exact Hsv|]. split; [exact Hev|]. repeat split.
  - repeat (constructor; [simpl; intuition lia|]). constructor.
  - unfold valid_date in *. simpl. intros i Hi. intuition lia.
Qed.

Lemma fill_days_spec (checked : gset Z) (ms : list meal)
    (ds : list (Z * day_bucket)) :
  List.NoDup (map fst ds) ->
  fill_days checked ms ds =
  map (fun kv =>
         let l := filter (fun m => plan_date m =? fst kv) ms in
         (fst kv,
          {| day_date := day_date (snd kv);
             day_name := day_name (snd kv);
             day_meals := (day_meals (snd kv) ++ map (week_meal_of checked) l)%list;
             total := total (snd kv) + Z.of_nat (length l);
             prepared :=
               prepared (snd kv)
               + Z.of_nat (length (filter (fun m => bool_decide (id m ∈ checked)) l)) |}))
    ds.
Proof.
  intros Hnd. unfold fill_days.
  rewrite (fold_update_spec Z.eqb Z.eqb_eq plan_date
             (fun m b =>
                {| day_date := day_date b; day_name := day_name b;
                   day_meals := (day_meals b ++ [week_meal_of checked m])%list;
                   total := total b + 1;
                   prepared := if bool_decide (id m ∈ checked)
                               then prepared b + 1 else prepared b |})
             ms ds Hnd).
  apply map_ext. intros [k b]. cbv zeta. simpl. f_equal.
  generalize (filter (fun m => plan_date m =? k) ms). intros l.
  revert b. induction l as [|a l IH]; intros b; simpl.
  - rewrite app_nil_r, !Z.add_0_r. now destruct b.
  - rewrite IH. simpl. rewrite <- app_assoc. simpl.
    rewrite filter_cons. f_equal; [lia|].
    destruct (decide (bool_decide (id a ∈ checked))) as [Hd|Hd].
    + apply Is_true_true in Hd. rewrite Hd. simpl length. lia.
    + apply Is_true_false in Hd. rewrite Hd. lia.
Qed.

Lemma meals_between_on_day (db : Db) (lo hi pid k : Z) :
  lo <= k <= hi ->
  Permutation (filter (fun m => plan_date m =? k) (meals_between db lo hi pid))
    (rows_on db pid k).
Proof.
  intros Hk. unfold meals_between, rows_on.
  rewrite (filter_Permutation _ _ _ (order_by_perm _ _)).
  rewrite list_filter_filter.
  erewrite list_filter_iff; [reflexivity|].
  intros m. simpl. rewrite !andb_True, !Is_true_true.
  rewrite !Z.leb_le, !Z.eqb_eq. split.
  - intros (H1 & _ & H2). auto.
  - intros (H1 & H2). repeat split; auto; lia.
Qed.

(** X22: the counters of the week view.  In every day bucket, [total] is
    the number of meals the profile sees on that day and [prepared] the
    number of those it marked prepared, so that 0 <= prepared <= total; the
    bucket lists exactly [total] meals. *)
Theorem week_view_counters (db : Db) (today pid week_offset : Z)
    (ctx : history_page) :
  history db today (Some pid) week_offset = Returned (Page ctx) ->
  forall k b, In (k, b) (days ctx) ->
    total b = Z.of_nat (length (rows_on db pid k)) /\
    prepared b =
      Z.of_nat (length (filter (fun m => marked_prepared db pid (id m))
                          (rows_on db pid k))) /\
    0 <= prepared b <= total b /\
    Z.of_nat (length (day_meals b)) = total b.
Proof.
  intros Hh k b Hin.
  destruct (history_shape db today pid week_offset ctx Hh)
    as (_ & _ & _ & _ & _ & _ & _ & Hdays).
  set (s := today - weekday today + 7 * week_offset) in *.
  rewrite Hdays, fill_days_spec in Hin.
  2:{ simpl. repeat (constructor; [simpl; intuition lia|]). constructor. }
  apply in_map_iff in Hin as ([k0 b0] & [= <- <-] & Hin0).
  apply in_map_iff in Hin0 as (i & [= <- <-] & Hi).
  assert (Hrange : s <= s + i <= s + 6) by (simpl in Hi; intuition lia).
  pose proof (meals_between_on_day db s (s + 6) pid (s + i) Hrange) as Hperm.
  cbn [fst snd total prepared day_meals fresh_bucket].
  set (l := filter (fun m => plan_date m =? s + i)
              (meals_between db s (s + 6) pid)) in *.
  assert (H1 : length l = length (rows_on db pid (s + i)))
    by now apply Permutation_length.
  assert (H2 : length (filter (fun m => bool_decide (id m ∈ checked_ids_of db pid)) l)
               = length (filter (fun m => marked_prepared db pid (id m))
                           (rows_on db pid (s + i)))).
  { rewrite checked_filter. apply Permutation_length.
    now apply filter_Permutation. }
  rewrite H1, H2. simpl.
  pose proof (length_filter (fun m => marked_prepared db pid (id m))
                (rows_on db pid (s + i))) as Hle.
  rewrite length_map, H1. repeat split; lia.
Qed.

Lemma week_view_counters_witness :
  exists ctx,
    history template_db 739669 (Some 1) 0 = Returned (Page ctx) /\
    forall k b, In (k, b) (days ctx) ->
      total b = Z.of_nat (length (rows_on template_db 1 k)).
Proof.
  eexists. split; [reflexivity|]. intros k b Hin.
  exact (proj1 (week_view_counters template_db 739669 1 0 _ eq_refl k b Hin)).
Defined.

(** X23: consecutive weeks tile the calendar.  When the week views at two
    consecutive offsets are both built, the later week starts the day after
    the earlier one ends, each is seven days long, and the previous and
    next links of one page are the offsets of its neighbours. *)
Theorem week_views_are_consecutive (db : Db) (today pid week_offset : Z)
    (c1 c2 : history_page) :
  history db today (Some pid) week_offset = Returned (Page c1) ->
  history db today (Some pid) (week_offset + 1) = Returned (Page c2) ->
  start_of_week c2 = end_of_week c1 + 1 /\
  end_of_week c1 = start_of_week c1 + 6 /\
  end_of_week c2 = start_of_week c2 + 6 /\
  next_offset c1 = current_offset c2 /\ prev_offset c2 = current_offset c1.
Proof.
  intros H1 H2.
  destruct (history_shape _ _ _ _ _ H1) as (_ & _ & S1 & E1 & P1 & N1 & C1 & _).
  destruct (history_shape _ _ _ _ _ H2) as (_ & _ & S2 & E2 & P2 & N2 & C2 & _).
  rewrite S1, E1, S2, E2, N1, C1, P2, C2. repeat split; lia.
Qed.

Lemma week_views_are_consecutive_witness :
  exists c1 c2,
    history template_db 739669 (Some 1) 0 = Returned (Page c1) /\
    history template_db 739669 (Some 1) 1 = Returned (Page c2) /\
    start_of_week c2 = end_of_week c1 + 1.
Proof.
  eexists. eexists. split; [reflexivity|]. split; [reflexivity|].
  exact (proj1 (week_views_are_consecutive template_db 739669 1 0 _ _
                  eq_refl eq_refl)).
Defined.

(** ** Bounds on the day totals *)

Lemma sum_Z_filter_le (f : meal -> bool) (l : list meal) :
  (forall m, In m l -> 0 <= calories m) ->
  0 <= sum_Z (map calories (filter (fun m => f m) l))
    <= sum_Z (map calories l).
Proof.
  induction l as [|a l IH]; simpl; [lia|].
  intros H. rewrite filter_cons.
  pose proof (H a (or_introl eq_refl)).
  specialize (IH (fun m Hm => H m (or_intror Hm))).
  destruct (decide (f a)); simpl; lia.
Qed.

(** X24: with no negative calories stored, the prepared calories of a day
    view lie between zero and its total calories. *)
Theorem day_view_checked_le_total (db : Db) (today pid : Z)
    (vd : view_date_arg) (ctx : Main.dashboard_page) :
  (forall m, In m (meal_plans db) -> 0 <= calories m) ->
  dashboard db today (Some pid) vd = Returned (Page ctx) ->
  0 <= checked_calories ctx <= total_calories ctx.
Proof.
  intros Hcal Hd.
  destruct (get_profile db pid) as [p|] eqn:Hp.
  2:{ unfold dashboard in Hd. rewrite Hp in Hd. discriminate. }
  destruct (dashboard_page db today pid p vd Hp) as (slots0 & sd & _ & _ & Hd').
  rewrite Hd' in Hd. injection Hd as <-.
  cbn [checked_calories total_calories].
  rewrite !py_sum_sum_Z.
  apply (sum_Z_filter_le
           (fun m => bool_decide (id m ∈ checked_ids_of db pid))
           (meals_on db sd pid)).
  intros m Hm. apply Hcal.
  eapply Permutation_in in Hm; [|apply meals_on_rows].
  now apply in_rows_on in Hm.
Qed.

Lemma day_view_checked_le_total_witness :
  exists ctx,
    dashboard template_db 739669 (Some 1) NoViewDate = Returned (Page ctx) /\
    0 <= checked_calories ctx <= total_calories ctx.
Proof.
  eexists. split; [reflexivity|].
  apply (day_view_checked_le_total template_db 739669 1 NoViewDate _).
  - intros m Hin. repeat (destruct Hin as [<-|Hin]; [simpl; lia|]). destruct Hin.
  - reflexivity.
Defined.

(** ** The admin gate *)

(** X25: no admin write without an admin session.  When the
    [admin_session] cookie is missing or empty, each of the handlers that
    change meals or models answers 401 "Unauthorized" and leaves the store
    exactly as it was. *)
Theorem admin_writes_need_session (st : store) (req : request) (now : string)
    (i d cal : Z) (s1 s2 s3 s4 : string) (f1 f2 f3 f4 : float) (pid : Z) :
  truthy_opt (get_admin_session req) = false ->
  delete_meal st req i = (st, Returned (Html 401 "Unauthorized")) /\
  add_meal_manual st now req d s1 s2 s3 cal f1 f2 f3 f4 pid
    = (st, Returned (Html 401 "Unauthorized")) /\
  copy_meal st now req i d = (st, Returned (Html 401 "Unauthorized")) /\
  add_model st req s1 s2 s3 s4 = (st, Returned (Html 401 "Unauthorized")) /\
  delete_model st req i = (st, Returned (Html 401 "Unauthorized")) /\
  set_default_model st req i = (st, Returned (Html 401 "Unauthorized")) /\
  edit_meal (st_db st) (get_admin_session req) i d s1 s2 cal f1 f2 f3 pid
    = (st_db st, Returned Unauthorized).
Proof.
  intros H.
  unfold delete_meal, add_meal_manual, copy_meal, add_model, delete_model,
    set_default_model, edit_meal.
  rewrite H. repeat split.
Qed.

Lemma admin_writes_need_session_witness :
  delete_meal template_store profile1_request 2
  = (template_store, Returned (Html 401 "Unauthorized")).
Proof.
  exact (proj1 (admin_writes_need_session template_store profile1_request ""
                  2 0 0 "" "" "" "" 0%float 0%float 0%float 0%float 0 eq_refl)).
Defined.
